(** * The order status transition engine of the bookstore backend

    A shallow embedding of [store/services/order_updater.py] together with the
    parts of [store/models.py] and [config/core/roles.py] it relies on, and the
    properties of the engine stated by the specification.

    Python objects are records, the change-set ([validated_data], a [dict]) is
    a finite map from field names to dynamically typed values, and the methods
    of [OrderUpdater] are computations in a state-and-exception monad: the
    state holds the updater instance ([self]) and the database, and a raised
    exception keeps the state reached so far, as in Python. *)

From Stdlib Require Import Ascii.
From stdpp Require Import gmap strings list.

Open Scope string_scope.

(** ** Python strings: [str.strip] and [str.lower] (ASCII) *)

Definition ascii_lower (c : ascii) : ascii :=
  let n := nat_of_ascii c in
  if (65 <=? n)%nat && (n <=? 90)%nat then ascii_of_nat (n + 32) else c.

Fixpoint lower (s : string) : string :=
  match s with
  | EmptyString => EmptyString
  | String c r => String (ascii_lower c) (lower r)
  end.

Definition is_space (c : ascii) : bool :=
  let n := nat_of_ascii c in
  ((9 <=? n)%nat && (n <=? 13)%nat) || ((28 <=? n)%nat && (n <=? 32)%nat).

Fixpoint lstrip (s : string) : string :=
  match s with
  | EmptyString => EmptyString
  | String c r => if is_space c then lstrip r else s
  end.

Fixpoint rstrip (s : string) : string :=
  match s with
  | EmptyString => EmptyString
  | String c r =>
      match rstrip r with
      | EmptyString => if is_space c then EmptyString else String c EmptyString
      | r' => String c r'
      end
  end.

Definition strip (s : string) : string := rstrip (lstrip s).

(** ** store/models.py *)

(** [django.contrib.auth.models.User]: the attributes read by the roles
    module.  [groups] holds the names of the groups the user belongs to. *)
Module User.
Record t := Build {
  id : Z;
  is_superuser : bool;
  is_authenticated : bool;
  groups : list string
}.
End User.

(** [class OrderStatus(SluggedTitleModel)] *)
Module OrderStatus.
Record t := Build {
  id : Z;
  title : string;
  slug : string
}.
End OrderStatus.

(** [class Address(models.Model)]: the updater only compares addresses, which
    Django does by primary key; the postal columns are never read by it. *)
Module Address.
Record t := Build {
  id : Z;
  user : Z;
  recipient : string
}.
End Address.

(** [class Order(models.Model)].  [total] is a [DecimalField] with two decimal
    places, kept in hundredths; timestamps are instants on the clock. *)
Module Order.
Record t := Build {
  id : Z;
  user : User.t;
  deliverer : option User.t;
  delivery_address : Address.t;
  status : OrderStatus.t;
  total : Z;
  when_placed : Z;
  when_last_update : Z
}.

Definition with_deliverer (d : option User.t) (o : t) : t :=
  Build (id o) (user o) d (delivery_address o) (status o) (total o)
        (when_placed o) (when_last_update o).
Definition with_delivery_address (a : Address.t) (o : t) : t :=
  Build (id o) (user o) (deliverer o) a (status o) (total o)
        (when_placed o) (when_last_update o).
Definition with_status (s : OrderStatus.t) (o : t) : t :=
  Build (id o) (user o) (deliverer o) (delivery_address o) s (total o)
        (when_placed o) (when_last_update o).
Definition with_when_last_update (ts : Z) (o : t) : t :=
  Build (id o) (user o) (deliverer o) (delivery_address o) (status o) (total o)
        (when_placed o) ts.
End Order.

(** [class OrderHistory(models.Model)]; [order] is the foreign key. *)
Module OrderHistory.
Record t := Build {
  order : Z;
  status : OrderStatus.t;
  timestamp : Z;
  performed_by : option User.t;
  action : string
}.
End OrderHistory.

(** ** Python values held by the change-set *)

Inductive Value :=
| VNone
| VStr (s : string)
| VNum (z : Z)
| VUser (u : User.t)
| VAddress (a : Address.t)
| VStatus (s : OrderStatus.t).

(** Truth value of an object: [None], the empty string and zero are false,
    model instances are true. *)
Definition truthy (v : Value) : bool :=
  match v with
  | VNone => false
  | VStr s => negb (String.eqb s "")
  | VNum z => negb (z =? 0)%Z
  | VUser _ | VAddress _ | VStatus _ => true
  end.

(** [==]: Django's [Model.__eq__] compares the concrete model and the primary
    key. *)
Definition py_eq (a b : Value) : bool :=
  match a, b with
  | VNone, VNone => true
  | VStr x, VStr y => String.eqb x y
  | VNum x, VNum y => (x =? y)%Z
  | VUser x, VUser y => (User.id x =? User.id y)%Z
  | VAddress x, VAddress y => (Address.id x =? Address.id y)%Z
  | VStatus x, VStatus y => (OrderStatus.id x =? OrderStatus.id y)%Z
  | _, _ => false
  end.

(** A nullable foreign key read as a Python value. *)
Definition of_user (u : option User.t) : Value :=
  match u with
  | Some u => VUser u
  | None => VNone
  end.

(** [x in (a, b, ...)] on strings. *)
Definition str_in (x : string) (l : list string) : bool := bool_decide (x ∈ l).

(** ** config/core/roles.py *)

Definition is_role (user : User.t) (role : string) : bool :=
  let role := lower (strip role) in
  if String.eqb role "admin" then User.is_superuser user
  else existsb (fun name => String.eqb (lower name) (lower role)) (User.groups user).

Fixpoint first_role (user : User.t) (roles : list string) : option string :=
  match roles with
  | [] => None
  | role :: rest => if is_role user role then Some role else first_role user rest
  end.

Definition get_role (user : User.t) : string :=
  let roles := ["admin"; "manager"; "delivery"] in
  match first_role user roles with
  | Some role => role
  | None => if User.is_authenticated user then "customer" else "anonymous"
  end.

(** ** Exceptions *)

(** The [detail] of a REST framework exception.  The field-permission message
    interpolates a Python [set], whose printing order is unspecified, so it is
    kept as the set itself; the other messages are the formatted strings. *)
Inductive Detail :=
| Text (msg : string)
| FieldsText (fields : gset string)
| Dict (key msg : string).

Inductive Exn :=
| ValidationError (detail : Detail)
| PermissionDenied (detail : Detail)
| DoesNotExist (slug : string)
| KeyError (key : Value)
| AttributeError (obj : Value) (name : string)
| ValueError (obj : Value).

(** ** The database and the clock *)

(** The tables the updater touches: orders by primary key, the history table
    in insertion order, and the seeded statuses by their unique slug.  The
    clock is an oracle: its [n]-th reading is [clock n]. *)
Record World := BuildWorld {
  orders : gmap Z Order.t;
  order_histories : list OrderHistory.t;
  order_statuses : gmap string OrderStatus.t;
  clock : nat -> Z;
  ticks : nat
}.

(** ** store/services/order_updater.py *)

Module OrderUpdater.

(** Maps current -> allowed new statuses by role *)
Definition STATUS_TRANSITIONS : gmap string (gmap string (list string)) :=
  list_to_map [
    ("pending", list_to_map [
      ("shipped", ["admin"; "manager"]);
      ("under-review", ["admin"; "manager"; "customer"]);
      ("failed", ["admin"; "manager"]) ]);
    ("shipped", list_to_map [
      ("delivered", ["admin"; "delivery"]);
      ("under-review", ["admin"; "manager"; "delivery"]) ]);
    ("delivered", list_to_map [
      ("under-review", ["admin"; "manager"; "customer"]) ]);
    ("under-review", list_to_map [
      ("shipped", ["admin"; "manager"]);
      ("cancelled", ["admin"; "manager"]);
      ("refunded", ["admin"; "manager"]);
      ("failed", ["admin"; "manager"]) ]);
    ("failed", list_to_map [
      ("under-review", ["admin"; "manager"; "customer"]) ])
  ].

(** Allowed original statuses for intent types *)
Definition INTENTS_ORIGIN_STATUSES : gmap string (list string) :=
  list_to_map [
    ("cancellation", ["pending"; "failed"]);
    ("refund", ["delivered"])
  ].

(** The instance attributes set by [__init__]. *)
Record t := Build {
  order : Order.t;
  user : User.t;
  data : gmap string Value;
  role : string;
  intent : Value;
  action_description : string
}.

Definition with_order (o : Order.t) (s : t) : t :=
  Build o (user s) (data s) (role s) (intent s) (action_description s).
Definition with_data (d : gmap string Value) (s : t) : t :=
  Build (order s) (user s) d (role s) (intent s) (action_description s).
Definition with_action_description (a : string) (s : t) : t :=
  Build (order s) (user s) (data s) (role s) (intent s) a.
Definition with_role (r : string) (s : t) : t :=
  Build (order s) (user s) (data s) r (intent s) (action_description s).

(** [__init__]: [data.pop('intent', None)] removes the entry from the
    change-set. *)
Definition init (order : Order.t) (user : User.t) (data : gmap string Value) : t :=
  Build order user (delete "intent" data) (get_role user)
        (default VNone (data !! "intent")) "".

(** *** The monad of the methods *)

Definition M (A : Type) : Type := t * World -> (Exn + A) * (t * World).

#[export] Instance M_ret : MRet M := fun A a st => (inr a, st).
#[export] Instance M_bind : MBind M := fun A B f m st =>
  match m st with
  | (inr a, st') => f a st'
  | (inl e, st') => (inl e, st')
  end.

Definition raise {A} (e : Exn) : M A := fun st => (inl e, st).
Definition self : M t := fun st => (inr (fst st), st).
Definition update_self (f : t -> t) : M unit := fun st => (inr tt, (f (fst st), snd st)).
Definition world : M World := fun st => (inr (snd st), st).
Definition update_world (f : World -> World) : M unit :=
  fun st => (inr tt, (fst st, f (snd st))).

(** [timezone.now()] / [timezone.localtime()] *)
Definition now : M Z :=
  w ← world;
  update_world (fun w => BuildWorld (orders w) (order_histories w) (order_statuses w)
                                    (clock w) (S (ticks w)));;
  mret (clock w (ticks w)).

(** [OrderStatus.objects.get(slug=...)] *)
Definition OrderStatus_get (slug : string) : M OrderStatus.t :=
  w ← world;
  match order_statuses w !! slug with
  | Some s => mret s
  | None => raise (DoesNotExist slug)
  end.

(** [OrderHistory.objects.create(...)]: [timestamp] has [auto_now_add]. *)
Definition OrderHistory_create (order : Order.t) (status : OrderStatus.t)
    (performed_by : User.t) (action : string) : M unit :=
  ts ← now;
  update_world (fun w =>
    BuildWorld (orders w)
               (order_histories w ++
                  [OrderHistory.Build (Order.id order) status ts (Some performed_by) action])
               (order_statuses w) (clock w) (ticks w)).

(** [self.order.save()]: [when_last_update] has [auto_now], so it is set to
    the current time before the row is written; [when_placed] has
    [auto_now_add] and is left alone when an existing row is saved. *)
Definition save : M unit :=
  ts ← now;
  update_self (fun s => with_order (Order.with_when_last_update ts (order s)) s);;
  s ← self;
  update_world (fun w =>
    BuildWorld (<[Order.id (order s) := order s]> (orders w))
               (order_histories w) (order_statuses w) (clock w) (ticks w)).

(** [self.data['status'] = v] *)
Definition set_data_status (v : OrderStatus.t) : M unit :=
  update_self (fun s => with_data (<["status" := VStatus v]> (data s)) s).

(** *** The methods *)

Definition allowed_fields (role : string) : gset string :=
  if str_in role ["admin"; "manager"] then {["status"; "deliverer"]}
  else if String.eqb role "delivery" then {["status"]}
  else (* customer *) {["delivery_address"; "intent"]}.

Definition _check_allowed_fields : M unit :=
  s ← self;
  let role := role s in
  let attempted_fields := dom (data s) in
  let disallowed_fields := attempted_fields ∖ allowed_fields role in
  if bool_decide (disallowed_fields ≠ ∅) then
    raise (ValidationError (FieldsText disallowed_fields))
  else mret tt.

Definition _handle_deliverer : M unit :=
  s ← self;
  let new_deliverer := default VNone (data s !! "deliverer") in
  if negb (truthy new_deliverer) then mret tt
  else if negb (py_eq new_deliverer (of_user (Order.deliverer (order s)))) then
    match new_deliverer with
    | VUser u =>
        update_self (fun s => with_order (Order.with_deliverer (Some u) (order s)) s);;
        s ← self;
        if str_in (OrderStatus.slug (Order.status (order s))) ["pending"; "under-review"] then
          shipped ← OrderStatus_get "shipped";
          set_data_status shipped
        else mret tt
    | other => raise (ValueError other)
    end
  else mret tt.

Definition _handle_delivery_address : M unit :=
  s ← self;
  let new_address := default VNone (data s !! "delivery_address") in
  if negb (truthy new_address)
     || py_eq new_address (VAddress (Order.delivery_address (order s))) then mret tt
  else
    let current_status := Order.status (order s) in
    if negb (str_in (OrderStatus.slug current_status) ["pending"; "failed"]) then
      raise (ValidationError (Text (
        "You cannot change the delivery address at this stage (current status: "
        +:+ OrderStatus.title current_status +:+ ").")))
    else
      match new_address with
      | VAddress a =>
          update_self (fun s => with_order (Order.with_delivery_address a (order s)) s);;
          if String.eqb (OrderStatus.slug current_status) "failed" then
            under_review ← OrderStatus_get "under-review";
            set_data_status under_review
          else mret tt
      | other => raise (ValueError other)
      end.

Definition _handle_intent : M unit :=
  s ← self;
  if negb (truthy (intent s)) then mret tt
  else
    match intent s with
    | VStr name =>
        match INTENTS_ORIGIN_STATUSES !! name with
        | Some origins =>
            if negb (str_in (OrderStatus.slug (Order.status (order s))) origins) then
              raise (ValidationError (Text (
                "You cannot request " +:+ name +:+ " at this stage (current status: "
                +:+ OrderStatus.title (Order.status (order s)) +:+ ").")))
            else
              under_review ← OrderStatus_get "under-review";
              set_data_status under_review;;
              update_self (with_action_description (
                "Customer requested " +:+ name
                +:+ ". Status transitioned to Under Review."))
        | None => raise (KeyError (VStr name))
        end
    | other => raise (KeyError other)
    end.

Definition _log_history (new_status : OrderStatus.t) : M unit :=
  s ← self;
  let action :=
    if negb (String.eqb (action_description s) "") then action_description s
    else "Status transitioned to " +:+ OrderStatus.title new_status in
  OrderHistory_create (order s) new_status (user s) action.

Definition _handle_status_transition : M unit :=
  s ← self;
  let new_status := default VNone (data s !! "status") in
  let current_status := Order.status (order s) in
  if negb (truthy new_status) || py_eq new_status (VStatus (Order.status (order s))) then
    mret tt
  else
    let allowed_transitions :=
      default ∅ (STATUS_TRANSITIONS !! OrderStatus.slug current_status) in
    match new_status with
    | VStatus new_status =>
        match allowed_transitions !! OrderStatus.slug new_status with
        | None =>
            raise (ValidationError (Dict "status" (
              "You cannot update an order status from "
              +:+ OrderStatus.title current_status +:+ " to "
              +:+ OrderStatus.title new_status)))
        | Some roles =>
            if negb (str_in (role s) roles) then
              raise (PermissionDenied (Dict "status" (
                "You do not have permission to update this order status from "
                +:+ OrderStatus.title current_status +:+ " to "
                +:+ OrderStatus.title new_status)))
            else
              update_self (fun s => with_order (Order.with_status new_status (order s)) s);;
              ts ← now;
              update_self (fun s =>
                with_order (Order.with_when_last_update ts (order s)) s);;
              _log_history new_status
        end
    | other => raise (AttributeError other "slug")
    end.

Definition run : M Order.t :=
  _check_allowed_fields;;
  _handle_deliverer;;
  _handle_delivery_address;;
  _handle_intent;;
  _handle_status_transition;;
  save;;
  s ← self;
  mret (order s).

(** The stages of [run] that precede [self.order.save()]. *)
Definition guard_and_handlers : M unit :=
  _check_allowed_fields;;
  _handle_deliverer;;
  _handle_delivery_address;;
  _handle_intent.

Definition stages_before_save : M unit :=
  guard_and_handlers;;
  _handle_status_transition.

(** The value of [self.data.get('status')] that reaches the transition
    step, when the guard and the three handlers all pass. *)
Definition proposed_target (st : t * World) : option Value :=
  match guard_and_handlers st with
  | (inr _, (s', _)) => data s' !! "status"
  | (inl _, _) => None
  end.

(** The role list of an edge of [STATUS_TRANSITIONS], if there is one. *)
Definition edge_roles (current target : string) : option (list string) :=
  default ∅ (STATUS_TRANSITIONS !! current) !! target.

End OrderUpdater.

(** [OrderSerializer.update]: builds the updater and runs it. *)
Definition update (instance : Order.t) (user : User.t)
    (validated_data : gmap string Value) (w : World)
    : (Exn + Order.t) * (OrderUpdater.t * World) :=
  OrderUpdater.run (OrderUpdater.init instance user validated_data, w).

(** ** Sample data

    A seeded status table, four actors (one per role), and an order of the
    customer; used to run the engine on concrete requests. *)

Module Sample.
Open Scope Z_scope.

Definition pending := OrderStatus.Build 1 "Pending" "pending".
Definition shipped := OrderStatus.Build 2 "Shipped" "shipped".
Definition delivered := OrderStatus.Build 3 "Delivered" "delivered".
Definition under_review := OrderStatus.Build 4 "Under Review" "under-review".
Definition cancelled := OrderStatus.Build 5 "Cancelled" "cancelled".
Definition refunded := OrderStatus.Build 6 "Refunded" "refunded".
Definition failed := OrderStatus.Build 7 "Failed" "failed".

Definition statuses : gmap string OrderStatus.t :=
  list_to_map (map (fun s => (OrderStatus.slug s, s))
    [pending; shipped; delivered; under_review; cancelled; refunded; failed]).

Definition admin := User.Build 1 true true [].
Definition manager := User.Build 2 false true ["Manager"].
Definition courier := User.Build 3 false true ["delivery"].
Definition customer := User.Build 10 false true [].

Definition home := Address.Build 100 10 "A. Reader".
Definition office := Address.Build 101 10 "A. Reader".

(** Order 7 of the customer, in a given status, last updated at 1005. *)
Definition order_in (s : OrderStatus.t) : Order.t :=
  Order.Build 7 customer None home s 2599 1000 1005.

(** A database holding that order and no history; the clock reads 2000,
    2001, 2002, ... *)
Definition world_in (s : OrderStatus.t) : World :=
  BuildWorld {[ 7 := order_in s ]} [] statuses (fun n => 2000 + Z.of_nat n) 0.

(** An updater state for [order_in s] with a given role and change-set. *)
Definition updater (s : OrderStatus.t) (actor : User.t) (role : string)
    (data : gmap string Value) (intent : Value) : OrderUpdater.t :=
  OrderUpdater.Build (order_in s) actor data role intent "".
End Sample.

(** ** Frame conditions

    What a stage may and may not touch, as relations between the state before
    and after it. *)

(** The columns of an order that identify it and that the engine has no
    business changing. *)
Definition same_identity (o o' : Order.t) : Prop :=
  Order.id o' = Order.id o ∧ Order.user o' = Order.user o
  ∧ Order.total o' = Order.total o ∧ Order.when_placed o' = Order.when_placed o.

(** The updater keeps its actor, its role and the identity of its order, and
    the status table and the clock function are only read. *)
Definition stage_frame (st st' : OrderUpdater.t * World) : Prop :=
  same_identity (OrderUpdater.order st.1) (OrderUpdater.order st'.1)
  ∧ OrderUpdater.user st'.1 = OrderUpdater.user st.1
  ∧ OrderUpdater.role st'.1 = OrderUpdater.role st.1
  ∧ order_statuses st'.2 = order_statuses st.2
  ∧ clock st'.2 = clock st.2.

(** No row of the order table or of the history table is written, and the
    clock is not read. *)
Definition no_writes (st st' : OrderUpdater.t * World) : Prop :=
  orders st'.2 = orders st.2 ∧ order_histories st'.2 = order_histories st.2
  ∧ ticks st'.2 = ticks st.2.

(** The status and the last-update timestamp of the in-memory order are
    those it had before. *)
Definition status_untouched (st st' : OrderUpdater.t * World) : Prop :=
  Order.status (OrderUpdater.order st'.1) = Order.status (OrderUpdater.order st.1)
  ∧ Order.when_last_update (OrderUpdater.order st'.1)
    = Order.when_last_update (OrderUpdater.order st.1).

(** ** Validated input

    What the serializer hands to the updater: a status entry is a status
    row, a deliverer entry is a user or [None], a delivery address entry is
    an address, and the intent is absent or one of the two choices. *)

Definition validated_entry (field : string) (v : Value) : Prop :=
  (field = "status" -> exists s, v = VStatus s)
  ∧ (field = "deliverer" -> v = VNone ∨ exists u, v = VUser u)
  ∧ (field = "delivery_address" -> exists a, v = VAddress a).

Definition validated (s : OrderUpdater.t) : Prop :=
  (forall field v, OrderUpdater.data s !! field = Some v -> validated_entry field v)
  ∧ (OrderUpdater.intent s = VNone
     ∨ OrderUpdater.intent s = VStr "cancellation"
     ∨ OrderUpdater.intent s = VStr "refund").

(** The two status rows the handlers look up are in the status table. *)
Definition seeded (w : World) : Prop :=
  is_Some (order_statuses w !! "shipped")
  ∧ is_Some (order_statuses w !! "under-review").

(** The exceptions the REST framework turns into a 4xx response. *)
Definition is_api_error (e : Exn) : Prop :=
  match e with
  | ValidationError _ | PermissionDenied _ => True
  | _ => False
  end.

(** The outcome of a stage on validated input: a result or an API error, and
    the input of the next stage is validated too. *)
Definition stage_safe (st : OrderUpdater.t * World)
    (r : (Exn + unit) * (OrderUpdater.t * World)) : Prop :=
  match r.1 with
  | inl e => is_api_error e
  | inr _ => validated r.2.1 ∧ r.2.2 = st.2
  end.

(** The deliverer and the delivery address of the in-memory order after a
    stage: each is what it was, or the value proposed for it in the
    change-set; and the stage rewrites no entry of the change-set but
    status. *)
Definition fields_from_change_set (st st' : OrderUpdater.t * World) : Prop :=
  (Order.deliverer (OrderUpdater.order st'.1)
   = Order.deliverer (OrderUpdater.order st.1)
   ∨ exists u, OrderUpdater.data st.1 !! "deliverer" = Some (VUser u)
               ∧ Order.deliverer (OrderUpdater.order st'.1) = Some u)
  ∧ (Order.delivery_address (OrderUpdater.order st'.1)
     = Order.delivery_address (OrderUpdater.order st.1)
     ∨ exists a, OrderUpdater.data st.1 !! "delivery_address" = Some (VAddress a)
                 ∧ Order.delivery_address (OrderUpdater.order st'.1) = a)
  ∧ (forall k, k ≠ "status" ->
       OrderUpdater.data st'.1 !! k = OrderUpdater.data st.1 !! k).

(** ** config/core/throttling.py *)

(** The throttle classes, by name. *)
Inductive Throttle :=
| AnonRateThrottle
| ManagerThrottle
| DeliveryThrottle
| CustomerThrottle.

Definition get_role_throttle (user : User.t) : list Throttle :=
  let role := get_role user in
  if negb (User.is_authenticated user) then [AnonRateThrottle]
  else if str_in role ["admin"; "manager"] then [ManagerThrottle]
  else if String.eqb role "delivery" then [DeliveryThrottle]
  else [CustomerThrottle].

(** ** store/permissions.py and reviews/permissions.py *)

(** The request as the permission classes read it. *)
Module Request.
Record t := Build {
  method : string;
  user : User.t
}.
End Request.

(** [rest_framework.permissions.SAFE_METHODS] *)
Definition SAFE_METHODS : list string := ["GET"; "HEAD"; "OPTIONS"].

(** [request.user == obj.user]: two saved users are equal when their primary
    keys are; an anonymous user equals only an anonymous user. *)
Definition user_eq (a b : User.t) : bool :=
  match User.is_authenticated a, User.is_authenticated b with
  | true, true => (User.id a =? User.id b)%Z
  | false, false => true
  | _, _ => false
  end.

(** [IsAuthenticated.has_permission] of the REST framework. *)
Definition IsAuthenticated_has_permission (request : Request.t) : bool :=
  User.is_authenticated (Request.user request).

Module IsAdminOrManager.
Definition has_permission (request : Request.t) : bool :=
  (* first check authentication *)
  if negb (IsAuthenticated_has_permission request) then false
  else
    let user := Request.user request in
    is_role user "admin" || is_role user "manager".
End IsAdminOrManager.

Module ReadOnlyOrIsAdminOrManager.
Definition has_permission (request : Request.t) : bool :=
  if str_in (Request.method request) SAFE_METHODS then true
  else IsAdminOrManager.has_permission request.
End ReadOnlyOrIsAdminOrManager.

Module CartPermission.
Definition has_permission := IsAuthenticated_has_permission.
Definition has_object_permission (request : Request.t) (obj_user : User.t) : bool :=
  let user := Request.user request in
  let is_cart_owner := user_eq user obj_user in
  if is_role user "admin" || is_cart_owner then true
  else if is_role user "manager" && str_in (Request.method request) SAFE_METHODS
  then true
  else false.
End CartPermission.

Module AddressPermission.
Definition has_permission := IsAuthenticated_has_permission.
Definition has_object_permission (request : Request.t) (obj_user : User.t) : bool :=
  let user := Request.user request in
  let is_cart_owner := user_eq user obj_user in
  if is_role user "admin" || is_cart_owner then true
  else false.
End AddressPermission.

(** [request.parser_context] is [None] when the request has no parser context
    with a ['kwargs'] entry; otherwise it is the mapping of the URL keyword
    arguments.  The result is the boolean, or the message of the
    [APIException] raised. *)
Module HandleEmployeeGroupPermission.
Definition has_permission (request : Request.t)
    (kwargs : option (gmap string string)) : string + bool :=
  if negb (IsAuthenticated_has_permission request) then inr false
  else
    match kwargs with
    | None =>
        inl "Server misconfiguration: 'group_name' not found in request context."
    | Some kwargs =>
        let group_name := kwargs !! "group_name" in
        let user := Request.user request in
        if bool_decide (group_name = Some "manager") then
          inr (is_role user "admin")
        else if bool_decide (group_name = Some "delivery") then
          inr (is_role user "admin" || is_role user "manager")
        else inr false
    end.
End HandleEmployeeGroupPermission.

Module ReviewPermission.
Definition has_permission (request : Request.t) : bool := true.
Definition has_object_permission (request : Request.t) (obj_user : User.t) : bool :=
  if str_in (Request.method request) SAFE_METHODS then true
  else
    let user := Request.user request in
    let is_author := user_eq user obj_user in
    if is_author then true
    else if String.eqb (Request.method request) "DELETE" then
      is_author || User.is_superuser user
    else is_author.
End ReviewPermission.

(** ** store/views.py: the orders a user may see *)

(** A queryset of orders is the finite map of its rows by primary key.
    [filter(deliverer=user)] and [filter(user=user)] compare the foreign key
    with the primary key of the user; for an anonymous user, who has none,
    building the filter raises [TypeError], which is [None] here. *)
Definition delivered_by (user : User.t) (o : Order.t) : bool :=
  match Order.deliverer o with
  | Some d => (User.id d =? User.id user)%Z
  | None => false
  end.

Definition placed_by (user : User.t) (o : Order.t) : bool :=
  (User.id (Order.user o) =? User.id user)%Z.

Definition get_orders (w : World) (user : User.t) : option (gmap Z Order.t) :=
  let base_qs := orders w in
  let role := get_role user in
  if str_in role ["admin"; "manager"] then Some base_qs
  else if negb (User.is_authenticated user) then None
  else if String.eqb role "delivery" then
    Some (filter (fun kv => delivered_by user kv.2 = true) base_qs)
  else
    Some (filter (fun kv => placed_by user kv.2 = true) base_qs).

(** The order with primary key [k] is in the queryset of [user]. *)
Definition can_see (w : World) (user : User.t) (k : Z) : Prop :=
  exists qs, get_orders w user = Some qs ∧ is_Some (qs !! k).

(** ** store/serializers.py: [OrderSerializer.validate] *)

Definition OrderSerializer_validate (attrs : gmap string Value)
    : Exn + gmap string Value :=
  let deliverer := default VNone (attrs !! "deliverer") in
  if truthy deliverer then
    match deliverer with
    | VUser u =>
        if negb (existsb (String.eqb "delivery") (User.groups u)) then
          inl (ValidationError (Dict "deliverer"
                 "You can assign this order only to a Delivery Crew member"))
        else inr attrs
    | other => inl (AttributeError other "groups")
    end
  else inr attrs.

(** ** store/views.py: the history and the items of an order *)

(** [class OrderItem(models.Model)]; [order] and [book] are the foreign
    keys, the amounts are in hundredths. *)
Module OrderItem.
Record t := Build {
  order : Z;
  book : Z;
  quantity : Z;
  unit_price : Z;
  price : Z
}.
End OrderItem.

(** What a [get_queryset] raises: the two API exceptions, and the
    [TypeError] of a filter on an anonymous user. *)
Inductive ViewError :=
| NotFound (detail : string)
| Forbidden (detail : string)
| FilterTypeError.

(** [self.kwargs.get('order_id')] is the integer of the URL, if any;
    [if order_id:] takes zero for absent. *)
Definition given_order_id (order_id : option Z) : option Z :=
  match order_id with
  | Some k => if (k =? 0)%Z then None else Some k
  | None => None
  end.

Module OrderHistoryViewSet.
Definition get_queryset (w : World) (user : User.t) (order_id : option Z)
    : ViewError + list OrderHistory.t :=
  let role := get_role user in
  let base_qs := order_histories w in
  match given_order_id order_id with
  | Some order_id =>
      match get_orders w user with
      | None => inl FilterTypeError
      | Some orders =>
          match orders !! order_id with
          | Some order =>
              inr (filter (fun h => OrderHistory.order h = Order.id order) base_qs)
          | None => inl (NotFound "Order not found or not accessible")
          end
      end
  | None =>
      if str_in role ["admin"; "manager"] then inr base_qs
      else inr []
  end.
End OrderHistoryViewSet.

Module OrderItemViewSet.
Definition get_queryset (w : World) (order_items : list OrderItem.t)
    (user : User.t) (order_id : option Z) : ViewError + list OrderItem.t :=
  let role := get_role user in
  let base_qs := order_items in
  if String.eqb role "delivery" then
    inl (Forbidden "You don't have access to the content of this order")
  else
    match given_order_id order_id with
    | Some order_id =>
        match get_orders w user with
        | None => inl FilterTypeError
        | Some orders =>
            match orders !! order_id with
            | Some order =>
                inr (filter (fun i => OrderItem.order i = Order.id order) base_qs)
            | None => inl (NotFound "Order not found or not accessible")
            end
        end
    | None =>
        if str_in role ["admin"; "manager"] then inr base_qs
        else inr []
    end.
End OrderItemViewSet.

(** ** The cart: store/models.py, store/serializers.py, store/views.py *)

(** [class Stock(SluggedTitleModel)] *)
Module Stock.
Record t := Build {
  id : Z;
  title : string;
  slug : string
}.
End Stock.

(** [class Book(models.Model)]: the columns the cart reads.  [baseprice] is
    a [DecimalField] with two decimal places, kept in hundredths; [discount]
    is a percentage. *)
Module Book.
Record t := Build {
  id : Z;
  stock : Stock.t;
  baseprice : Z;
  discount : Z
}.
End Book.

(** [class Cart(models.Model)], amounts in hundredths. *)
Module Cart.
Record t := Build {
  id : Z;
  user : User.t;
  book : Book.t;
  quantity : Z;
  unit_price : Z;
  price : Z
}.
End Cart.

(** [round(x, 2)] on a [Decimal]: the nearest multiple of a hundredth, ties
    to the even one.  [round_half_even n d] is the nearest integer to the
    quotient [n / d] for a positive [d]. *)
Definition round_half_even (n d : Z) : Z :=
  let q := (n / d)%Z in
  let r := (n mod d)%Z in
  if (2 * r <? d)%Z then q
  else if (d <? 2 * r)%Z then (q + 1)%Z
  else if Z.even q then q else (q + 1)%Z.

(** [BookSerializer.get_price]:
    [round(bookobj.baseprice * (100-bookobj.discount) / 100, 2)]; the
    product of a price in hundredths and an integer is divided by 100. *)
Definition BookSerializer_get_price (bookobj : Book.t) : Z :=
  round_half_even (Book.baseprice bookobj * (100 - Book.discount bookobj)) 100.

(** The validated data of the cart serializer: the two entries its methods
    read, and the names of the other entries present. *)
Module CartData.
Record t := Build {
  quantity : option Z;
  book : option Book.t;
  others : gset string
}.

Definition keys (d : t) : gset string :=
  (match quantity d with Some _ => {["quantity"]} | None => ∅ end)
  ∪ (match book d with Some _ => {["book"]} | None => ∅ end)
  ∪ others d.
End CartData.

(** The amount columns are [DecimalField(max_digits=6, decimal_places=2)]:
    an amount of more than six digits is refused when the row is written (by
    the field's preparation of the value, or by the database). *)
Definition fits_column (x : Z) : bool := (Z.abs x <? 1000000)%Z.

Inductive CartError :=
| CartValidationError (detail : Detail)
| CartKeyError (key : string)
| CartTypeError
| CartValueError
| CartColumnOverflow
| CartIntegrityError.

(** [unique_together = ('user', 'book')] *)
Definition same_entry (a b : Cart.t) : bool :=
  (User.id (Cart.user a) =? User.id (Cart.user b))%Z
  && (Book.id (Cart.book a) =? Book.id (Cart.book b))%Z.

(** [Cart.objects.create(...)] on the cart table, in insertion order. *)
Definition Cart_objects_create (carts : list Cart.t) (row : Cart.t)
    : CartError + (Cart.t * list Cart.t) :=
  if negb (User.is_authenticated (Cart.user row)) then inl CartValueError
  else if negb (fits_column (Cart.unit_price row) && fits_column (Cart.price row))
  then inl CartColumnOverflow
  else if existsb (same_entry row) carts then inl CartIntegrityError
  else inr (row, (carts ++ [row])%list).

Module CartSerializer.

Definition validate (attrs : CartData.t) : CartError + CartData.t :=
  match CartData.quantity attrs with
  | None => inl CartTypeError   (* None < 1 *)
  | Some quantity =>
      if (quantity <? 1)%Z then
        inl (CartValidationError (Dict "quantity" "Quantity cannot be less than 1"))
      else
        match CartData.book attrs with
        | Some book =>
            if String.eqb (Stock.slug (Book.stock book)) "out-of-stock" then
              inl (CartValidationError
                     (Dict "book" "This book is currently out of stock."))
            else if String.eqb (Stock.slug (Book.stock book)) "discontinued" then
              inl (CartValidationError
                     (Dict "book"
                        "This book has been discontinued and is no longer available."))
            else inr attrs
        | None => inr attrs
        end
  end.

(** [create]; [pk] is the primary key the database gives the new row. *)
Definition create (carts : list Cart.t) (request_user : User.t)
    (validated_data : CartData.t) (pk : Z) : CartError + (Cart.t * list Cart.t) :=
  match CartData.book validated_data with
  | None => inl (CartKeyError "book")
  | Some book =>
      match CartData.quantity validated_data with
      | None => inl (CartKeyError "quantity")
      | Some quantity =>
          let unit_price :=
            round_half_even (Book.baseprice book * (100 - Book.discount book)) 100 in
          let price := (unit_price * quantity)%Z in
          Cart_objects_create carts
            (Cart.Build pk request_user book quantity unit_price price)
      end
  end.

(** [update]; the result is the row [instance.save()] writes. *)
Definition update (instance : Cart.t) (validated_data : CartData.t)
    : CartError + Cart.t :=
  let uneditable_fields := CartData.keys validated_data ∖ {["quantity"]} in
  if bool_decide (uneditable_fields ≠ ∅) then
    inl (CartValidationError (FieldsText uneditable_fields))
  else
    match CartData.quantity validated_data with
    | None => inl (CartKeyError "quantity")
    | Some quantity =>
        let price := (Cart.unit_price instance * quantity)%Z in
        if negb (fits_column (Cart.unit_price instance) && fits_column price)
        then inl CartColumnOverflow
        else
          inr (Cart.Build (Cart.id instance) (Cart.user instance) (Cart.book instance)
                 quantity (Cart.unit_price instance) price)
    end.

End CartSerializer.

(** The body of the response of [flush_cart]: the message with the count,
    or the empty-cart text under the key the code spells ['mesasge']. *)
Inductive FlushBody :=
| Message_flushed (count : nat)
| Mesasge_empty.

Module CartViewSet.
(** [flush_cart]: the cart table after the call, the body and the status of
    the response; [None] for the [TypeError] of the filter on an anonymous
    user. *)
Definition flush_cart (carts : list Cart.t) (request_user : User.t)
    : option (list Cart.t * FlushBody * Z) :=
  if negb (User.is_authenticated request_user) then None
  else
    let mine (c : Cart.t) := User.id (Cart.user c) = User.id request_user in
    let queryset := filter mine carts in
    let count := length queryset in
    let carts' := filter (fun c => ¬ mine c) carts in
    let response_message :=
      if negb (count =? 0)%nat then Message_flushed count else Mesasge_empty in
    let response_status := if negb (count =? 0)%nat then 204%Z else 400%Z in
    Some (carts', response_message, response_status).
End CartViewSet.

(** ** store/views.py: [OrderViewSet.create] *)

(** The tables the checkout touches: those of the order engine, the carts
    and the order items, the last two in insertion order. *)
Module Shop.
Record t := Build {
  world : World;
  carts : list Cart.t;
  order_items : list OrderItem.t
}.
End Shop.

(** [sum(...)] of amounts: a left fold from 0. *)
Definition sum (amounts : list Z) : Z := foldl Z.add 0%Z amounts.

(** The row of [OrderStatus] with primary key [pk]: the target of the
    [default=1] of the [status] foreign keys. *)
Definition OrderStatus_by_pk (w : World) (pk : Z) : option OrderStatus.t :=
  snd <$> List.find (fun kv => (OrderStatus.id kv.2 =? pk)%Z)
                    (map_to_list (order_statuses w)).

(** [unique_together = ('order', 'book')] *)
Definition same_item (a b : OrderItem.t) : bool :=
  (OrderItem.order a =? OrderItem.order b)%Z
  && (OrderItem.book a =? OrderItem.book b)%Z.

(** The body of the response of the checkout. *)
Inductive CheckoutBody :=
| Order_placed (order_id : Z)
| No_item_found.

(** What the checkout raises: the error of [is_valid], the [TypeError] of
    a filter on an anonymous user (of the addresses, in the constructor of
    the serializer for a user who is neither admin nor manager, and of the
    carts), and the errors of the inserts. *)
Inductive CheckoutError :=
| CheckoutInvalid (e : Exn)
| CheckoutTypeError
| CheckoutColumnOverflow
| CheckoutIntegrityError.

Module OrderViewSet.
(** [create].  [validated] is the outcome of
    [serializer.is_valid(raise_exception=True)] with the validated
    [delivery_address], and [pk] the primary key the database gives the new
    order.  The three timestamps are three readings of the clock:
    [when_placed], [when_last_update] and the [timestamp] of the history
    entry.  An error carries no tables: what a failed request leaves behind
    is decided by the transaction settings. *)
Definition create (shop : Shop.t) (user : User.t) (validated : Exn + Address.t)
    (pk : Z) : CheckoutError + (Shop.t * CheckoutBody * Z) :=
  (* OrderSerializer(data=request.data, context={'request': request}) *)
  if negb (str_in (get_role user) ["admin"; "manager"])
     && negb (User.is_authenticated user)
  then inl CheckoutTypeError
  else
  match validated with
  | inl e => inl (CheckoutInvalid e)
  | inr delivery_address =>
      if negb (User.is_authenticated user) then inl CheckoutTypeError
      else
        let w := Shop.world shop in
        let mine (c : Cart.t) := User.id (Cart.user c) = User.id user in
        let cart_queryset := filter mine (Shop.carts shop) in
        match cart_queryset with
        | [] => inr (shop, No_item_found, 400%Z)
        | _ :: _ =>
            let total := sum (Cart.price <$> cart_queryset) in
            (* Order.objects.create(...) *)
            if negb (fits_column total) then inl CheckoutColumnOverflow
            else
              match OrderStatus_by_pk w 1, orders w !! pk with
              | None, _ | _, Some _ => inl CheckoutIntegrityError
              | Some status, None =>
                  let new_order :=
                    Order.Build pk user None delivery_address status total
                      (clock w (ticks w)) (clock w (S (ticks w))) in
                  let order_items :=
                    (fun item =>
                       OrderItem.Build pk (Book.id (Cart.book item))
                         (Cart.quantity item) (Cart.unit_price item)
                         (Cart.price item)) <$> cart_queryset in
                  (* OrderItem.objects.bulk_create(order_items) *)
                  if negb (forallb (fun i => fits_column (OrderItem.unit_price i)
                                             && fits_column (OrderItem.price i))
                                   order_items)
                  then inl CheckoutColumnOverflow
                  else if negb (bool_decide (NoDup (OrderItem.book <$> order_items)))
                          || existsb (fun i => existsb (same_item i)
                                                 (Shop.order_items shop))
                                     order_items
                  then inl CheckoutIntegrityError
                  else
                    (* OrderHistory.objects.create(...) *)
                    let history :=
                      OrderHistory.Build pk status (clock w (S (S (ticks w))))
                        (Some user) "Order created" in
                    let w' :=
                      BuildWorld (<[pk := new_order]> (orders w))
                                 (order_histories w ++ [history])
                                 (order_statuses w) (clock w) (S (S (S (ticks w)))) in
                    (* cart_queryset.delete() *)
                    inr (Shop.Build w'
                           (filter (fun c => ¬ mine c) (Shop.carts shop))
                           (Shop.order_items shop ++ order_items),
                         Order_placed pk, 201%Z)
              end
        end
  end.
End OrderViewSet.

(** A shop for the examples: the customer holds two cart entries and the
    courier one; order 7 has one item. *)
Module SampleShop.
Definition in_stock := Stock.Build 1 "In stock" "in-stock".
Definition novel := Book.Build 1 in_stock 1999 15.
Definition atlas := Book.Build 2 in_stock 4500 0.
Definition carts : list Cart.t :=
  [Cart.Build 5 Sample.customer novel 3 1699 5097;
   Cart.Build 6 Sample.courier novel 1 1699 1699;
   Cart.Build 7 Sample.customer atlas 1 4500 4500].
Definition shop : Shop.t :=
  Shop.Build (Sample.world_in Sample.pending) carts
             [OrderItem.Build 7 1 1 2599 2599].

(** The same shop where the customer holds two entries of 6000.00 each. *)
Definition folio := Book.Build 3 in_stock 600000 0.
Definition quarto := Book.Build 4 in_stock 600000 0.
Definition dear_shop : Shop.t :=
  Shop.Build (Sample.world_in Sample.pending)
             [Cart.Build 8 Sample.customer folio 1 600000 600000;
              Cart.Build 9 Sample.customer quarto 1 600000 600000]
             [OrderItem.Build 7 1 1 2599 2599].
End SampleShop.

(** * Properties *)

Import OrderUpdater.

Arguments STATUS_TRANSITIONS : simpl never.
Arguments INTENTS_ORIGIN_STATUSES : simpl never.
Arguments allowed_fields : simpl never.
Arguments str_in : simpl never.

(** Unfolds the monad and the database primitives, so that a method applied
    to a state reduces to its branches. *)
Ltac exec :=
  unfold _log_history, OrderHistory_create, save, set_data_status,
    OrderStatus_get, now, update_world, world, update_self, self, raise,
    mbind, M_bind, mret, M_ret in *;
  simpl in *.

Lemma str_in_true (x : string) (l : list string) : str_in x l = true <-> x ∈ l.
Proof. unfold str_in. apply bool_decide_eq_true. Qed.

Lemma str_in_false (x : string) (l : list string) : str_in x l = false <-> x ∉ l.
Proof. unfold str_in. apply bool_decide_eq_false. Qed.

Lemma status_differs (a b : OrderStatus.t) :
  OrderStatus.id a ≠ OrderStatus.id b -> py_eq (VStatus a) (VStatus b) = false.
Proof. intros H. simpl. by apply Z.eqb_neq. Qed.

Section Transition.
Variables (s : OrderUpdater.t) (w : World) (target : OrderStatus.t).
Hypothesis Hdata : data s !! "status" = Some (VStatus target).
Hypothesis Hnew : OrderStatus.id target ≠ OrderStatus.id (Order.status (order s)).

Let current := Order.status (order s).

Lemma transition_no_edge :
  edge_roles (OrderStatus.slug current) (OrderStatus.slug target) = None ->
  _handle_status_transition (s, w) =
    (inl (ValidationError (Dict "status" (
       "You cannot update an order status from " +:+ OrderStatus.title current
       +:+ " to " +:+ OrderStatus.title target))), (s, w)).
Proof.
  unfold edge_roles, _handle_status_transition, current. intros He. exec.
  rewrite Hdata. simpl. rewrite (proj2 (Z.eqb_neq _ _) Hnew). simpl.
  by rewrite He.
Qed.

Lemma transition_forbidden (roles : list string) :
  edge_roles (OrderStatus.slug current) (OrderStatus.slug target) = Some roles ->
  role s ∉ roles ->
  _handle_status_transition (s, w) =
    (inl (PermissionDenied (Dict "status" (
       "You do not have permission to update this order status from "
       +:+ OrderStatus.title current +:+ " to " +:+ OrderStatus.title target))), (s, w)).
Proof.
  unfold edge_roles, _handle_status_transition, current. intros He Hr. exec.
  rewrite Hdata. simpl. rewrite (proj2 (Z.eqb_neq _ _) Hnew). simpl.
  rewrite He. by rewrite (proj2 (str_in_false _ _) Hr).
Qed.

Lemma transition_commit (roles : list string) :
  edge_roles (OrderStatus.slug current) (OrderStatus.slug target) = Some roles ->
  role s ∈ roles ->
  _handle_status_transition (s, w) =
    (inr tt,
     (with_order (Order.with_when_last_update (clock w (ticks w))
                    (Order.with_status target (order s))) s,
      BuildWorld (orders w)
        (order_histories w ++
           [OrderHistory.Build (Order.id (order s)) target (clock w (S (ticks w)))
              (Some (user s))
              (if negb (String.eqb (action_description s) "") then action_description s
               else "Status transitioned to " +:+ OrderStatus.title target)])
        (order_statuses w) (clock w) (S (S (ticks w))))).
Proof.
  unfold edge_roles, _handle_status_transition, current. intros He Hr. exec.
  rewrite Hdata. simpl. rewrite (proj2 (Z.eqb_neq _ _) Hnew). simpl.
  rewrite He. by rewrite (proj2 (str_in_true _ _) Hr).
Qed.
End Transition.

(** ** Roles *)

Lemma get_role_range (u : User.t) :
  get_role u ∈ ["admin"; "manager"; "delivery"; "customer"; "anonymous"].
Proof.
  unfold get_role, first_role.
  destruct (is_role u "admin"), (is_role u "manager"), (is_role u "delivery"),
    (User.is_authenticated u);
    repeat ((apply list_elem_of_here) || apply list_elem_of_further).
Qed.

(** [admin] has priority over the groups. *)
Lemma get_role_superuser (u : User.t) :
  User.is_superuser u = true -> get_role u = "admin".
Proof. intros H. unfold get_role, first_role, is_role. simpl. by rewrite H. Qed.

(** ** The transition table *)
Lemma edge_roles_table (current target : string) (roles : list string) :
  edge_roles current target = Some roles <->
  (current, target, roles) ∈
    [ ("pending", "shipped", ["admin"; "manager"]);
      ("pending", "under-review", ["admin"; "manager"; "customer"]);
      ("pending", "failed", ["admin"; "manager"]);
      ("shipped", "delivered", ["admin"; "delivery"]);
      ("shipped", "under-review", ["admin"; "manager"; "delivery"]);
      ("delivered", "under-review", ["admin"; "manager"; "customer"]);
      ("under-review", "shipped", ["admin"; "manager"]);
      ("under-review", "cancelled", ["admin"; "manager"]);
      ("under-review", "refunded", ["admin"; "manager"]);
      ("under-review", "failed", ["admin"; "manager"]);
      ("failed", "under-review", ["admin"; "manager"; "customer"]) ].
Proof.
  split.
  - unfold edge_roles, STATUS_TRANSITIONS. simpl.
    repeat (rewrite lookup_insert; case_decide;
            [subst; simpl;
             repeat (rewrite lookup_insert; case_decide;
                     [subst; intros [= <-];
                      repeat ((apply list_elem_of_here) || apply list_elem_of_further)
                     |]);
             by rewrite lookup_empty
            |]).
    by rewrite lookup_empty.
  - rewrite !elem_of_cons, elem_of_nil.
    intros H. repeat destruct H as [H|H]; try done; by simplify_eq.
Qed.

(** ** The transition table commit *)

(** Claim C1.  On an edge of the transition table, committing a proposed
    target that differs from the current status succeeds exactly when the
    acting role is in the role list of the edge.  A role outside the list is
    refused with [PermissionDenied] (the exception of a forbidden transition),
    never with [ValidationError] (the exception of an invalid transition), and
    nothing is changed.  On success the order takes the target status, its
    last-update timestamp is set to the current clock reading, and exactly one
    history entry, for this order and the target status, is appended. *)
Theorem transition_commits_iff_role_authorized
    (s : OrderUpdater.t) (w : World) (target : OrderStatus.t) (roles : list string)
    (Hdata : data s !! "status" = Some (VStatus target))
    (Hnew : OrderStatus.id target ≠ OrderStatus.id (Order.status (order s)))
    (Hedge : edge_roles (OrderStatus.slug (Order.status (order s)))
                        (OrderStatus.slug target) = Some roles) :
  let r := _handle_status_transition (s, w) in
  (r.1 = inr tt <-> role s ∈ roles) ∧
  (role s ∉ roles ->
     r = (inl (PermissionDenied (Dict "status" (
            "You do not have permission to update this order status from "
            +:+ OrderStatus.title (Order.status (order s)) +:+ " to "
            +:+ OrderStatus.title target))), (s, w))
     ∧ forall d, r.1 ≠ inl (ValidationError d)) ∧
  (role s ∈ roles ->
     order r.2.1 = Order.with_when_last_update (clock w (ticks w))
                     (Order.with_status target (order s))
     ∧ Order.status (order r.2.1) = target
     ∧ Order.when_last_update (order r.2.1) = clock w (ticks w)
     ∧ orders r.2.2 = orders w
     ∧ exists h,
         order_histories r.2.2 = (order_histories w ++ [h])%list
         ∧ OrderHistory.order h = Order.id (order s)
         ∧ OrderHistory.status h = target
         ∧ OrderHistory.performed_by h = Some (user s)).
Proof.
  intros r. subst r. split; [|split].
  - destruct (decide (role s ∈ roles)) as [Hin|Hout].
    + rewrite (transition_commit s w target Hdata Hnew roles Hedge Hin). done.
    + rewrite (transition_forbidden s w target Hdata Hnew roles Hedge Hout).
      simpl. split; [discriminate | done].
  - intros Hout.
    rewrite (transition_forbidden s w target Hdata Hnew roles Hedge Hout).
    split; [reflexivity | simpl; discriminate].
  - intros Hin.
    rewrite (transition_commit s w target Hdata Hnew roles Hedge Hin). simpl.
    repeat split. eexists. repeat split.
Qed.

Lemma transition_commits_iff_role_authorized_witness :
  (_handle_status_transition
     (Sample.updater Sample.pending Sample.manager "manager"
        {[ "status" := VStatus Sample.shipped ]} VNone,
      Sample.world_in Sample.pending)).1 = inr tt
  <-> "manager" ∈ ["admin"; "manager"].
Proof.
  refine (proj1 (transition_commits_iff_role_authorized
    (Sample.updater Sample.pending Sample.manager "manager"
       {[ "status" := VStatus Sample.shipped ]} VNone)
    (Sample.world_in Sample.pending) Sample.shipped ["admin"; "manager"] _ _ _)).
  - reflexivity.
  - simpl. lia.
  - vm_compute. reflexivity.
Defined.

(** Claim C2.  When the table has no edge from the current status to a
    proposed target that differs from it, which is the case of every target
    when the current status is cancelled or refunded, the commit is refused
    with [ValidationError], the message names both statuses, nothing is
    changed, and the outcome is the same for every role. *)
Theorem transition_without_edge_is_invalid
    (s : OrderUpdater.t) (w : World) (target : OrderStatus.t)
    (Hdata : data s !! "status" = Some (VStatus target))
    (Hnew : OrderStatus.id target ≠ OrderStatus.id (Order.status (order s)))
    (Hedge : edge_roles (OrderStatus.slug (Order.status (order s)))
                        (OrderStatus.slug target) = None
             ∨ OrderStatus.slug (Order.status (order s)) ∈ ["cancelled"; "refunded"]) :
  forall r : string,
    _handle_status_transition (with_role r s, w) =
      (inl (ValidationError (Dict "status" (
         "You cannot update an order status from "
         +:+ OrderStatus.title (Order.status (order s)) +:+ " to "
         +:+ OrderStatus.title target))), (with_role r s, w)).
Proof.
  intros r. apply (transition_no_edge (with_role r s) w target Hdata Hnew). simpl.
  destruct Hedge as [He|Hterm]; [exact He|].
  unfold edge_roles.
  apply list_elem_of_In in Hterm. simpl in Hterm.
  destruct Hterm as [<-|[<-|[]]]; reflexivity.
Qed.

Lemma transition_without_edge_is_invalid_witness :
  _handle_status_transition
    (with_role "admin"
       (Sample.updater Sample.cancelled Sample.admin "admin"
          {[ "status" := VStatus Sample.pending ]} VNone),
     Sample.world_in Sample.cancelled) =
  (inl (ValidationError (Dict "status"
     "You cannot update an order status from Cancelled to Pending")),
   (with_role "admin"
      (Sample.updater Sample.cancelled Sample.admin "admin"
         {[ "status" := VStatus Sample.pending ]} VNone),
    Sample.world_in Sample.cancelled)).
Proof.
  refine (transition_without_edge_is_invalid
    (Sample.updater Sample.cancelled Sample.admin "admin"
       {[ "status" := VStatus Sample.pending ]} VNone)
    (Sample.world_in Sample.cancelled) Sample.pending _ _ _ "admin").
  - reflexivity.
  - simpl. lia.
  - right. vm_compute. apply list_elem_of_here.
Defined.

(** ** Running the stages *)

Lemma bind_inr {A B} (m : M A) (f : A -> M B) st a st' :
  m st = (inr a, st') -> (m ≫= f) st = f a st'.
Proof. unfold mbind, M_bind. by intros ->. Qed.

Lemma bind_inl {A B} (m : M A) (f : A -> M B) st e st' :
  m st = (inl e, st') -> (m ≫= f) st = (inl e, st').
Proof. unfold mbind, M_bind. by intros ->. Qed.

Lemma same_identity_refl (o : Order.t) : same_identity o o.
Proof. by repeat split. Qed.

Lemma same_identity_trans (a b c : Order.t) :
  same_identity a b -> same_identity b c -> same_identity a c.
Proof. unfold same_identity. intros (?&?&?&?) (?&?&?&?). repeat split; congruence. Qed.

Lemma stage_frame_trans (a b c : OrderUpdater.t * World) :
  stage_frame a b -> stage_frame b c -> stage_frame a c.
Proof.
  unfold stage_frame. intros (Hi&?&?&?&?) (Hi'&?&?&?&?).
  split; [exact (same_identity_trans _ _ _ Hi Hi') | repeat split; congruence].
Qed.

Lemma no_writes_trans (a b c : OrderUpdater.t * World) :
  no_writes a b -> no_writes b c -> no_writes a c.
Proof. unfold no_writes. intros (?&?&?) (?&?&?). repeat split; congruence. Qed.

Lemma status_untouched_trans (a b c : OrderUpdater.t * World) :
  status_untouched a b -> status_untouched b c -> status_untouched a c.
Proof. unfold status_untouched. intros [] []. split; congruence. Qed.

(** Case analysis on every test of a method body. *)
Ltac crunch :=
  repeat (case_match; simpl in *; simplify_eq; try done).

(** *** The field-authorization guard *)

Lemma check_rejects (s : OrderUpdater.t) (w : World) :
  dom (data s) ∖ allowed_fields (role s) ≠ ∅ ->
  _check_allowed_fields (s, w) =
    (inl (ValidationError (FieldsText (dom (data s) ∖ allowed_fields (role s)))), (s, w)).
Proof.
  intros H. unfold _check_allowed_fields. exec.
  by rewrite (bool_decide_eq_true_2 _ H).
Qed.

Lemma check_passes (s : OrderUpdater.t) (w : World) :
  dom (data s) ∖ allowed_fields (role s) = ∅ ->
  _check_allowed_fields (s, w) = (inr tt, (s, w)).
Proof.
  intros H. unfold _check_allowed_fields. exec.
  rewrite bool_decide_eq_false_2; [done | by intros []].
Qed.

Lemma check_frame (st : OrderUpdater.t * World) :
  (_check_allowed_fields st).2 = st.
Proof. destruct st as [s w]. unfold _check_allowed_fields. exec. crunch. Qed.

(** *** The deliverer handler *)

Lemma deliverer_frame (st : OrderUpdater.t * World) :
  let r := _handle_deliverer st in
  stage_frame st r.2 ∧ no_writes st r.2 ∧ status_untouched st r.2.
Proof.
  destruct st as [s w].
  unfold _handle_deliverer, stage_frame, no_writes, status_untouched, same_identity.
  exec. crunch.
Qed.

Lemma deliverer_absent (s : OrderUpdater.t) (w : World) :
  data s !! "deliverer" = None -> _handle_deliverer (s, w) = (inr tt, (s, w)).
Proof. intros H. unfold _handle_deliverer. exec. by rewrite H. Qed.

Lemma deliverer_assigned_early (s : OrderUpdater.t) (w : World)
    (u : User.t) (shipped : OrderStatus.t) :
  data s !! "deliverer" = Some (VUser u) ->
  py_eq (VUser u) (of_user (Order.deliverer (order s))) = false ->
  OrderStatus.slug (Order.status (order s)) ∈ ["pending"; "under-review"] ->
  order_statuses w !! "shipped" = Some shipped ->
  _handle_deliverer (s, w) =
    (inr tt,
     (with_data (<["status" := VStatus shipped]> (data s))
        (with_order (Order.with_deliverer (Some u) (order s)) s), w)).
Proof.
  intros Hd Hne Hst Hseed. unfold _handle_deliverer. exec.
  rewrite Hd. simpl. rewrite Hne. simpl.
  rewrite (proj2 (str_in_true _ _) Hst). simpl. by rewrite Hseed.
Qed.

(** *** The delivery address handler *)

Lemma address_frame (st : OrderUpdater.t * World) :
  let r := _handle_delivery_address st in
  stage_frame st r.2 ∧ no_writes st r.2 ∧ status_untouched st r.2.
Proof.
  destruct st as [s w].
  unfold _handle_delivery_address, stage_frame, no_writes, status_untouched, same_identity.
  exec. crunch.
Qed.

Lemma address_absent (s : OrderUpdater.t) (w : World) :
  data s !! "delivery_address" = None ->
  _handle_delivery_address (s, w) = (inr tt, (s, w)).
Proof. intros H. unfold _handle_delivery_address. exec. by rewrite H. Qed.

Section AddressChange.
Variables (s : OrderUpdater.t) (w : World) (a : Address.t).
Hypothesis Hdata : data s !! "delivery_address" = Some (VAddress a).
Hypothesis Hnew : Address.id a ≠ Address.id (Order.delivery_address (order s)).

Lemma address_rejected :
  OrderStatus.slug (Order.status (order s)) ∉ ["pending"; "failed"] ->
  _handle_delivery_address (s, w) =
    (inl (ValidationError (Text (
       "You cannot change the delivery address at this stage (current status: "
       +:+ OrderStatus.title (Order.status (order s)) +:+ ")."))), (s, w)).
Proof.
  intros Hst. unfold _handle_delivery_address. exec.
  rewrite Hdata. simpl. rewrite (proj2 (Z.eqb_neq _ _) Hnew).
  by rewrite (proj2 (str_in_false _ _) Hst).
Qed.

Lemma address_changed_pending :
  OrderStatus.slug (Order.status (order s)) = "pending" ->
  _handle_delivery_address (s, w) =
    (inr tt, (with_order (Order.with_delivery_address a (order s)) s, w)).
Proof.
  intros Hst. unfold _handle_delivery_address. exec.
  rewrite Hdata. simpl. rewrite (proj2 (Z.eqb_neq _ _) Hnew).
  by rewrite Hst.
Qed.

Lemma address_changed_failed (under_review : OrderStatus.t) :
  OrderStatus.slug (Order.status (order s)) = "failed" ->
  order_statuses w !! "under-review" = Some under_review ->
  _handle_delivery_address (s, w) =
    (inr tt,
     (with_data (<["status" := VStatus under_review]> (data s))
        (with_order (Order.with_delivery_address a (order s)) s), w)).
Proof.
  intros Hst Hseed. unfold _handle_delivery_address. exec.
  rewrite Hdata. simpl. rewrite (proj2 (Z.eqb_neq _ _) Hnew).
  rewrite Hst. simpl. by rewrite Hseed.
Qed.
End AddressChange.

(** *** The intent handler *)

Lemma intent_frame (st : OrderUpdater.t * World) :
  let r := _handle_intent st in
  stage_frame st r.2 ∧ no_writes st r.2 ∧ status_untouched st r.2
  ∧ order r.2.1 = order st.1.
Proof.
  destruct st as [s w].
  unfold _handle_intent, stage_frame, no_writes, status_untouched, same_identity.
  exec. crunch.
Qed.

Lemma intent_absent (s : OrderUpdater.t) (w : World) :
  truthy (intent s) = false -> _handle_intent (s, w) = (inr tt, (s, w)).
Proof. intros H. unfold _handle_intent. exec. by rewrite H. Qed.

Section Intent.
Variables (s : OrderUpdater.t) (w : World) (name : string) (origins : list string).
Hypothesis Hintent : intent s = VStr name.
Hypothesis Horigins : INTENTS_ORIGIN_STATUSES !! name = Some origins.

Lemma intent_name_nonempty : truthy (VStr name) = true.
Proof.
  destruct name; [|done]. vm_compute in Horigins. discriminate.
Qed.

Lemma intent_rejected :
  OrderStatus.slug (Order.status (order s)) ∉ origins ->
  _handle_intent (s, w) =
    (inl (ValidationError (Text (
       "You cannot request " +:+ name +:+ " at this stage (current status: "
       +:+ OrderStatus.title (Order.status (order s)) +:+ ")."))), (s, w)).
Proof.
  intros Hst. unfold _handle_intent. exec.
  rewrite Hintent, intent_name_nonempty. simpl. rewrite Horigins.
  by rewrite (proj2 (str_in_false _ _) Hst).
Qed.

Lemma intent_accepted (under_review : OrderStatus.t) :
  OrderStatus.slug (Order.status (order s)) ∈ origins ->
  order_statuses w !! "under-review" = Some under_review ->
  _handle_intent (s, w) =
    (inr tt,
     (with_action_description
        ("Customer requested " +:+ name +:+ ". Status transitioned to Under Review.")
        (with_data (<["status" := VStatus under_review]> (data s)) s), w)).
Proof.
  intros Hst Hseed. unfold _handle_intent. exec.
  rewrite Hintent, intent_name_nonempty. simpl. rewrite Horigins.
  rewrite (proj2 (str_in_true _ _) Hst). simpl. by rewrite Hseed.
Qed.
End Intent.

Lemma intent_origins (name : string) (origins : list string) :
  INTENTS_ORIGIN_STATUSES !! name = Some origins <->
  (name = "cancellation" ∧ origins = ["pending"; "failed"])
  ∨ (name = "refund" ∧ origins = ["delivered"]).
Proof.
  unfold INTENTS_ORIGIN_STATUSES. simpl.
  split.
  - intros H.
    destruct (decide (name = "cancellation")) as [->|Hc].
    { left. vm_compute in H. by simplify_eq. }
    destruct (decide (name = "refund")) as [->|Hr].
    { right. vm_compute in H. by simplify_eq. }
    rewrite lookup_insert_ne in H by done.
    rewrite lookup_insert_ne in H by done.
    by rewrite lookup_empty in H.
  - intros [[-> ->]|[-> ->]]; reflexivity.
Qed.

(** The handler never looks at the role of the actor. *)
Lemma intent_ignores_role (s : OrderUpdater.t) (w : World) (r : string) :
  _handle_intent (with_role r s, w) =
    ((_handle_intent (s, w)).1,
     (with_role r (_handle_intent (s, w)).2.1, (_handle_intent (s, w)).2.2)).
Proof. unfold _handle_intent. exec. crunch. Qed.

(** *** The transition commit and the save *)

Lemma transition_noop (s : OrderUpdater.t) (w : World) :
  (truthy (default VNone (data s !! "status")) = false
   ∨ py_eq (default VNone (data s !! "status")) (VStatus (Order.status (order s))) = true) ->
  _handle_status_transition (s, w) = (inr tt, (s, w)).
Proof.
  intros H. unfold _handle_status_transition. exec.
  destruct H as [-> | ->]; [done | by rewrite orb_true_r].
Qed.

Lemma transition_frame (st : OrderUpdater.t * World) :
  let r := _handle_status_transition st in
  stage_frame st r.2
  ∧ orders r.2.2 = orders st.2
  ∧ match r.1 with
    | inl _ => r.2 = st
    | inr _ => r.2 = st
               ∨ exists h, order_histories r.2.2 = (order_histories st.2 ++ [h])%list
    end.
Proof.
  destruct st as [s w].
  unfold _handle_status_transition, stage_frame, same_identity.
  exec. crunch; (split; [done | split; [done |]]);
    (by left) || (right; by eexists).
Qed.

Lemma save_runs (s : OrderUpdater.t) (w : World) :
  save (s, w) =
    (inr tt,
     (with_order (Order.with_when_last_update (clock w (ticks w)) (order s)) s,
      BuildWorld
        (<[Order.id (order s) :=
             Order.with_when_last_update (clock w (ticks w)) (order s)]> (orders w))
        (order_histories w) (order_statuses w) (clock w) (S (ticks w)))).
Proof. reflexivity. Qed.

Lemma guard_and_handlers_frame (st : OrderUpdater.t * World) :
  let r := guard_and_handlers st in
  stage_frame st r.2 ∧ no_writes st r.2 ∧ status_untouched st r.2.
Proof.
  unfold guard_and_handlers, mbind, M_bind. simpl.
  pose proof (check_frame st) as Hc.
  destruct (_check_allowed_fields st) as [[e|[]] st1]; simpl in Hc; subst st1.
  { simpl. by repeat split. }
  pose proof (deliverer_frame st) as (Hf1 & Hw1 & Hs1).
  destruct (_handle_deliverer st) as [[e|[]] st1]; simpl in *; [done|].
  pose proof (address_frame st1) as (Hf2 & Hw2 & Hs2).
  destruct (_handle_delivery_address st1) as [[e|[]] st2]; simpl in *.
  { split; [by eapply stage_frame_trans|].
    split; [by eapply no_writes_trans | by eapply status_untouched_trans]. }
  pose proof (intent_frame st2) as (Hf3 & Hw3 & Hs3 & _).
  assert (stage_frame st (_handle_intent st2).2
          ∧ no_writes st (_handle_intent st2).2
          ∧ status_untouched st (_handle_intent st2).2) as Hall.
  { split; [eapply stage_frame_trans; [|exact Hf3]; by eapply stage_frame_trans|].
    split; [eapply no_writes_trans; [|exact Hw3]; by eapply no_writes_trans|].
    eapply status_untouched_trans; [|exact Hs3]. by eapply status_untouched_trans. }
  by destruct (_handle_intent st2) as [[e|[]] st3].
Qed.

(** [run] is the guard and the handlers, then the commit, then the save. *)
Lemma run_stages (st : OrderUpdater.t * World) :
  run st =
    match guard_and_handlers st with
    | (inl e, st1) => (inl e, st1)
    | (inr _, st1) =>
        match _handle_status_transition st1 with
        | (inl e, st2) => (inl e, st2)
        | (inr _, st2) => (inr (order (save st2).2.1), (save st2).2)
        end
    end.
Proof.
  unfold run, guard_and_handlers, mbind, M_bind.
  destruct (_check_allowed_fields st) as [[e|[]] st1]; [done|].
  destruct (_handle_deliverer st1) as [[e|[]] st2]; [done|].
  destruct (_handle_delivery_address st2) as [[e|[]] st3]; [done|].
  destruct (_handle_intent st3) as [[e|[]] st4]; [done|].
  destruct (_handle_status_transition st4) as [[e|[]] st5]; [done|].
  destruct st5 as [s5 w5]. reflexivity.
Qed.

(** ** The field-authorization guard *)

Lemma allowed_fields_cases (role : string) :
  allowed_fields role =
    if decide (role = "admin" ∨ role = "manager") then {["status"; "deliverer"]}
    else if decide (role = "delivery") then {["status"]}
    else {["delivery_address"; "intent"]}.
Proof.
  unfold allowed_fields, str_in.
  destruct (decide (role = "admin" ∨ role = "manager")) as [Ham|Ham].
  - rewrite bool_decide_eq_true_2; [done|].
    destruct Ham as [-> | ->]; set_solver.
  - rewrite bool_decide_eq_false_2.
    + destruct (decide (role = "delivery")) as [->|Hd]; [done|].
      by rewrite (proj2 (String.eqb_neq _ _) Hd).
    + intros Hin. apply Ham. set_solver.
Qed.

Lemma run_rejected_by_guard (s : OrderUpdater.t) (w : World) :
  dom (data s) ∖ allowed_fields (role s) ≠ ∅ ->
  run (s, w) =
    (inl (ValidationError (FieldsText (dom (data s) ∖ allowed_fields (role s)))), (s, w)).
Proof.
  intros H. unfold run. by apply bind_inl, check_rejects.
Qed.

(** Claim C4.  When the change-set seen by the guard has a field outside the
    set allowed to the role (status and deliverer for admin and manager,
    status for delivery, delivery_address and intent for any other role), the
    update is refused with a [ValidationError] that carries exactly the
    fields of the change-set that are not allowed.  The refusal is the same
    whatever the order and the database are, and it leaves the updater, its
    in-memory order and the database as they were, so that no field is
    applied.  A customer whose change-set holds deliverer is refused with
    deliverer among the named fields. *)
Theorem field_guard_rejects_wholesale
    (s : OrderUpdater.t) (w : World)
    (Hbad : dom (data s) ∖ allowed_fields (role s) ≠ ∅) :
  let offending := dom (data s) ∖ allowed_fields (role s) in
  run (s, w) = (inl (ValidationError (FieldsText offending)), (s, w))
  ∧ (forall (o : Order.t) (w' : World),
       run (with_order o s, w') =
         (inl (ValidationError (FieldsText offending)), (with_order o s, w')))
  ∧ (forall f : string,
       f ∈ offending <-> f ∈ dom (data s) ∧ f ∉ allowed_fields (role s))
  ∧ allowed_fields "admin" = {["status"; "deliverer"]}
  ∧ allowed_fields "manager" = {["status"; "deliverer"]}
  ∧ allowed_fields "delivery" = {["status"]}
  ∧ allowed_fields "customer" = {["delivery_address"; "intent"]}
  ∧ (role s = "customer" -> "deliverer" ∈ dom (data s) -> "deliverer" ∈ offending).
Proof.
  intros offending. subst offending.
  split; [by apply run_rejected_by_guard|].
  split; [intros o w'; by apply (run_rejected_by_guard (with_order o s) w')|].
  split; [intros f; apply elem_of_difference|].
  repeat (split; [by rewrite allowed_fields_cases|]).
  intros Hrole Hin. apply elem_of_difference. split; [done|].
  rewrite Hrole, allowed_fields_cases. simpl. set_solver.
Qed.

Lemma field_guard_rejects_wholesale_witness :
  update (Sample.order_in Sample.pending) Sample.customer
    {[ "deliverer" := VUser Sample.courier;
       "delivery_address" := VAddress Sample.office ]}
    (Sample.world_in Sample.pending)
  = (inl (ValidationError (FieldsText {["deliverer"]})),
     (init (Sample.order_in Sample.pending) Sample.customer
        {[ "deliverer" := VUser Sample.courier;
           "delivery_address" := VAddress Sample.office ]},
      Sample.world_in Sample.pending)).
Proof.
  refine (proj1 (field_guard_rejects_wholesale
    (init (Sample.order_in Sample.pending) Sample.customer
       {[ "deliverer" := VUser Sample.courier;
          "delivery_address" := VAddress Sample.office ]})
    (Sample.world_in Sample.pending) _)).
  vm_compute. discriminate.
Defined.

(** ** Proposing the current status *)

(** The request behind claim C3 on a concrete order: an admin proposes the
    status pending for an order that is pending and was last updated at 1005.
    The update goes through, no history entry is written and the status stays,
    but the row is saved with the last-update timestamp 2000, the time of the
    save. *)
Lemma update_to_current_status_moves_timestamp :
  let st := (init (Sample.order_in Sample.pending) Sample.admin
               {[ "status" := VStatus Sample.pending ]},
             Sample.world_in Sample.pending) in
  proposed_target st = Some (VStatus (Order.status (order st.1)))
  ∧ Order.when_last_update <$> (orders st.2 !! 7%Z) = Some 1005%Z
  ∧ (run st).1 = inr (Order.with_when_last_update 2000 (Sample.order_in Sample.pending))
  ∧ Order.when_last_update <$> (orders (run st).2.2 !! 7%Z) = Some 2000%Z
  ∧ Order.when_last_update (order (run st).2.1) ≠ Order.when_last_update (order st.1)
  ∧ orders (run st).2.2 !! 7%Z ≠ orders st.2 !! 7%Z.
Proof. vm_compute. repeat split; discriminate. Qed.

(** Claim C3, amended.  When the status that reaches the commit equals the
    current status of the order, the update succeeds, the status of the order
    is not changed and no history entry is written; the save that ends the
    update still sets the last-update timestamp, in memory and in the saved
    row, to the clock reading at the save. *)
Theorem update_to_current_status_keeps_status_and_history
    (st : OrderUpdater.t * World) (v : Value)
    (Hproposed : proposed_target st = Some v)
    (Hsame : py_eq v (VStatus (Order.status (order st.1))) = true) :
  exists (s' : OrderUpdater.t) (w' : World),
    run st = (inr (order s'), (s', w'))
    ∧ Order.status (order s') = Order.status (order st.1)
    ∧ order_histories w' = order_histories st.2
    ∧ Order.when_last_update (order s') = clock st.2 (ticks st.2)
    ∧ orders w' = <[Order.id (order st.1) := order s']> (orders st.2).
Proof.
  unfold proposed_target in Hproposed. rewrite run_stages.
  pose proof (guard_and_handlers_frame st) as (Hf & Hw & Hs).
  destruct (guard_and_handlers st) as [[e|[]] [s1 w1]]; [done|].
  simpl in *.
  destruct Hf as ((Hid & _) & _ & _ & _ & Hclock).
  destruct Hw as (Horders & Hhist & Hticks). destruct Hs as [Hstatus Hts].
  simpl in *.
  rewrite transition_noop
    by (right; rewrite Hproposed; simpl; by rewrite Hstatus).
  simpl.
  exists (with_order (Order.with_when_last_update (clock w1 (ticks w1)) (order s1)) s1).
  eexists. split; [reflexivity|]. simpl.
  rewrite Hclock, Hticks, Horders, Hid. done.
Qed.

Lemma update_to_current_status_keeps_status_and_history_witness :
  exists (s' : OrderUpdater.t) (w' : World),
    run (init (Sample.order_in Sample.pending) Sample.admin
           {[ "status" := VStatus Sample.pending ]},
         Sample.world_in Sample.pending) = (inr (order s'), (s', w'))
    ∧ Order.status (order s') = Sample.pending
    ∧ order_histories w' = []
    ∧ Order.when_last_update (order s') = 2000%Z
    ∧ orders w' = <[7%Z := order s']> (orders (Sample.world_in Sample.pending)).
Proof.
  refine (update_to_current_status_keeps_status_and_history
    (init (Sample.order_in Sample.pending) Sample.admin
       {[ "status" := VStatus Sample.pending ]},
     Sample.world_in Sample.pending)
    (VStatus Sample.pending) _ _).
  - vm_compute. reflexivity.
  - reflexivity.
Defined.

(** ** Composing the stages *)

Lemma guard_and_handlers_pass (st st2 st3 st4 : OrderUpdater.t * World) :
  _check_allowed_fields st = (inr tt, st) ->
  _handle_deliverer st = (inr tt, st2) ->
  _handle_delivery_address st2 = (inr tt, st3) ->
  _handle_intent st3 = (inr tt, st4) ->
  guard_and_handlers st = (inr tt, st4).
Proof.
  intros H1 H2 H3 H4. unfold guard_and_handlers.
  rewrite (bind_inr _ _ _ _ _ H1), (bind_inr _ _ _ _ _ H2), (bind_inr _ _ _ _ _ H3).
  exact H4.
Qed.

Lemma guard_and_handlers_fail_address (st st2 st3 : OrderUpdater.t * World) (e : Exn) :
  _check_allowed_fields st = (inr tt, st) ->
  _handle_deliverer st = (inr tt, st2) ->
  _handle_delivery_address st2 = (inl e, st3) ->
  guard_and_handlers st = (inl e, st3).
Proof.
  intros H1 H2 H3. unfold guard_and_handlers.
  rewrite (bind_inr _ _ _ _ _ H1), (bind_inr _ _ _ _ _ H2).
  by apply bind_inl.
Qed.

Lemma guard_and_handlers_fail_intent (st st2 st3 st4 : OrderUpdater.t * World) (e : Exn) :
  _check_allowed_fields st = (inr tt, st) ->
  _handle_deliverer st = (inr tt, st2) ->
  _handle_delivery_address st2 = (inr tt, st3) ->
  _handle_intent st3 = (inl e, st4) ->
  guard_and_handlers st = (inl e, st4).
Proof.
  intros H1 H2 H3 H4. unfold guard_and_handlers.
  rewrite (bind_inr _ _ _ _ _ H1), (bind_inr _ _ _ _ _ H2), (bind_inr _ _ _ _ _ H3).
  exact H4.
Qed.

Lemma run_fails_in_handlers (st st' : OrderUpdater.t * World) (e : Exn) :
  guard_and_handlers st = (inl e, st') -> run st = (inl e, st').
Proof. intros H. by rewrite run_stages, H. Qed.

Lemma run_fails_in_transition (st st1 st2 : OrderUpdater.t * World) (e : Exn) :
  guard_and_handlers st = (inr tt, st1) ->
  _handle_status_transition st1 = (inl e, st2) ->
  run st = (inl e, st2).
Proof. intros H1 H2. by rewrite run_stages, H1, H2. Qed.

Lemma run_commits (st st1 st2 : OrderUpdater.t * World) :
  guard_and_handlers st = (inr tt, st1) ->
  _handle_status_transition st1 = (inr tt, st2) ->
  run st = (inr (order (save st2).2.1), (save st2).2).
Proof. intros H1 H2. by rewrite run_stages, H1, H2. Qed.

(** A change-set that passes the guard holds no field outside the set
    allowed to the role. *)
Lemma passes_guard_lookup (s : OrderUpdater.t) (f : string) :
  dom (data s) ∖ allowed_fields (role s) = ∅ ->
  f ∉ allowed_fields (role s) -> data s !! f = None.
Proof.
  intros Hpass Hf. apply not_elem_of_dom. intros Hin.
  assert (f ∈ dom (data s) ∖ allowed_fields (role s)) as Hd
    by (apply elem_of_difference; done).
  rewrite Hpass in Hd. by apply not_elem_of_empty in Hd.
Qed.

(** Only admin and manager get a deliverer entry past the guard. *)
Lemma deliverer_passes_guard (s : OrderUpdater.t) (v : Value) :
  dom (data s) ∖ allowed_fields (role s) = ∅ ->
  data s !! "deliverer" = Some v ->
  role s ∈ ["admin"; "manager"] ∧ data s !! "delivery_address" = None.
Proof.
  intros Hpass Hd.
  assert ("deliverer" ∈ allowed_fields (role s)) as Hin.
  { destruct (decide ("deliverer" ∈ allowed_fields (role s))) as [|Hn]; [done|].
    rewrite (passes_guard_lookup s _ Hpass Hn) in Hd. discriminate. }
  rewrite allowed_fields_cases in Hin.
  destruct (decide (role s = "admin" ∨ role s = "manager")) as [Hr|Hr].
  - split; [destruct Hr as [-> | ->]; set_solver|].
    apply (passes_guard_lookup s _ Hpass).
    rewrite allowed_fields_cases. rewrite decide_True by done. set_solver.
  - destruct (decide (role s = "delivery")); set_solver.
Qed.

(** Only roles other than admin, manager and delivery get a
    delivery_address entry past the guard. *)
Lemma address_passes_guard (s : OrderUpdater.t) (v : Value) :
  dom (data s) ∖ allowed_fields (role s) = ∅ ->
  data s !! "delivery_address" = Some v ->
  allowed_fields (role s) = {["delivery_address"; "intent"]}
  ∧ data s !! "deliverer" = None ∧ data s !! "status" = None.
Proof.
  intros Hpass Hd.
  assert ("delivery_address" ∈ allowed_fields (role s)) as Hin.
  { destruct (decide ("delivery_address" ∈ allowed_fields (role s))) as [|Hn]; [done|].
    rewrite (passes_guard_lookup s _ Hpass Hn) in Hd. discriminate. }
  assert (allowed_fields (role s) = {["delivery_address"; "intent"]}) as Ha.
  { rewrite allowed_fields_cases in Hin |- *.
    destruct (decide (role s = "admin" ∨ role s = "manager")); [set_solver|].
    destruct (decide (role s = "delivery")); [set_solver|done]. }
  split; [done|].
  split; apply (passes_guard_lookup s _ Hpass); rewrite Ha; set_solver.
Qed.

Lemma early_edge_to_shipped (current : string) :
  current ∈ ["pending"; "under-review"] ->
  edge_roles current "shipped" = Some ["admin"; "manager"].
Proof.
  intros H. apply list_elem_of_In in H. simpl in H.
  destruct H as [<-|[<-|[]]]; reflexivity.
Qed.

Lemma intent_edge_to_review (name current : string) (origins : list string) :
  INTENTS_ORIGIN_STATUSES !! name = Some origins ->
  current ∈ origins ->
  edge_roles current "under-review" = Some ["admin"; "manager"; "customer"].
Proof.
  intros Ho H. apply intent_origins in Ho.
  destruct Ho as [[_ ->]|[_ ->]]; apply list_elem_of_In in H; simpl in H.
  - destruct H as [<-|[<-|[]]]; reflexivity.
  - destruct H as [<-|[]]; reflexivity.
Qed.

(** ** Deliverer assignment *)

Section DelivererAssignment.
Variables (s : OrderUpdater.t) (w : World) (u : User.t) (shipped : OrderStatus.t).
Hypothesis Hdata : data s !! "deliverer" = Some (VUser u).
Hypothesis Hnew : py_eq (VUser u) (of_user (Order.deliverer (order s))) = false.
Hypothesis Hearly :
  OrderStatus.slug (Order.status (order s)) ∈ ["pending"; "under-review"].
Hypothesis Hseed : order_statuses w !! "shipped" = Some shipped.
Hypothesis Hpass : dom (data s) ∖ allowed_fields (role s) = ∅.
Hypothesis Hnointent : truthy (intent s) = false.
Hypothesis Hslug : OrderStatus.slug shipped = "shipped".
Hypothesis Hother : OrderStatus.id shipped ≠ OrderStatus.id (Order.status (order s)).

Let assigned : OrderUpdater.t :=
  with_data (<["status" := VStatus shipped]> (data s))
    (with_order (Order.with_deliverer (Some u) (order s)) s).

Lemma deliverer_assignment_handlers :
  guard_and_handlers (s, w) = (inr tt, (assigned, w)).
Proof.
  destruct (deliverer_passes_guard s _ Hpass Hdata) as [_ Hnoaddr].
  eapply guard_and_handlers_pass.
  - by apply check_passes.
  - by apply deliverer_assigned_early.
  - apply address_absent. unfold assigned. simpl.
    by rewrite lookup_insert_ne.
  - by apply intent_absent.
Qed.

Lemma deliverer_assignment_run :
  exists (o' : Order.t) (s' : OrderUpdater.t) (w' : World) (h : OrderHistory.t),
    run (s, w) = (inr o', (s', w'))
    ∧ order s' = o'
    ∧ Order.status o' = shipped
    ∧ Order.deliverer o' = Some u
    ∧ orders w' = <[Order.id (order s) := o']> (orders w)
    ∧ order_histories w' = (order_histories w ++ [h])%list
    ∧ OrderHistory.order h = Order.id (order s)
    ∧ OrderHistory.status h = shipped.
Proof.
  destruct (deliverer_passes_guard s _ Hpass Hdata) as [Hrole _].
  erewrite run_commits; [|exact deliverer_assignment_handlers|].
  2: { eapply (transition_commit assigned w shipped).
       - unfold assigned. simpl. apply lookup_insert_eq.
       - exact Hother.
       - unfold assigned. simpl. rewrite Hslug. by apply early_edge_to_shipped.
       - exact Hrole. }
  rewrite save_runs. simpl.
  do 4 eexists. split; [reflexivity|]. by repeat split.
Qed.
End DelivererAssignment.

(** Claim C5.  On an order whose status is pending or under-review, a
    proposed deliverer that differs from the current one is assigned and the
    status entry of the change-set becomes the shipped status, whatever it
    held before.  When such a change-set passes the guard (so the actor is an
    admin or a manager) and carries no intent, the update succeeds: the saved
    order has the new deliverer and the shipped status, and exactly one
    history entry is appended. *)
Theorem deliverer_assignment_implies_shipment
    (s : OrderUpdater.t) (w : World) (u : User.t) (shipped : OrderStatus.t)
    (Hdata : data s !! "deliverer" = Some (VUser u))
    (Hnew : py_eq (VUser u) (of_user (Order.deliverer (order s))) = false)
    (Hearly : OrderStatus.slug (Order.status (order s)) ∈ ["pending"; "under-review"])
    (Hseed : order_statuses w !! "shipped" = Some shipped) :
  let r := _handle_deliverer (s, w) in
  r.1 = inr tt
  ∧ Order.deliverer (order r.2.1) = Some u
  ∧ data r.2.1 = <["status" := VStatus shipped]> (data s)
  ∧ data r.2.1 !! "status" = Some (VStatus shipped)
  ∧ r.2.2 = w
  ∧ (dom (data s) ∖ allowed_fields (role s) = ∅ ->
     truthy (intent s) = false ->
     OrderStatus.slug shipped = "shipped" ->
     OrderStatus.id shipped ≠ OrderStatus.id (Order.status (order s)) ->
     role s ∈ ["admin"; "manager"]
     ∧ exists (o' : Order.t) (s' : OrderUpdater.t) (w' : World) (h : OrderHistory.t),
         run (s, w) = (inr o', (s', w'))
         ∧ Order.status o' = shipped
         ∧ Order.deliverer o' = Some u
         ∧ orders w' = <[Order.id (order s) := o']> (orders w)
         ∧ order_histories w' = (order_histories w ++ [h])%list
         ∧ OrderHistory.status h = shipped).
Proof.
  intros r. subst r.
  rewrite (deliverer_assigned_early s w u shipped Hdata Hnew Hearly Hseed). simpl.
  repeat (split; [done || apply lookup_insert_eq|]).
  intros Hpass Hnointent Hslug Hother.
  split; [by destruct (deliverer_passes_guard s _ Hpass Hdata)|].
  destruct (deliverer_assignment_run s w u shipped Hdata Hnew Hearly Hseed
              Hpass Hnointent Hslug Hother)
    as (o' & s' & w' & h & Hrun & _ & Hst & Hdel & Hrow & Hhist & _ & Hhs).
  by exists o', s', w', h.
Qed.

Lemma deliverer_assignment_implies_shipment_witness :
  exists (o' : Order.t) (s' : OrderUpdater.t) (w' : World) (h : OrderHistory.t),
    update (Sample.order_in Sample.pending) Sample.manager
      {[ "deliverer" := VUser Sample.courier ]} (Sample.world_in Sample.pending)
    = (inr o', (s', w'))
    ∧ Order.status o' = Sample.shipped
    ∧ Order.deliverer o' = Some Sample.courier
    ∧ orders w' = <[7%Z := o']> (orders (Sample.world_in Sample.pending))
    ∧ order_histories w' = [h]
    ∧ OrderHistory.status h = Sample.shipped.
Proof.
  refine (proj2 (proj2 (proj2 (proj2 (proj2 (proj2
    (deliverer_assignment_implies_shipment
       (init (Sample.order_in Sample.pending) Sample.manager
          {[ "deliverer" := VUser Sample.courier ]})
       (Sample.world_in Sample.pending) Sample.courier Sample.shipped
       _ _ _ _))))) _ _ _ _)).
  - reflexivity.
  - reflexivity.
  - vm_compute. apply list_elem_of_here.
  - reflexivity.
  - vm_compute. reflexivity.
  - reflexivity.
  - reflexivity.
  - simpl. lia.
Defined.

(** ** Intents *)

Section IntentRun.
Variables (s : OrderUpdater.t) (w : World) (name : string) (origins : list string).
Hypothesis Hintent : intent s = VStr name.
Hypothesis Horigins : INTENTS_ORIGIN_STATUSES !! name = Some origins.
Hypothesis Hpass : dom (data s) ∖ allowed_fields (role s) = ∅.
Hypothesis Hnodel : data s !! "deliverer" = None.
Hypothesis Hnoaddr : data s !! "delivery_address" = None.

Lemma ineligible_intent_run :
  OrderStatus.slug (Order.status (order s)) ∉ origins ->
  run (s, w) =
    (inl (ValidationError (Text (
       "You cannot request " +:+ name +:+ " at this stage (current status: "
       +:+ OrderStatus.title (Order.status (order s)) +:+ ")."))), (s, w)).
Proof.
  intros Hout. apply run_fails_in_handlers.
  eapply guard_and_handlers_fail_intent.
  - by apply check_passes.
  - by apply deliverer_absent.
  - by apply address_absent.
  - by apply (intent_rejected s w name origins).
Qed.

Variable under_review : OrderStatus.t.
Hypothesis Heligible : OrderStatus.slug (Order.status (order s)) ∈ origins.
Hypothesis Hseed : order_statuses w !! "under-review" = Some under_review.
Hypothesis Hslug : OrderStatus.slug under_review = "under-review".
Hypothesis Hother :
  OrderStatus.id under_review ≠ OrderStatus.id (Order.status (order s)).

Let reviewed : OrderUpdater.t :=
  with_action_description
    ("Customer requested " +:+ name +:+ ". Status transitioned to Under Review.")
    (with_data (<["status" := VStatus under_review]> (data s)) s).

Lemma eligible_intent_handlers :
  guard_and_handlers (s, w) = (inr tt, (reviewed, w)).
Proof.
  eapply guard_and_handlers_pass.
  - by apply check_passes.
  - by apply deliverer_absent.
  - by apply address_absent.
  - by apply (intent_accepted s w name origins).
Qed.

Lemma eligible_intent_run_authorized :
  role s ∈ ["admin"; "manager"; "customer"] ->
  exists (o' : Order.t) (s' : OrderUpdater.t) (w' : World) (h : OrderHistory.t),
    run (s, w) = (inr o', (s', w'))
    ∧ Order.status o' = under_review
    ∧ orders w' = <[Order.id (order s) := o']> (orders w)
    ∧ order_histories w' = (order_histories w ++ [h])%list
    ∧ OrderHistory.status h = under_review
    ∧ OrderHistory.action h =
        "Customer requested " +:+ name +:+ ". Status transitioned to Under Review.".
Proof.
  intros Hrole.
  erewrite run_commits; [|exact eligible_intent_handlers|].
  2: { eapply (transition_commit reviewed w under_review).
       - unfold reviewed. simpl. apply lookup_insert_eq.
       - exact Hother.
       - unfold reviewed. simpl. rewrite Hslug.
         by apply (intent_edge_to_review name _ origins).
       - exact Hrole. }
  rewrite save_runs. simpl.
  do 4 eexists. split; [reflexivity|]. by repeat split.
Qed.

Lemma eligible_intent_run_forbidden :
  role s ∉ ["admin"; "manager"; "customer"] ->
  run (s, w) =
    (inl (PermissionDenied (Dict "status" (
       "You do not have permission to update this order status from "
       +:+ OrderStatus.title (Order.status (order s)) +:+ " to "
       +:+ OrderStatus.title under_review))), (reviewed, w)).
Proof.
  intros Hrole.
  eapply run_fails_in_transition; [exact eligible_intent_handlers|].
  eapply (transition_forbidden reviewed w under_review).
  - unfold reviewed. simpl. apply lookup_insert_eq.
  - exact Hother.
  - unfold reviewed. simpl. rewrite Hslug.
    by apply (intent_edge_to_review name _ origins).
  - exact Hrole.
Qed.
End IntentRun.

(** Claim C6.  The origin statuses of a cancellation are pending and failed,
    and the only origin status of a refund is delivered.  An intent met
    outside its origin statuses is refused by the handler with a
    [ValidationError] whose message gives the intent and the title of the
    current status, and the updater, its order and the database are as before
    (so is the whole update, when the change-set passes the guard and holds
    no deliverer or address).  An intent met in one of its origin statuses
    sets the status entry of the change-set to the under-review status and
    records the note ["Customer requested <intent>. Status transitioned to
    Under Review."]; when the role is on the edge to under-review, the update
    commits that status with one history entry whose action is that note,
    which names the intent and is not the note of a plain status edit. *)
Theorem intent_eligibility_and_effect
    (s : OrderUpdater.t) (w : World) (name : string) (origins : list string)
    (Hintent : intent s = VStr name)
    (Horigins : INTENTS_ORIGIN_STATUSES !! name = Some origins) :
  let current := Order.status (order s) in
  let note := "Customer requested " +:+ name
              +:+ ". Status transitioned to Under Review." in
  ((name = "cancellation" ∧ origins = ["pending"; "failed"])
   ∨ (name = "refund" ∧ origins = ["delivered"]))
  ∧ (OrderStatus.slug current ∉ origins ->
     let refusal := ValidationError (Text (
       "You cannot request " +:+ name +:+ " at this stage (current status: "
       +:+ OrderStatus.title current +:+ ").")) in
     _handle_intent (s, w) = (inl refusal, (s, w))
     ∧ (dom (data s) ∖ allowed_fields (role s) = ∅ ->
        data s !! "deliverer" = None -> data s !! "delivery_address" = None ->
        run (s, w) = (inl refusal, (s, w))))
  ∧ (OrderStatus.slug current ∈ origins ->
     forall under_review : OrderStatus.t,
     order_statuses w !! "under-review" = Some under_review ->
     _handle_intent (s, w) =
       (inr tt,
        (with_action_description note
           (with_data (<["status" := VStatus under_review]> (data s)) s), w))
     ∧ (OrderStatus.slug under_review = "under-review" ->
        OrderStatus.id under_review ≠ OrderStatus.id current ->
        dom (data s) ∖ allowed_fields (role s) = ∅ ->
        data s !! "deliverer" = None -> data s !! "delivery_address" = None ->
        role s ∈ ["admin"; "manager"; "customer"] ->
        exists (o' : Order.t) (s' : OrderUpdater.t) (w' : World) (h : OrderHistory.t),
          run (s, w) = (inr o', (s', w'))
          ∧ Order.status o' = under_review
          ∧ orders w' = <[Order.id (order s) := o']> (orders w)
          ∧ order_histories w' = (order_histories w ++ [h])%list
          ∧ OrderHistory.status h = under_review
          ∧ OrderHistory.action h = note
          ∧ OrderHistory.action h
            ≠ "Status transitioned to " +:+ OrderStatus.title under_review)).
Proof.
  intros current note. subst current note.
  split; [by apply intent_origins|]. split.
  - intros Hout. split; [by apply (intent_rejected s w name origins)|].
    intros Hpass Hnodel Hnoaddr.
    by apply (ineligible_intent_run s w name origins).
  - intros Hin under_review Hseed.
    split; [by apply (intent_accepted s w name origins)|].
    intros Hslug Hother Hpass Hnodel Hnoaddr Hrole.
    destruct (eligible_intent_run_authorized s w name origins Hintent Horigins
                Hpass Hnodel Hnoaddr under_review Hin Hseed Hslug Hother Hrole)
      as (o' & s' & w' & h & Hrun & Hst & Hrow & Hhist & Hhs & Hact).
    exists o', s', w', h. repeat (split; [done|]).
    rewrite Hact. simpl. discriminate.
Qed.

Lemma intent_eligibility_and_effect_witness :
  (_handle_intent
     (init (Sample.order_in Sample.delivered) Sample.customer
        {[ "intent" := VStr "cancellation" ]},
      Sample.world_in Sample.delivered)).1
  = inl (ValidationError (Text
      "You cannot request cancellation at this stage (current status: Delivered)."))
  ∧ exists (o' : Order.t) (s' : OrderUpdater.t) (w' : World) (h : OrderHistory.t),
      update (Sample.order_in Sample.pending) Sample.customer
        {[ "intent" := VStr "cancellation" ]} (Sample.world_in Sample.pending)
      = (inr o', (s', w'))
      ∧ Order.status o' = Sample.under_review
      ∧ orders w' = <[7%Z := o']> (orders (Sample.world_in Sample.pending))
      ∧ order_histories w' = [h]
      ∧ OrderHistory.status h = Sample.under_review
      ∧ OrderHistory.action h
        = "Customer requested cancellation. Status transitioned to Under Review."
      ∧ OrderHistory.action h ≠ "Status transitioned to Under Review".
Proof.
  split.
  - refine (f_equal fst (proj1 (proj1 (proj2
      (intent_eligibility_and_effect
         (init (Sample.order_in Sample.delivered) Sample.customer
            {[ "intent" := VStr "cancellation" ]})
         (Sample.world_in Sample.delivered) "cancellation" ["pending"; "failed"]
         _ _)) _))).
    + reflexivity.
    + reflexivity.
    + vm_compute. intros H. apply list_elem_of_In in H. simpl in H.
      destruct H as [H|[H|[]]]; discriminate H.
  - refine (proj2 (proj2 (proj2
      (intent_eligibility_and_effect
         (init (Sample.order_in Sample.pending) Sample.customer
            {[ "intent" := VStr "cancellation" ]})
         (Sample.world_in Sample.pending) "cancellation" ["pending"; "failed"]
         _ _)) _ Sample.under_review _) _ _ _ _ _ _).
    + reflexivity.
    + reflexivity.
    + vm_compute. apply list_elem_of_here.
    + reflexivity.
    + reflexivity.
    + simpl. lia.
    + vm_compute. reflexivity.
    + reflexivity.
    + reflexivity.
    + vm_compute. apply list_elem_of_further, list_elem_of_further, list_elem_of_here.
Defined.

(** ** Delivery address changes *)

Section AddressRun.
Variables (s : OrderUpdater.t) (w : World) (a : Address.t).
Hypothesis Hdata : data s !! "delivery_address" = Some (VAddress a).
Hypothesis Hnew : Address.id a ≠ Address.id (Order.delivery_address (order s)).
Hypothesis Hpass : dom (data s) ∖ allowed_fields (role s) = ∅.

Lemma address_change_run_rejected :
  OrderStatus.slug (Order.status (order s)) ∉ ["pending"; "failed"] ->
  run (s, w) =
    (inl (ValidationError (Text (
       "You cannot change the delivery address at this stage (current status: "
       +:+ OrderStatus.title (Order.status (order s)) +:+ ")."))), (s, w)).
Proof.
  intros Hout. destruct (address_passes_guard s _ Hpass Hdata) as (_ & Hnodel & _).
  apply run_fails_in_handlers.
  eapply guard_and_handlers_fail_address.
  - by apply check_passes.
  - by apply deliverer_absent.
  - by apply (address_rejected s w a).
Qed.

Variable under_review : OrderStatus.t.
Hypothesis Hfailed : OrderStatus.slug (Order.status (order s)) = "failed".
Hypothesis Hseed : order_statuses w !! "under-review" = Some under_review.
Hypothesis Hslug : OrderStatus.slug under_review = "under-review".
Hypothesis Hother :
  OrderStatus.id under_review ≠ OrderStatus.id (Order.status (order s)).
Hypothesis Hnointent : truthy (intent s) = false.
Hypothesis Hrole : role s = "customer".

Let corrected : OrderUpdater.t :=
  with_data (<["status" := VStatus under_review]> (data s))
    (with_order (Order.with_delivery_address a (order s)) s).

Lemma address_change_failed_handlers :
  guard_and_handlers (s, w) = (inr tt, (corrected, w)).
Proof.
  destruct (address_passes_guard s _ Hpass Hdata) as (_ & Hnodel & _).
  eapply guard_and_handlers_pass.
  - by apply check_passes.
  - by apply deliverer_absent.
  - by apply (address_changed_failed s w a).
  - by apply intent_absent.
Qed.

Lemma address_change_failed_run :
  exists (o' : Order.t) (s' : OrderUpdater.t) (w' : World) (h : OrderHistory.t),
    run (s, w) = (inr o', (s', w'))
    ∧ Order.delivery_address o' = a
    ∧ Order.status o' = under_review
    ∧ orders w' = <[Order.id (order s) := o']> (orders w)
    ∧ order_histories w' = (order_histories w ++ [h])%list
    ∧ OrderHistory.status h = under_review.
Proof.
  erewrite run_commits; [|exact address_change_failed_handlers|].
  2: { eapply (transition_commit corrected w under_review).
       - unfold corrected. simpl. apply lookup_insert_eq.
       - exact Hother.
       - unfold corrected. simpl. rewrite Hslug, Hfailed. reflexivity.
       - unfold corrected. simpl. rewrite Hrole. set_solver. }
  rewrite save_runs. simpl.
  do 4 eexists. split; [reflexivity|]. by repeat split.
Qed.
End AddressRun.

(** Claim C7.  A proposed delivery address that differs from the current one
    is accepted only when the status of the order is pending or failed.  In
    any other status the handler raises a [ValidationError] whose message
    gives the title of the current status, and leaves the updater, the
    address of its order and the database as they were; so does the whole
    update when the change-set passes the guard.  In status pending the
    address is set and the change-set is left alone; in status failed the
    address is set and the status entry of the change-set becomes the
    under-review status, and the update of a customer then commits that
    status together with the address, with one history entry. *)
Theorem address_change_only_when_pending_or_failed
    (s : OrderUpdater.t) (w : World) (a : Address.t)
    (Hdata : data s !! "delivery_address" = Some (VAddress a))
    (Hnew : Address.id a ≠ Address.id (Order.delivery_address (order s))) :
  let current := Order.status (order s) in
  (OrderStatus.slug current ∉ ["pending"; "failed"] ->
     let refusal := ValidationError (Text (
       "You cannot change the delivery address at this stage (current status: "
       +:+ OrderStatus.title current +:+ ").")) in
     _handle_delivery_address (s, w) = (inl refusal, (s, w))
     ∧ (dom (data s) ∖ allowed_fields (role s) = ∅ ->
        run (s, w) = (inl refusal, (s, w))))
  ∧ (OrderStatus.slug current = "pending" ->
     _handle_delivery_address (s, w) =
       (inr tt, (with_order (Order.with_delivery_address a (order s)) s, w)))
  ∧ (OrderStatus.slug current = "failed" ->
     forall under_review : OrderStatus.t,
     order_statuses w !! "under-review" = Some under_review ->
     _handle_delivery_address (s, w) =
       (inr tt,
        (with_data (<["status" := VStatus under_review]> (data s))
           (with_order (Order.with_delivery_address a (order s)) s), w))
     ∧ (OrderStatus.slug under_review = "under-review" ->
        OrderStatus.id under_review ≠ OrderStatus.id current ->
        dom (data s) ∖ allowed_fields (role s) = ∅ ->
        truthy (intent s) = false ->
        role s = "customer" ->
        exists (o' : Order.t) (s' : OrderUpdater.t) (w' : World) (h : OrderHistory.t),
          run (s, w) = (inr o', (s', w'))
          ∧ Order.delivery_address o' = a
          ∧ Order.status o' = under_review
          ∧ orders w' = <[Order.id (order s) := o']> (orders w)
          ∧ order_histories w' = (order_histories w ++ [h])%list
          ∧ OrderHistory.status h = under_review)).
Proof.
  intros current. subst current. split; [|split].
  - intros Hout. split; [by apply (address_rejected s w a)|].
    intros Hpass. by apply (address_change_run_rejected s w a).
  - intros Hpending. by apply address_changed_pending.
  - intros Hfailed under_review Hseed.
    split; [by apply address_changed_failed|].
    intros Hslug Hother Hpass Hnointent Hrole.
    by apply (address_change_failed_run s w a).
Qed.

Lemma address_change_only_when_pending_or_failed_witness :
  update (Sample.order_in Sample.shipped) Sample.customer
    {[ "delivery_address" := VAddress Sample.office ]} (Sample.world_in Sample.shipped)
  = (inl (ValidationError (Text
       "You cannot change the delivery address at this stage (current status: Shipped).")),
     (init (Sample.order_in Sample.shipped) Sample.customer
        {[ "delivery_address" := VAddress Sample.office ]},
      Sample.world_in Sample.shipped))
  ∧ exists (o' : Order.t) (s' : OrderUpdater.t) (w' : World) (h : OrderHistory.t),
      update (Sample.order_in Sample.failed) Sample.customer
        {[ "delivery_address" := VAddress Sample.office ]} (Sample.world_in Sample.failed)
      = (inr o', (s', w'))
      ∧ Order.delivery_address o' = Sample.office
      ∧ Order.status o' = Sample.under_review
      ∧ orders w' = <[7%Z := o']> (orders (Sample.world_in Sample.failed))
      ∧ order_histories w' = [h]
      ∧ OrderHistory.status h = Sample.under_review.
Proof.
  split.
  - refine (proj2 (proj1
      (address_change_only_when_pending_or_failed
         (init (Sample.order_in Sample.shipped) Sample.customer
            {[ "delivery_address" := VAddress Sample.office ]})
         (Sample.world_in Sample.shipped) Sample.office _ _) _) _).
    + reflexivity.
    + simpl. lia.
    + vm_compute. intros H. apply list_elem_of_In in H. simpl in H.
      destruct H as [H|[H|[]]]; discriminate H.
    + vm_compute. reflexivity.
  - refine (proj2 (proj2 (proj2
      (address_change_only_when_pending_or_failed
         (init (Sample.order_in Sample.failed) Sample.customer
            {[ "delivery_address" := VAddress Sample.office ]})
         (Sample.world_in Sample.failed) Sample.office _ _)) _
      Sample.under_review _) _ _ _ _ _).
    + reflexivity.
    + simpl. lia.
    + reflexivity.
    + reflexivity.
    + reflexivity.
    + simpl. lia.
    + vm_compute. reflexivity.
    + reflexivity.
    + reflexivity.
Defined.

(** ** The update as a whole *)

Lemma save_same_identity (st : OrderUpdater.t * World) :
  same_identity (order st.1) (order (save st).2.1).
Proof. destruct st as [s w]. by repeat split. Qed.

(** What [run] does to the order and to the database, in one statement: the
    identity of the in-memory order is kept; a refused update writes nothing;
    an accepted one writes the row of the order and at most one history
    entry. *)
Lemma run_frame (st : OrderUpdater.t * World) :
  let r := run st in
  same_identity (order st.1) (order r.2.1)
  ∧ match r.1 with
    | inl _ => no_writes st r.2
    | inr o =>
        o = order r.2.1
        ∧ orders r.2.2 = <[Order.id (order st.1) := o]> (orders st.2)
        ∧ (order_histories r.2.2 = order_histories st.2
           ∨ exists h, order_histories r.2.2 = (order_histories st.2 ++ [h])%list)
    end.
Proof.
  simpl. rewrite run_stages.
  pose proof (guard_and_handlers_frame st) as (Hf & Hw & _).
  destruct (guard_and_handlers st) as [[e|[]] st1]; simpl in *.
  { split; [apply Hf | exact Hw]. }
  pose proof (transition_frame st1) as (Hf2 & Ho2 & Hh2).
  destruct (_handle_status_transition st1) as [[e|[]] st2]; simpl in *.
  { subst st2. split; [apply Hf | exact Hw]. }
  destruct Hf as (Hi1 & _). destruct Hf2 as (Hi2 & _).
  destruct Hw as (Hwo & Hwh & _).
  split.
  { eapply same_identity_trans; [exact Hi1|].
    eapply same_identity_trans; [exact Hi2|]. apply save_same_identity. }
  destruct st2 as [s2 w2]. simpl in *.
  split; [done|]. split.
  - rewrite Ho2, Hwo.
    destruct Hi1 as [E1 _]. destruct Hi2 as [E2 _]. simpl in E2.
    by rewrite E2, E1.
  - destruct Hh2 as [<-|[h Hh]]; [by left|].
    right. exists h. by rewrite Hh, Hwh.
Qed.

Lemma stages_before_save_frame (st : OrderUpdater.t * World) :
  let r := stages_before_save st in
  orders r.2.2 = orders st.2
  ∧ match r.1 with
    | inl _ => no_writes st r.2
    | inr _ => True
    end.
Proof.
  simpl. unfold stages_before_save, mbind, M_bind.
  pose proof (guard_and_handlers_frame st) as (_ & Hw & _).
  destruct (guard_and_handlers st) as [[e|[]] st1]; simpl in *.
  { split; [apply Hw | exact Hw]. }
  pose proof (transition_frame st1) as (_ & Ho2 & Hh2).
  destruct (_handle_status_transition st1) as [[e|[]] st2]; simpl in *.
  - subst st2. split; [apply Hw | exact Hw].
  - split; [|done]. rewrite Ho2. apply Hw.
Qed.

(** Claim C10.  Whatever the outcome of an update, the in-memory order keeps
    its primary key, its owner, its total and its placement timestamp: it
    differs from the order the updater was given at most in its deliverer,
    delivery address, status and last-update timestamp.  Rows of other orders
    are never written, a refused update leaves the order table as it was,
    and the row written by an accepted update has that same key, owner, total
    and placement timestamp. *)
Theorem run_preserves_order_identity (st : OrderUpdater.t * World) :
  let o := order st.1 in
  let r := run st in
  same_identity o (order r.2.1)
  ∧ (exists d a s ts,
       order r.2.1 =
         Order.Build (Order.id o) (Order.user o) d a s (Order.total o)
                     (Order.when_placed o) ts)
  ∧ (forall k : Z, k ≠ Order.id o -> orders r.2.2 !! k = orders st.2 !! k)
  ∧ match r.1 with
    | inl _ => orders r.2.2 = orders st.2
    | inr o' =>
        orders r.2.2 !! Order.id o = Some o'
        ∧ Order.id o' = Order.id o
        ∧ Order.user o' = Order.user o
        ∧ Order.total o' = Order.total o
        ∧ Order.when_placed o' = Order.when_placed o
    end.
Proof.
  intros o r. subst o r.
  pose proof (run_frame st) as [Hid Hout]. simpl in Hout.
  split; [exact Hid|]. split.
  { destruct Hid as (H1 & H2 & H3 & H4).
    destruct (order (run st).2.1) as [i u d a s t p l]. simpl in *.
    exists d, a, s, l. by rewrite H1, H2, H3, H4. }
  destruct (run st).1 as [e|o'].
  - destruct Hout as (Ho & _). split; [|exact Ho]. intros k _. by rewrite Ho.
  - destruct Hout as (-> & Ho & _). split.
    + intros k Hk. rewrite Ho. by apply lookup_insert_ne.
    + rewrite Ho. split; [apply lookup_insert_eq | exact Hid].
Qed.

(** ** Intents and the field guard *)

(** Only the guard raises the field-permission error. *)
Lemma run_field_error (s : OrderUpdater.t) (w : World)
    (fields : gset string) (st' : OrderUpdater.t * World) :
  run (s, w) = (inl (ValidationError (FieldsText fields)), st') ->
  fields = dom (data s) ∖ allowed_fields (role s).
Proof.
  unfold run, mbind, M_bind.
  destruct (decide (dom (data s) ∖ allowed_fields (role s) = ∅)) as [Hp|Hp].
  2: { rewrite (check_rejects s w Hp). by intros [= <- _]. }
  rewrite (check_passes s w Hp).
  destruct (_handle_deliverer (s, w)) as [[e|[]] [s2 w2]] eqn:E2.
  { intros [= -> _]. revert E2. unfold _handle_deliverer. exec. crunch. }
  destruct (_handle_delivery_address (s2, w2)) as [[e|[]] [s3 w3]] eqn:E3.
  { intros [= -> _]. revert E3. unfold _handle_delivery_address. exec. crunch. }
  destruct (_handle_intent (s3, w3)) as [[e|[]] [s4 w4]] eqn:E4.
  { intros [= -> _]. revert E4. unfold _handle_intent. exec. crunch. }
  destruct (_handle_status_transition (s4, w4)) as [[e|[]] [s5 w5]] eqn:E5.
  { intros [= -> _]. revert E5. unfold _handle_status_transition. exec. crunch. }
  discriminate.
Qed.

(** Claim C9.  The constructor takes the intent entry out of the change-set,
    so the guard never sees it: whatever the role, a field-permission error
    of the update does not name intent.  The intent handler gives the same
    outcome for every role.  An intent met in one of its origin statuses
    makes the under-review status the proposed target, and the update is then
    decided by the role list of the edge from the current status to
    under-review alone: it commits for admin and manager (and for any role on
    that list) and is refused with [PermissionDenied] for delivery (and for
    any role not on it). *)
Theorem intent_is_extracted_before_the_guard
    (instance : Order.t) (actor : User.t) (change_set : gmap string Value)
    (w : World) (name : string) (origins : list string)
    (Hintent : change_set !! "intent" = Some (VStr name))
    (Horigins : INTENTS_ORIGIN_STATUSES !! name = Some origins) :
  let s0 := init instance actor change_set in
  data s0 = delete "intent" change_set
  ∧ ("intent" ∉ dom (data s0))
  ∧ intent s0 = VStr name
  ∧ role s0 = get_role actor
  ∧ (forall fields st',
       update instance actor change_set w
         = (inl (ValidationError (FieldsText fields)), st') ->
       "intent" ∉ fields)
  ∧ (forall (s : OrderUpdater.t) (w1 : World) (r : string),
       _handle_intent (with_role r s, w1) =
         ((_handle_intent (s, w1)).1,
          (with_role r (_handle_intent (s, w1)).2.1, (_handle_intent (s, w1)).2.2)))
  ∧ (OrderStatus.slug (Order.status instance) ∈ origins ->
     forall under_review : OrderStatus.t,
     order_statuses w !! "under-review" = Some under_review ->
     OrderStatus.slug under_review = "under-review" ->
     OrderStatus.id under_review ≠ OrderStatus.id (Order.status instance) ->
     dom (data s0) ∖ allowed_fields (get_role actor) = ∅ ->
     change_set !! "deliverer" = None ->
     change_set !! "delivery_address" = None ->
     proposed_target (s0, w) = Some (VStatus under_review)
     ∧ edge_roles (OrderStatus.slug (Order.status instance)) "under-review"
       = Some ["admin"; "manager"; "customer"]
     ∧ (get_role actor ∈ ["admin"; "manager"; "customer"] ->
        exists (o' : Order.t) (s' : OrderUpdater.t) (w' : World) (h : OrderHistory.t),
          update instance actor change_set w = (inr o', (s', w'))
          ∧ Order.status o' = under_review
          ∧ order_histories w' = (order_histories w ++ [h])%list)
     ∧ (get_role actor ∉ ["admin"; "manager"; "customer"] ->
        exists st',
          update instance actor change_set w =
            (inl (PermissionDenied (Dict "status" (
               "You do not have permission to update this order status from "
               +:+ OrderStatus.title (Order.status instance) +:+ " to "
               +:+ OrderStatus.title under_review))), st')
          ∧ no_writes (s0, w) st')
     ∧ "admin" ∈ ["admin"; "manager"; "customer"]
     ∧ "manager" ∈ ["admin"; "manager"; "customer"]
     ∧ "delivery" ∉ ["admin"; "manager"; "customer"]).
Proof.
  intros s0. subst s0.
  split; [reflexivity|].
  split; [simpl; rewrite dom_delete; set_solver|].
  split; [simpl; by rewrite Hintent|].
  split; [reflexivity|].
  split.
  { intros fields st' Hrun. unfold update in Hrun.
    apply run_field_error in Hrun. subst fields. simpl.
    rewrite dom_delete. set_solver. }
  split; [exact intent_ignores_role|].
  intros Hin under_review Hseed Hslug Hother Hpass Hnodel Hnoaddr.
  assert (intent (init instance actor change_set) = VStr name) as Hi
    by (simpl; by rewrite Hintent).
  assert (data (init instance actor change_set) !! "deliverer" = None) as Hd
    by (simpl; by rewrite lookup_delete_ne).
  assert (data (init instance actor change_set) !! "delivery_address" = None) as Ha
    by (simpl; by rewrite lookup_delete_ne).
  split.
  { unfold proposed_target.
    rewrite (eligible_intent_handlers _ w name origins Hi Horigins Hpass Hd Ha
               under_review Hin Hseed).
    simpl. apply lookup_insert_eq. }
  split; [by apply (intent_edge_to_review name _ origins)|].
  split.
  { intros Hrole.
    destruct (eligible_intent_run_authorized _ w name origins Hi Horigins Hpass Hd Ha
                under_review Hin Hseed Hslug Hother Hrole)
      as (o' & s' & w' & h & Hrun & Hst & _ & Hhist & _).
    by exists o', s', w', h. }
  split.
  { intros Hrole. eexists. split.
    - exact (eligible_intent_run_forbidden _ w name origins Hi Horigins Hpass Hd Ha
               under_review Hin Hseed Hslug Hother Hrole).
    - by repeat split. }
  repeat split; set_solver.
Qed.

Lemma intent_is_extracted_before_the_guard_witness :
  (exists (o' : Order.t) (s' : OrderUpdater.t) (w' : World) (h : OrderHistory.t),
     update (Sample.order_in Sample.delivered) Sample.admin
       {[ "intent" := VStr "refund" ]} (Sample.world_in Sample.delivered)
     = (inr o', (s', w'))
     ∧ Order.status o' = Sample.under_review
     ∧ order_histories w' = [h])
  ∧ exists st',
      update (Sample.order_in Sample.delivered) Sample.courier
        {[ "intent" := VStr "refund" ]} (Sample.world_in Sample.delivered)
      = (inl (PermissionDenied (Dict "status"
           "You do not have permission to update this order status from Delivered to Under Review")),
         st')
      ∧ no_writes
          (init (Sample.order_in Sample.delivered) Sample.courier
             {[ "intent" := VStr "refund" ]},
           Sample.world_in Sample.delivered) st'.
Proof.
  split.
  - refine (proj1 (proj2 (proj2 (proj2 (proj2 (proj2 (proj2 (proj2 (proj2
      (intent_is_extracted_before_the_guard
         (Sample.order_in Sample.delivered) Sample.admin
         {[ "intent" := VStr "refund" ]} (Sample.world_in Sample.delivered)
         "refund" ["delivered"] _ _)))))) _ Sample.under_review _ _ _ _ _ _))) _).
    + reflexivity.
    + reflexivity.
    + vm_compute. apply list_elem_of_here.
    + reflexivity.
    + reflexivity.
    + simpl. lia.
    + vm_compute. reflexivity.
    + reflexivity.
    + reflexivity.
    + vm_compute. apply list_elem_of_here.
  - refine (proj1 (proj2 (proj2 (proj2 (proj2 (proj2 (proj2 (proj2 (proj2 (proj2
      (intent_is_extracted_before_the_guard
         (Sample.order_in Sample.delivered) Sample.courier
         {[ "intent" := VStr "refund" ]} (Sample.world_in Sample.delivered)
         "refund" ["delivered"] _ _)))))) _ Sample.under_review _ _ _ _ _ _)))) _).
    + reflexivity.
    + reflexivity.
    + vm_compute. apply list_elem_of_here.
    + reflexivity.
    + reflexivity.
    + simpl. lia.
    + vm_compute. reflexivity.
    + reflexivity.
    + reflexivity.
    + vm_compute. intros H. apply list_elem_of_In in H. simpl in H.
      destruct H as [H|[H|[H|[]]]]; discriminate H.
Defined.

(** * Further properties of the engine *)

(** ** Every outcome of the commit step *)

Lemma transition_cases (st : OrderUpdater.t * World) :
  let r := _handle_status_transition st in
  let s := st.1 in
  let w := st.2 in
  (r = (inr tt, st)
   ∧ (truthy (default VNone (data s !! "status")) = false
      ∨ py_eq (default VNone (data s !! "status")) (VStatus (Order.status (order s)))
        = true))
  ∨ (exists e, r = (inl e, st))
  ∨ (exists target roles,
       data s !! "status" = Some (VStatus target)
       ∧ OrderStatus.id target ≠ OrderStatus.id (Order.status (order s))
       ∧ edge_roles (OrderStatus.slug (Order.status (order s)))
                    (OrderStatus.slug target) = Some roles
       ∧ role s ∈ roles
       ∧ r = (inr tt,
              (with_order (Order.with_when_last_update (clock w (ticks w))
                             (Order.with_status target (order s))) s,
               BuildWorld (orders w)
                 (order_histories w ++
                    [OrderHistory.Build (Order.id (order s)) target
                       (clock w (S (ticks w))) (Some (user s))
                       (if negb (String.eqb (action_description s) "")
                        then action_description s
                        else "Status transitioned to " +:+ OrderStatus.title target)])
                 (order_statuses w) (clock w) (S (S (ticks w)))))).
Proof.
  destruct st as [s w]. simpl.
  destruct (negb (truthy (default VNone (data s !! "status")))
            || py_eq (default VNone (data s !! "status"))
                 (VStatus (Order.status (order s)))) eqn:Hskip.
  { left. split.
    - apply transition_noop. apply orb_true_iff in Hskip.
      destruct Hskip as [H|H]; [left; by apply negb_true_iff | by right].
    - apply orb_true_iff in Hskip.
      destruct Hskip as [H|H]; [left; by apply negb_true_iff | by right]. }
  apply orb_false_iff in Hskip. destruct Hskip as [Ht Heq].
  destruct (data s !! "status") as [v|] eqn:Hd; [|done].
  simpl in Ht, Heq.
  destruct v as [| | | | |target]; [done| | | | |];
    try (right; left; eexists; unfold _handle_status_transition; exec;
         rewrite Hd; simpl; rewrite ?Ht; simpl; reflexivity).
  assert (OrderStatus.id target ≠ OrderStatus.id (Order.status (order s))) as Hne
    by (simpl in Heq; by apply Z.eqb_neq).
  destruct (edge_roles (OrderStatus.slug (Order.status (order s)))
                       (OrderStatus.slug target)) as [roles|] eqn:He.
  - destruct (decide (role s ∈ roles)) as [Hin|Hout].
    + right. right. exists target, roles. repeat (split; [done|]).
      by apply (transition_commit s w target Hd Hne roles).
    + right. left. eexists. by apply (transition_forbidden s w target Hd Hne roles).
  - right. left. eexists. by apply (transition_no_edge s w target Hd Hne).
Qed.

(** ** Every accepted update *)

Lemma run_accepted (st : OrderUpdater.t * World) (o : Order.t)
    (st' : OrderUpdater.t * World) :
  run st = (inr o, st') ->
  exists (s1 : OrderUpdater.t) (w1 : World),
    guard_and_handlers st = (inr tt, (s1, w1))
    ∧ ((_handle_status_transition (s1, w1) = (inr tt, (s1, w1))
        ∧ Order.status o = Order.status (order st.1)
        ∧ o = Order.with_when_last_update (clock st.2 (ticks st.2)) (order s1)
        ∧ order_histories st'.2 = order_histories st.2)
       ∨ (exists target roles,
            data s1 !! "status" = Some (VStatus target)
            ∧ OrderStatus.id target ≠ OrderStatus.id (Order.status (order st.1))
            ∧ edge_roles (OrderStatus.slug (Order.status (order st.1)))
                         (OrderStatus.slug target) = Some roles
            ∧ role st.1 ∈ roles
            ∧ o = Order.with_when_last_update (clock st.2 (S (S (ticks st.2))))
                    (Order.with_status target (order s1))
            ∧ order_histories st'.2 =
                (order_histories st.2 ++
                   [OrderHistory.Build (Order.id (order st.1)) target
                      (clock st.2 (S (ticks st.2))) (Some (user st.1))
                      (if negb (String.eqb (action_description s1) "")
                       then action_description s1
                       else "Status transitioned to " +:+ OrderStatus.title target)])%list)).
Proof.
  rewrite run_stages.
  pose proof (guard_and_handlers_frame st) as (Hf & Hw & Hs).
  destruct (guard_and_handlers st) as [[e|[]] [s1 w1]]; [done|].
  simpl in Hf, Hw, Hs.
  destruct Hf as ((Hid & _) & Huser & Hrole & _ & Hclock).
  destruct Hw as (_ & Hhist & Hticks). destruct Hs as [Hstatus _].
  simpl in *.
  destruct (transition_cases (s1, w1)) as [[Hr _]|[[e Hr]|Hr]]; simpl in Hr.
  - rewrite Hr. intros [= <- <-]. exists s1, w1. split; [done|]. left.
    simpl. rewrite Hclock, Hticks. done.
  - rewrite Hr. discriminate.
  - destruct Hr as (target & roles & Hd & Hne & He & Hin & Hr).
    rewrite Hr. intros [= <- <-]. exists s1, w1. split; [done|]. right.
    exists target, roles. simpl.
    rewrite <- Hstatus, <- Hrole, <- Huser, <- Hid, <- Hhist, <- Hclock, <- Hticks.
    done.
Qed.

(** ** The order of the stages and the two writes *)

(** The request behind claim C8 on a concrete order: an admin moves the
    pending order 7 to shipped.  Every check passes, and after the transition
    commit, the stage before the save, the history table already holds the
    entry of the change while the order table still holds the order as
    pending.  The save then writes the row of the order and adds nothing to
    the history: the update is committed in two steps, the history entry
    first, and not by the save alone. *)
Lemma history_entry_is_written_before_the_save :
  let st := (init (Sample.order_in Sample.pending) Sample.admin
               {[ "status" := VStatus Sample.shipped ]},
             Sample.world_in Sample.pending) in
  let before_save := stages_before_save st in
  before_save.1 = inr tt
  ∧ order_histories st.2 = []
  ∧ order_histories before_save.2.2
    = [OrderHistory.Build 7 Sample.shipped 2001 (Some Sample.admin)
         "Status transitioned to Shipped"]
  ∧ order_histories before_save.2.2 ≠ order_histories st.2
  ∧ Order.status <$> (orders before_save.2.2 !! 7%Z) = Some Sample.pending
  ∧ orders before_save.2.2 = orders st.2
  ∧ Order.status <$> (orders (run st).2.2 !! 7%Z) = Some Sample.shipped
  ∧ order_histories (run st).2.2 = order_histories before_save.2.2.
Proof. vm_compute. repeat split; discriminate. Qed.

Lemma save_keeps_history (st : OrderUpdater.t * World) :
  (save st).1 = inr tt ∧ order_histories (save st).2.2 = order_histories st.2.
Proof. destruct st as [s w]. by rewrite save_runs. Qed.

(** Claim C8, amended.  [run] is the six stages in the order guard, deliverer
    handler, address handler, intent handler, transition commit, save, and it
    stops at the first stage that raises, with the exception and the state of
    that stage.  When the update is refused, the order table and the history
    table are what they were and the clock was not read, so no order row was
    written and no history entry was created.  The save is not the only stage
    that writes.  The row of the order is written by the save and by nothing
    before it: after the five stages before the save the order table is
    unchanged.  The history entry of a status change is written by the
    transition commit, the stage before the save, once every check has
    passed: the history table after the update is the one these five stages
    left, the save cannot refuse, and an accepted update either keeps the
    status and the history table, or has appended one entry, for this order
    and its new status, before the row of the order was written. *)
Theorem run_is_sequential_and_logs_before_the_save (st : OrderUpdater.t * World) :
  run st =
    match _check_allowed_fields st with
    | (inl e, st1) => (inl e, st1)
    | (inr _, st1) =>
    match _handle_deliverer st1 with
    | (inl e, st2) => (inl e, st2)
    | (inr _, st2) =>
    match _handle_delivery_address st2 with
    | (inl e, st3) => (inl e, st3)
    | (inr _, st3) =>
    match _handle_intent st3 with
    | (inl e, st4) => (inl e, st4)
    | (inr _, st4) =>
    match _handle_status_transition st4 with
    | (inl e, st5) => (inl e, st5)
    | (inr _, st5) =>
    match save st5 with
    | (inl e, st6) => (inl e, st6)
    | (inr _, st6) => (inr (order st6.1), st6)
    end end end end end end
  ∧ match (run st).1 with
    | inl _ => no_writes st (run st).2
    | inr o =>
        orders (run st).2.2 = <[Order.id (order st.1) := o]> (orders st.2)
        ∧ (order_histories (run st).2.2 = order_histories st.2
           ∨ exists h,
               order_histories (run st).2.2 = (order_histories st.2 ++ [h])%list)
    end
  ∧ orders (stages_before_save st).2.2 = orders st.2
  ∧ match (stages_before_save st).1 with
    | inl e => no_writes st (stages_before_save st).2
               ∧ run st = (inl e, (stages_before_save st).2)
    | inr _ => exists o, (run st).1 = inr o
    end
  ∧ order_histories (run st).2.2 = order_histories (stages_before_save st).2.2
  ∧ (forall o, (run st).1 = inr o ->
       (order_histories (stages_before_save st).2.2 = order_histories st.2
        ∧ Order.status o = Order.status (order st.1))
       ∨ (exists h,
            order_histories (stages_before_save st).2.2
            = (order_histories st.2 ++ [h])%list
            ∧ OrderHistory.order h = Order.id (order st.1)
            ∧ OrderHistory.status h = Order.status o
            ∧ OrderStatus.id (Order.status o)
              ≠ OrderStatus.id (Order.status (order st.1)))).
Proof.
  split.
  { unfold run, mbind, M_bind.
    destruct (_check_allowed_fields st) as [[e|[]] st1]; [done|].
    destruct (_handle_deliverer st1) as [[e|[]] st2]; [done|].
    destruct (_handle_delivery_address st2) as [[e|[]] st3]; [done|].
    destruct (_handle_intent st3) as [[e|[]] st4]; [done|].
    destruct (_handle_status_transition st4) as [[e|[]] st5]; [done|].
    by destruct st5. }
  split.
  { pose proof (run_frame st) as [_ H]. simpl in H.
    destruct (run st).1; [exact H | by destruct H as (_ & ? & ?)]. }
  split; [apply stages_before_save_frame|].
  assert (order_histories (run st).2.2
          = order_histories (stages_before_save st).2.2) as Hsame.
  { rewrite run_stages. unfold stages_before_save, mbind, M_bind.
    destruct (guard_and_handlers st) as [[e|[]] st1]; [done|].
    destruct (_handle_status_transition st1) as [[e|[]] st2]; [done|].
    simpl. apply save_keeps_history. }
  split.
  { pose proof (stages_before_save_frame st) as [_ Hno]. simpl in Hno.
    rewrite run_stages. revert Hno. unfold stages_before_save, mbind, M_bind.
    destruct (guard_and_handlers st) as [[e|[]] st1]; [done|].
    destruct (_handle_status_transition st1) as [[e|[]] st2]; [done|].
    intros _. by eexists. }
  split; [exact Hsame|].
  intros o Ho. rewrite <- Hsame.
  destruct (run st) as [r st'] eqn:Erun. simpl in Ho. subst r.
  destruct (run_accepted st o st' Erun) as (s1 & w1 & _ & [H|H]).
  - left. destruct H as (_ & Hs & _ & Hh). done.
  - right. destruct H as (target & roles & _ & Hne & _ & _ & -> & Hh).
    eexists. split; [exact Hh|]. done.
Qed.

(** Property X1.  Whatever the change-set, the role and the handlers that
    rewrote the proposed status, an accepted update either leaves the status
    of the order as it was or moves it along an edge of the transition table
    whose role list holds the acting role. *)
Theorem accepted_status_change_follows_an_edge
    (st : OrderUpdater.t * World) (o : Order.t) (st' : OrderUpdater.t * World)
    (Hrun : run st = (inr o, st')) :
  Order.status o = Order.status (order st.1)
  ∨ (OrderStatus.id (Order.status o) ≠ OrderStatus.id (Order.status (order st.1))
     ∧ exists roles,
         edge_roles (OrderStatus.slug (Order.status (order st.1)))
                    (OrderStatus.slug (Order.status o)) = Some roles
         ∧ role st.1 ∈ roles).
Proof.
  destruct (run_accepted st o st' Hrun) as (s1 & w1 & _ & [H|H]).
  - left. apply H.
  - right. destruct H as (target & roles & _ & Hne & He & Hin & -> & _).
    simpl. split; [done|]. by exists roles.
Qed.

Lemma accepted_status_change_follows_an_edge_witness :
  let st := (init (Sample.order_in Sample.pending) Sample.manager
               {[ "deliverer" := VUser Sample.courier ]},
             Sample.world_in Sample.pending) in
  Order.status (order (run st).2.1) = Order.status (order st.1)
  ∨ (OrderStatus.id (Order.status (order (run st).2.1))
       ≠ OrderStatus.id (Order.status (order st.1))
     ∧ exists roles,
         edge_roles (OrderStatus.slug (Order.status (order st.1)))
                    (OrderStatus.slug (Order.status (order (run st).2.1))) = Some roles
         ∧ role st.1 ∈ roles).
Proof.
  intros st.
  refine (accepted_status_change_follows_an_edge st (order (run st).2.1) (run st).2 _).
  vm_compute. reflexivity.
Defined.

(** Property X2.  An accepted update writes a history entry exactly when it
    changes the status: with the status unchanged the history table is as it
    was; with the status changed exactly one entry is appended, for this
    order and the new status, performed by the acting user and stamped with
    the clock reading that follows the one stored by the commit step. *)
Theorem accepted_update_logs_exactly_the_status_change
    (st : OrderUpdater.t * World) (o : Order.t) (st' : OrderUpdater.t * World)
    (Hrun : run st = (inr o, st')) :
  (Order.status o = Order.status (order st.1)
   ∧ order_histories st'.2 = order_histories st.2)
  ∨ (OrderStatus.id (Order.status o) ≠ OrderStatus.id (Order.status (order st.1))
     ∧ exists h,
         order_histories st'.2 = (order_histories st.2 ++ [h])%list
         ∧ OrderHistory.order h = Order.id (order st.1)
         ∧ OrderHistory.status h = Order.status o
         ∧ OrderHistory.performed_by h = Some (user st.1)
         ∧ OrderHistory.timestamp h = clock st.2 (S (ticks st.2))).
Proof.
  destruct (run_accepted st o st' Hrun) as (s1 & w1 & _ & [H|H]).
  - left. split; apply H.
  - right. destruct H as (target & roles & _ & Hne & _ & _ & -> & Hh).
    simpl. split; [done|]. eexists. split; [exact Hh|]. done.
Qed.

Lemma accepted_update_logs_exactly_the_status_change_witness :
  let st := (init (Sample.order_in Sample.shipped) Sample.courier
               {[ "status" := VStatus Sample.delivered ]},
             Sample.world_in Sample.shipped) in
  (Order.status (order (run st).2.1) = Order.status (order st.1)
   ∧ order_histories (run st).2.2 = order_histories st.2)
  ∨ (OrderStatus.id (Order.status (order (run st).2.1))
       ≠ OrderStatus.id (Order.status (order st.1))
     ∧ exists h,
         order_histories (run st).2.2 = (order_histories st.2 ++ [h])%list
         ∧ OrderHistory.order h = Order.id (order st.1)
         ∧ OrderHistory.status h = Order.status (order (run st).2.1)
         ∧ OrderHistory.performed_by h = Some (user st.1)
         ∧ OrderHistory.timestamp h = clock st.2 (S (ticks st.2))).
Proof.
  intros st.
  refine (accepted_update_logs_exactly_the_status_change st
            (order (run st).2.1) (run st).2 _).
  vm_compute. reflexivity.
Defined.

(** ** Validated input never crashes *)

Lemma validated_same (s s' : OrderUpdater.t) :
  validated s -> data s' = data s -> intent s' = intent s -> validated s'.
Proof. intros [Hd Hi] Ed Ei. split; [by rewrite Ed | by rewrite Ei]. Qed.

Lemma validated_set_status (s s' : OrderUpdater.t) (x : OrderStatus.t) :
  validated s ->
  data s' = <["status" := VStatus x]> (data s) -> intent s' = intent s ->
  validated s'.
Proof.
  intros [Hd Hi] Ed Ei. split; [|by rewrite Ei]. rewrite Ed. intros field v Hl.
  destruct (decide (field = "status")) as [->|Hne].
  - rewrite lookup_insert_eq in Hl. injection Hl as <-.
    repeat split; try discriminate. intros _. by eexists.
  - rewrite lookup_insert_ne in Hl by done. by apply Hd.
Qed.

Lemma check_safe (s : OrderUpdater.t) (w : World) :
  validated s -> stage_safe (s, w) (_check_allowed_fields (s, w)).
Proof.
  intros Hv. unfold stage_safe, _check_allowed_fields. exec.
  by case_bool_decide.
Qed.

Lemma deliverer_safe (s : OrderUpdater.t) (w : World) :
  validated s -> seeded w -> stage_safe (s, w) (_handle_deliverer (s, w)).
Proof.
  intros Hv [[shipped Hs] _]. unfold stage_safe, _handle_deliverer. exec.
  destruct (data s !! "deliverer") as [v|] eqn:Hd; simpl; [|done].
  destruct (proj1 Hv _ _ Hd) as (_ & Hdel & _).
  destruct (Hdel eq_refl) as [->|[u ->]]; simpl; [done|].
  destruct (negb _); simpl; [|done].
  destruct (str_in _ _); simpl; [|split; [by apply (validated_same s)|done]].
  rewrite Hs. simpl.
  split; [|done]. by eapply (validated_set_status s).
Qed.

Lemma address_safe (s : OrderUpdater.t) (w : World) :
  validated s -> seeded w -> stage_safe (s, w) (_handle_delivery_address (s, w)).
Proof.
  intros Hv [_ [reviewed Hs]]. unfold stage_safe, _handle_delivery_address. exec.
  destruct (data s !! "delivery_address") as [v|] eqn:Hd; simpl; [|done].
  destruct (proj1 Hv _ _ Hd) as (_ & _ & Haddr).
  destruct (Haddr eq_refl) as [a ->]. simpl.
  destruct (Address.id a =? _)%Z; simpl; [done|].
  destruct (str_in _ _); simpl; [|done].
  destruct (String.eqb _ "failed"); simpl;
    [|split; [by apply (validated_same s)|done]].
  rewrite Hs. simpl.
  split; [|done]. by eapply (validated_set_status s).
Qed.

Lemma intent_safe (s : OrderUpdater.t) (w : World) :
  validated s -> seeded w -> stage_safe (s, w) (_handle_intent (s, w)).
Proof.
  intros Hv [_ [reviewed Hs]]. unfold stage_safe.
  destruct (proj2 Hv) as [Hi|[Hi|Hi]].
  - rewrite intent_absent by (by rewrite Hi). by split.
  - destruct (decide (OrderStatus.slug (Order.status (order s)) ∈ ["pending"; "failed"])).
    + rewrite (intent_accepted s w "cancellation" ["pending"; "failed"] Hi eq_refl
                 reviewed) by done.
      simpl. split; [|done]. by eapply (validated_set_status s).
    + by rewrite (intent_rejected s w "cancellation" ["pending"; "failed"] Hi eq_refl).
  - destruct (decide (OrderStatus.slug (Order.status (order s)) ∈ ["delivered"])).
    + rewrite (intent_accepted s w "refund" ["delivered"] Hi eq_refl reviewed) by done.
      simpl. split; [|done]. by eapply (validated_set_status s).
    + by rewrite (intent_rejected s w "refund" ["delivered"] Hi eq_refl).
Qed.

Lemma transition_safe (s : OrderUpdater.t) (w : World) :
  validated s ->
  match (_handle_status_transition (s, w)).1 with
  | inl e => is_api_error e
  | inr _ => True
  end.
Proof.
  intros Hv.
  destruct (transition_cases (s, w)) as [[-> _]|[[e Hr]|Hr]]; [done| |].
  - rewrite Hr. simpl.
    revert Hr. unfold _handle_status_transition. exec.
    destruct (data s !! "status") as [v|] eqn:Hd; simpl; [|discriminate].
    destruct (proj1 Hv _ _ Hd) as (Hst & _).
    destruct (Hst eq_refl) as [target ->]. simpl.
    destruct (_ =? _)%Z; simpl; [discriminate|].
    destruct (_ !! OrderStatus.slug target); simpl.
    + destruct (str_in _ _); simpl; [discriminate | by intros [= <-]].
    + by intros [= <-].
  - by destruct Hr as (? & ? & _ & _ & _ & _ & ->).
Qed.

(** Property X3.  On a change-set as the serializer validates it, with the
    shipped and under-review rows in the status table, an update either
    succeeds or raises [ValidationError] or [PermissionDenied]: no lookup
    fails, no attribute is missing and no assignment is refused. *)
Theorem validated_update_raises_only_api_errors
    (s : OrderUpdater.t) (w : World)
    (Hvalid : validated s) (Hseed : seeded w) :
  match (run (s, w)).1 with
  | inl e => is_api_error e
  | inr _ => True
  end.
Proof.
  unfold run, mbind, M_bind.
  pose proof (check_safe s w Hvalid) as H1. unfold stage_safe in H1.
  destruct (_check_allowed_fields (s, w)) as [[e|[]] [s1 w1]]; [exact H1|].
  simpl in H1. destruct H1 as [Hv1 ->].
  pose proof (deliverer_safe s1 w Hv1 Hseed) as H2. unfold stage_safe in H2.
  destruct (_handle_deliverer (s1, w)) as [[e|[]] [s2 w2]]; [exact H2|].
  simpl in H2. destruct H2 as [Hv2 ->].
  pose proof (address_safe s2 w Hv2 Hseed) as H3. unfold stage_safe in H3.
  destruct (_handle_delivery_address (s2, w)) as [[e|[]] [s3 w3]]; [exact H3|].
  simpl in H3. destruct H3 as [Hv3 ->].
  pose proof (intent_safe s3 w Hv3 Hseed) as H4. unfold stage_safe in H4.
  destruct (_handle_intent (s3, w)) as [[e|[]] [s4 w4]]; [exact H4|].
  simpl in H4. destruct H4 as [Hv4 ->].
  pose proof (transition_safe s4 w Hv4) as H5.
  destruct (_handle_status_transition (s4, w)) as [[e|[]] [s5 w5]]; [exact H5|].
  done.
Qed.

Lemma validated_update_raises_only_api_errors_witness :
  match (update (Sample.order_in Sample.shipped) Sample.customer
           {[ "delivery_address" := VAddress Sample.office ]}
           (Sample.world_in Sample.shipped)).1 with
  | inl e => is_api_error e
  | inr _ => True
  end.
Proof.
  refine (validated_update_raises_only_api_errors
    (init (Sample.order_in Sample.shipped) Sample.customer
       {[ "delivery_address" := VAddress Sample.office ]})
    (Sample.world_in Sample.shipped) _ _).
  - split; [|by left].
    intros field v. simpl. rewrite delete_singleton_ne by done.
    intros [<- <-]%lookup_singleton_Some.
    repeat split; try discriminate. intros _. by eexists.
  - split; by eexists.
Defined.

(** ** Which fields an update can touch *)

Lemma fields_from_change_set_refl st : fields_from_change_set st st.
Proof. split; [by left|]. split; [by left|done]. Qed.

Lemma fields_from_change_set_trans a b c :
  fields_from_change_set a b -> fields_from_change_set b c ->
  fields_from_change_set a c.
Proof.
  intros (Hd1 & Ha1 & Hk1) (Hd2 & Ha2 & Hk2). split; [|split].
  - destruct Hd2 as [E2|(u & Hl & E2)].
    + rewrite E2. exact Hd1.
    + right. exists u. by rewrite <- Hk1.
  - destruct Ha2 as [E2|(x & Hl & E2)].
    + rewrite E2. exact Ha1.
    + right. exists x. by rewrite <- Hk1.
  - intros k Hk. by rewrite Hk2, Hk1.
Qed.

Lemma deliverer_fields st : fields_from_change_set st (_handle_deliverer st).2.
Proof.
  destruct st as [s w]. unfold fields_from_change_set, _handle_deliverer. exec.
  destruct (data s !! "deliverer") as [v|] eqn:Hd; simpl;
    [|by (split; [left|split; [left|]])].
  destruct (negb (truthy v)); simpl; [by (split; [left|split; [left|]])|].
  destruct (negb _); simpl; [|by (split; [left|split; [left|]])].
  destruct v as [| | |u| |]; simpl; try by (split; [left|split; [left|]]).
  destruct (str_in _ _); simpl.
  - destruct (order_statuses w !! "shipped"); simpl.
    + split; [right; by exists u|]. split; [by left|].
      intros k Hk. by rewrite lookup_insert_ne.
    + split; [right; by exists u|]. split; [by left|done].
  - split; [right; by exists u|]. split; [by left|done].
Qed.

Lemma address_fields st : fields_from_change_set st (_handle_delivery_address st).2.
Proof.
  destruct st as [s w]. unfold fields_from_change_set, _handle_delivery_address. exec.
  destruct (data s !! "delivery_address") as [v|] eqn:Hd; simpl;
    [|by (split; [left|split; [left|]])].
  destruct (negb (truthy v) || _); simpl; [by (split; [left|split; [left|]])|].
  destruct (negb (str_in _ _)); simpl; [by (split; [left|split; [left|]])|].
  destruct v as [| | | |a|]; simpl; try by (split; [left|split; [left|]]).
  destruct (String.eqb _ _); simpl.
  - destruct (order_statuses w !! "under-review"); simpl.
    + split; [by left|]. split; [right; by exists a|].
      intros k Hk. by rewrite lookup_insert_ne.
    + split; [by left|]. split; [right; by exists a|done].
  - split; [by left|]. split; [right; by exists a|done].
Qed.

Lemma intent_fields st : fields_from_change_set st (_handle_intent st).2.
Proof.
  destruct st as [s w]. unfold fields_from_change_set.
  pose proof (intent_frame (s, w)) as (_ & _ & _ & Ho). simpl in Ho.
  rewrite Ho. split; [by left|]. split; [by left|].
  unfold _handle_intent. exec. intros k Hk.
  destruct (negb (truthy (intent s))); simpl; [done|].
  destruct (intent s) as [|name| | | |]; simpl; try done.
  destruct (INTENTS_ORIGIN_STATUSES !! name); simpl; [|done].
  destruct (negb (str_in _ _)); simpl; [done|].
  destruct (order_statuses w !! "under-review"); simpl; [|done].
  by rewrite lookup_insert_ne.
Qed.

Lemma transition_fields st :
  fields_from_change_set st (_handle_status_transition st).2.
Proof.
  destruct (transition_cases st) as [[-> _]|[[e ->]|Hr]];
    [apply fields_from_change_set_refl ..|].
  destruct Hr as (? & ? & _ & _ & _ & _ & ->).
  split; [by left|]. split; [by left|done].
Qed.

Lemma save_fields st : fields_from_change_set st (save st).2.
Proof. destruct st as [s w]. split; [by left|]. split; [by left|done]. Qed.

(** The state in which [run] ends, whatever the outcome: the initial state
    when the guard refuses, and otherwise a state whose deliverer and address
    come from entries that the guard allowed to the role. *)
Lemma run_fields (st : OrderUpdater.t * World) :
  (run st).2 = st
  ∨ (dom (data st.1) ∖ allowed_fields (role st.1) = ∅
     ∧ fields_from_change_set st (run st).2).
Proof.
  destruct st as [s w].
  destruct (decide (dom (data s) ∖ allowed_fields (role s) = ∅)) as [Hp|Hp].
  2: { left. by rewrite run_rejected_by_guard. }
  right. split; [done|].
  unfold run, mbind, M_bind. rewrite (check_passes s w Hp).
  pose proof (deliverer_fields (s, w)) as H2.
  destruct (_handle_deliverer (s, w)) as [[e|[]] st2]; [exact H2|].
  pose proof (address_fields st2) as H3.
  destruct (_handle_delivery_address st2) as [[e|[]] st3];
    [by eapply fields_from_change_set_trans|].
  pose proof (intent_fields st3) as H4.
  destruct (_handle_intent st3) as [[e|[]] st4].
  { eapply fields_from_change_set_trans; [|exact H4].
    by eapply fields_from_change_set_trans. }
  pose proof (transition_fields st4) as H5.
  assert (fields_from_change_set (s, w) st4) as H14.
  { eapply fields_from_change_set_trans; [|exact H4].
    by eapply fields_from_change_set_trans. }
  destruct (_handle_status_transition st4) as [[e|[]] st5];
    [by eapply fields_from_change_set_trans|].
  pose proof (save_fields st5) as H6.
  assert (fields_from_change_set (s, w) st5) as H15
    by (by eapply fields_from_change_set_trans).
  destruct st5 as [s5 w5]. simpl.
  by eapply fields_from_change_set_trans.
Qed.

Lemma allowed_deliverer (role : string) :
  "deliverer" ∈ allowed_fields role <-> role ∈ ["admin"; "manager"].
Proof.
  rewrite allowed_fields_cases.
  destruct (decide (role = "admin" ∨ role = "manager")) as [Hr|Hr].
  - split; [|set_solver]. intros _. destruct Hr as [-> | ->]; set_solver.
  - destruct (decide (role = "delivery")); set_solver.
Qed.

Lemma allowed_delivery_address (role : string) :
  "delivery_address" ∈ allowed_fields role <-> role ∉ ["admin"; "manager"; "delivery"].
Proof.
  rewrite allowed_fields_cases.
  destruct (decide (role = "admin" ∨ role = "manager")) as [Hr|Hr].
  - split; [set_solver|]. intros Hn. destruct Hr as [-> | ->]; set_solver.
  - destruct (decide (role = "delivery")) as [->|]; set_solver.
Qed.

(** Property X4.  Whatever the outcome of an update, a role other than admin
    and manager leaves the deliverer of the order as it was, and the roles
    admin, manager and delivery leave its delivery address as it was: each
    attribute changes only through a change-set entry that the guard allows
    to the role. *)
Theorem update_changes_only_fields_allowed_to_the_role
    (st : OrderUpdater.t * World) :
  (role st.1 ∉ ["admin"; "manager"] ->
   Order.deliverer (order (run st).2.1) = Order.deliverer (order st.1))
  ∧ (role st.1 ∈ ["admin"; "manager"; "delivery"] ->
     Order.delivery_address (order (run st).2.1)
     = Order.delivery_address (order st.1)).
Proof.
  destruct (run_fields st) as [->|(Hp & Hd & Ha & _)]; [done|].
  split.
  - intros Hrole. destruct Hd as [E|(u & Hl & _)]; [exact E|].
    exfalso. apply Hrole, allowed_deliverer.
    destruct (decide ("deliverer" ∈ allowed_fields (role st.1))) as [|Hn]; [done|].
    by rewrite (passes_guard_lookup st.1 _ Hp Hn) in Hl.
  - intros Hrole. destruct Ha as [E|(a & Hl & _)]; [exact E|].
    exfalso.
    destruct (decide ("delivery_address" ∈ allowed_fields (role st.1))) as [Hy|Hn].
    + by apply allowed_delivery_address in Hy.
    + by rewrite (passes_guard_lookup st.1 _ Hp Hn) in Hl.
Qed.

Lemma update_changes_only_fields_allowed_to_the_role_witness :
  Order.deliverer
    (order (update (Sample.order_in Sample.pending) Sample.customer
              {[ "deliverer" := VUser Sample.courier ]}
              (Sample.world_in Sample.pending)).2.1) = None.
Proof.
  refine (proj1 (update_changes_only_fields_allowed_to_the_role
    (init (Sample.order_in Sample.pending) Sample.customer
       {[ "deliverer" := VUser Sample.courier ]},
     Sample.world_in Sample.pending)) _).
  vm_compute. intros H. apply list_elem_of_In in H. simpl in H.
  destruct H as [H|[H|[]]]; discriminate H.
Defined.

(** Property X5.  An update never clears the deliverer of an order: an order
    that had a deliverer has one after the update, whatever the change-set
    (a deliverer entry of [None] is skipped) and whatever the outcome. *)
Theorem update_never_clears_the_deliverer
    (st : OrderUpdater.t * World) (d : User.t)
    (Hassigned : Order.deliverer (order st.1) = Some d) :
  is_Some (Order.deliverer (order (run st).2.1)).
Proof.
  destruct (run_fields st) as [->|(_ & Hd & _)]; [by rewrite Hassigned|].
  destruct Hd as [->|(u & _ & ->)]; [by rewrite Hassigned | done].
Qed.

Lemma update_never_clears_the_deliverer_witness :
  is_Some (Order.deliverer (order (run
    (init (Order.with_deliverer (Some Sample.courier) (Sample.order_in Sample.shipped))
       Sample.manager {[ "deliverer" := VNone ]},
     Sample.world_in Sample.shipped)).2.1)).
Proof.
  refine (update_never_clears_the_deliverer
    (init (Order.with_deliverer (Some Sample.courier) (Sample.order_in Sample.shipped))
       Sample.manager {[ "deliverer" := VNone ]},
     Sample.world_in Sample.shipped) Sample.courier _).
  reflexivity.
Defined.

(** ** The policy in the transition table *)

(** Property X6.  On every edge of the transition table: admin is
    authorized; source and target differ; the source is neither cancelled
    nor refunded; customer is authorized only on edges into under-review;
    delivery is authorized only on edges out of shipped; and the only edge
    closed to manager is the one from shipped to delivered. *)
Theorem transition_table_policy
    (current target : string) (roles : list string)
    (Hedge : edge_roles current target = Some roles) :
  "admin" ∈ roles
  ∧ current ≠ target
  ∧ (current ∉ ["cancelled"; "refunded"])
  ∧ ("customer" ∈ roles -> target = "under-review")
  ∧ ("delivery" ∈ roles -> current = "shipped")
  ∧ ("manager" ∉ roles -> current = "shipped" ∧ target = "delivered").
Proof.
  apply edge_roles_table in Hedge.
  rewrite !elem_of_cons, elem_of_nil in Hedge.
  repeat (destruct Hedge as [Hedge|Hedge]); try done;
    injection Hedge as -> -> ->;
    (split; [set_solver|]); (split; [done|]); (split; [set_solver|]);
    (split; [set_solver|]); (split; [set_solver|]); set_solver.
Qed.

Lemma transition_table_policy_witness :
  "admin" ∈ ["admin"; "delivery"]
  ∧ "shipped" ≠ "delivered"
  ∧ ("shipped" ∉ ["cancelled"; "refunded"])
  ∧ ("customer" ∈ ["admin"; "delivery"] -> "delivered" = "under-review")
  ∧ ("delivery" ∈ ["admin"; "delivery"] -> "shipped" = "shipped")
  ∧ ("manager" ∉ ["admin"; "delivery"] -> "shipped" = "shipped" ∧ "delivered" = "delivered").
Proof.
  refine (transition_table_policy "shipped" "delivered" ["admin"; "delivery"] _).
  vm_compute. reflexivity.
Defined.

(** ** More of the deliverer handler *)

Lemma deliverer_assigned_late (s : OrderUpdater.t) (w : World) (u : User.t) :
  data s !! "deliverer" = Some (VUser u) ->
  py_eq (VUser u) (of_user (Order.deliverer (order s))) = false ->
  OrderStatus.slug (Order.status (order s)) ∉ ["pending"; "under-review"] ->
  _handle_deliverer (s, w) =
    (inr tt, (with_order (Order.with_deliverer (Some u) (order s)) s, w)).
Proof.
  intros Hd Hne Hst. unfold _handle_deliverer. exec.
  rewrite Hd. simpl. rewrite Hne. simpl.
  by rewrite (proj2 (str_in_false _ _) Hst).
Qed.

(** Property X7.  Outside the statuses pending and under-review, a proposed
    deliverer that differs from the current one is assigned without touching
    the change-set.  When that change-set passes the guard and carries
    neither a status nor an intent, the update succeeds, the order is saved
    with the new deliverer and its old status, and no history entry is
    written. *)
Theorem late_deliverer_assignment_keeps_status
    (s : OrderUpdater.t) (w : World) (u : User.t)
    (Hdata : data s !! "deliverer" = Some (VUser u))
    (Hnew : py_eq (VUser u) (of_user (Order.deliverer (order s))) = false)
    (Hlate : OrderStatus.slug (Order.status (order s)) ∉ ["pending"; "under-review"]) :
  _handle_deliverer (s, w) =
    (inr tt, (with_order (Order.with_deliverer (Some u) (order s)) s, w))
  ∧ (dom (data s) ∖ allowed_fields (role s) = ∅ ->
     data s !! "status" = None ->
     truthy (intent s) = false ->
     let o' := Order.with_when_last_update (clock w (ticks w))
                 (Order.with_deliverer (Some u) (order s)) in
     exists s' w',
       run (s, w) = (inr o', (s', w'))
       ∧ Order.status o' = Order.status (order s)
       ∧ orders w' = <[Order.id (order s) := o']> (orders w)
       ∧ order_histories w' = order_histories w).
Proof.
  split; [by apply deliverer_assigned_late|].
  intros Hpass Hnostatus Hnointent o'. subst o'.
  destruct (deliverer_passes_guard s _ Hpass Hdata) as [_ Hnoaddr].
  erewrite run_commits.
  2: { eapply guard_and_handlers_pass.
       - by apply check_passes.
       - by apply deliverer_assigned_late.
       - by apply address_absent.
       - by apply intent_absent. }
  2: { apply transition_noop. left. simpl. by rewrite Hnostatus. }
  rewrite save_runs. simpl. by do 2 eexists.
Qed.

Lemma late_deliverer_assignment_keeps_status_witness :
  exists s' w',
    update (Sample.order_in Sample.shipped) Sample.manager
      {[ "deliverer" := VUser Sample.courier ]} (Sample.world_in Sample.shipped)
    = (inr (Order.with_when_last_update 2000
              (Order.with_deliverer (Some Sample.courier)
                 (Sample.order_in Sample.shipped))), (s', w'))
    ∧ Order.status (Order.with_when_last_update 2000
              (Order.with_deliverer (Some Sample.courier)
                 (Sample.order_in Sample.shipped))) = Sample.shipped
    ∧ orders w' = <[7%Z := Order.with_when_last_update 2000
                      (Order.with_deliverer (Some Sample.courier)
                         (Sample.order_in Sample.shipped))]>
                    (orders (Sample.world_in Sample.shipped))
    ∧ order_histories w' = [].
Proof.
  refine (proj2 (late_deliverer_assignment_keeps_status
    (init (Sample.order_in Sample.shipped) Sample.manager
       {[ "deliverer" := VUser Sample.courier ]})
    (Sample.world_in Sample.shipped) Sample.courier _ _ _) _ _ _).
  - reflexivity.
  - reflexivity.
  - vm_compute. intros H. apply list_elem_of_In in H. simpl in H.
    destruct H as [H|[H|[]]]; discriminate H.
  - vm_compute. reflexivity.
  - reflexivity.
  - reflexivity.
Defined.

(** Property X8.  The handlers run in a fixed order, so the last one to set
    the status wins: when an admin or manager assigns a deliverer to a
    pending order and the same request carries a cancellation intent, the
    order ends under review (not shipped), with the new deliverer, and the
    single history entry carries the note of the intent. *)
Theorem intent_overrides_deliverer_shipment
    (s : OrderUpdater.t) (w : World) (u : User.t)
    (shipped under_review : OrderStatus.t)
    (Hdata : data s !! "deliverer" = Some (VUser u))
    (Hnew : py_eq (VUser u) (of_user (Order.deliverer (order s))) = false)
    (Hpending : OrderStatus.slug (Order.status (order s)) = "pending")
    (Hintent : intent s = VStr "cancellation")
    (Hpass : dom (data s) ∖ allowed_fields (role s) = ∅)
    (Hshipped : order_statuses w !! "shipped" = Some shipped)
    (Hreview : order_statuses w !! "under-review" = Some under_review)
    (Hslug : OrderStatus.slug under_review = "under-review")
    (Hother : OrderStatus.id under_review ≠ OrderStatus.id (Order.status (order s))) :
  exists (o' : Order.t) (s' : OrderUpdater.t) (w' : World) (h : OrderHistory.t),
    run (s, w) = (inr o', (s', w'))
    ∧ Order.status o' = under_review
    ∧ Order.deliverer o' = Some u
    ∧ orders w' = <[Order.id (order s) := o']> (orders w)
    ∧ order_histories w' = (order_histories w ++ [h])%list
    ∧ OrderHistory.status h = under_review
    ∧ OrderHistory.action h
      = "Customer requested cancellation. Status transitioned to Under Review.".
Proof.
  destruct (deliverer_passes_guard s _ Hpass Hdata) as [Hrole Hnoaddr].
  set (s2 := with_data (<["status" := VStatus shipped]> (data s))
               (with_order (Order.with_deliverer (Some u) (order s)) s)).
  set (s4 := with_action_description
               "Customer requested cancellation. Status transitioned to Under Review."
               (with_data (<["status" := VStatus under_review]> (data s2)) s2)).
  assert (guard_and_handlers (s, w) = (inr tt, (s4, w))) as Hh.
  { eapply guard_and_handlers_pass.
    - by apply check_passes.
    - apply (deliverer_assigned_early s w u shipped); try done.
      rewrite Hpending. set_solver.
    - apply address_absent. unfold s2. simpl. by rewrite lookup_insert_ne.
    - apply (intent_accepted s2 w "cancellation" ["pending"; "failed"]); try done.
      unfold s2. simpl. rewrite Hpending. set_solver. }
  erewrite run_commits; [|exact Hh|].
  2: { eapply (transition_commit s4 w under_review).
       - unfold s4. simpl. apply lookup_insert_eq.
       - exact Hother.
       - unfold s4, s2. simpl. rewrite Hslug, Hpending. reflexivity.
       - unfold s4, s2. simpl. set_solver. }
  rewrite save_runs. simpl.
  do 4 eexists. split; [reflexivity|]. by repeat split.
Qed.

Lemma intent_overrides_deliverer_shipment_witness :
  exists (o' : Order.t) (s' : OrderUpdater.t) (w' : World) (h : OrderHistory.t),
    update (Sample.order_in Sample.pending) Sample.admin
      {[ "deliverer" := VUser Sample.courier; "intent" := VStr "cancellation" ]}
      (Sample.world_in Sample.pending) = (inr o', (s', w'))
    ∧ Order.status o' = Sample.under_review
    ∧ Order.deliverer o' = Some Sample.courier
    ∧ orders w' = <[7%Z := o']> (orders (Sample.world_in Sample.pending))
    ∧ order_histories w' = [h]
    ∧ OrderHistory.status h = Sample.under_review
    ∧ OrderHistory.action h
      = "Customer requested cancellation. Status transitioned to Under Review.".
Proof.
  refine (intent_overrides_deliverer_shipment
    (init (Sample.order_in Sample.pending) Sample.admin
       {[ "deliverer" := VUser Sample.courier; "intent" := VStr "cancellation" ]})
    (Sample.world_in Sample.pending) Sample.courier Sample.shipped Sample.under_review
    _ _ _ _ _ _ _ _ _).
  - vm_compute. reflexivity.
  - reflexivity.
  - reflexivity.
  - vm_compute. reflexivity.
  - vm_compute. reflexivity.
  - reflexivity.
  - reflexivity.
  - reflexivity.
  - simpl. lia.
Defined.

(** ** Lookups that fail *)

(** The guard and the two handlers before the intent handler leave the
    intent and the note of the updater alone. *)
Lemma before_intent_handler (st : OrderUpdater.t * World) :
  let keeps (r : (Exn + unit) * (OrderUpdater.t * World)) :=
    intent r.2.1 = intent st.1
    ∧ action_description r.2.1 = action_description st.1 in
  keeps (_check_allowed_fields st) ∧ keeps (_handle_deliverer st)
  ∧ keeps (_handle_delivery_address st).
Proof.
  destruct st as [s w]. simpl. split; [|split].
  - by rewrite check_frame.
  - unfold _handle_deliverer. exec. crunch.
  - unfold _handle_delivery_address. exec. crunch.
Qed.

(** Either a stage before the intent handler raises, or the intent handler
    runs on a state with the intent and the note the updater started with. *)
Lemma reaches_intent_handler (st : OrderUpdater.t * World) :
  (exists e st1, guard_and_handlers st = (inl e, st1))
  ∨ (exists st3, intent st3.1 = intent st.1
                 ∧ action_description st3.1 = action_description st.1
                 ∧ guard_and_handlers st = _handle_intent st3).
Proof.
  unfold guard_and_handlers, mbind, M_bind.
  pose proof (before_intent_handler st) as (H1 & _). simpl in H1.
  destruct (_check_allowed_fields st) as [[e|[]] st1]; [left; by do 2 eexists|].
  pose proof (before_intent_handler st1) as (_ & H2 & _). simpl in *.
  destruct (_handle_deliverer st1) as [[e|[]] st2]; [left; by do 2 eexists|].
  pose proof (before_intent_handler st2) as (_ & _ & H3). simpl in *.
  destruct (_handle_delivery_address st2) as [[e|[]] st3]; [left; by do 2 eexists|].
  right. exists st3. simpl in *.
  destruct H1 as [E1 A1]. destruct H2 as [E2 A2]. destruct H3 as [E3 A3].
  split; [congruence|]. split; [congruence|done].
Qed.

Lemma intent_unknown (s : OrderUpdater.t) (w : World) :
  truthy (intent s) = true ->
  (forall name, intent s = VStr name -> INTENTS_ORIGIN_STATUSES !! name = None) ->
  _handle_intent (s, w) = (inl (KeyError (intent s)), (s, w)).
Proof.
  intros Ht Hn. unfold _handle_intent. exec. rewrite Ht. simpl.
  destruct (intent s) as [|name| | | |]; try done.
  by rewrite (Hn name eq_refl).
Qed.

(** Property X9.  An intent that is neither empty nor a key of the table of
    origin statuses makes the intent handler raise [KeyError] with the state
    untouched.  An update carrying such an intent is never accepted, and it
    writes nothing to the order table or the history table. *)
Theorem unknown_intent_is_never_accepted
    (s : OrderUpdater.t) (w : World)
    (Htruthy : truthy (intent s) = true)
    (Hunknown : forall name, intent s = VStr name ->
                             INTENTS_ORIGIN_STATUSES !! name = None) :
  _handle_intent (s, w) = (inl (KeyError (intent s)), (s, w))
  ∧ (exists e, (run (s, w)).1 = inl e)
  ∧ no_writes (s, w) (run (s, w)).2.
Proof.
  split; [by apply intent_unknown|].
  assert (exists e, (run (s, w)).1 = inl e) as [e He].
  { rewrite run_stages.
    destruct (reaches_intent_handler (s, w)) as [(e & st1 & ->)|(st3 & Hi & _ & ->)].
    - by exists e.
    - destruct st3 as [s3 w3]. simpl in Hi.
      rewrite intent_unknown by (by rewrite Hi). by eexists. }
  split; [by exists e|].
  pose proof (run_frame (s, w)) as [_ H]. simpl in H. by rewrite He in H.
Qed.

Lemma unknown_intent_is_never_accepted_witness :
  (exists e,
     (update (Sample.order_in Sample.pending) Sample.customer
        {[ "intent" := VStr "return" ]} (Sample.world_in Sample.pending)).1 = inl e)
  ∧ no_writes
      (init (Sample.order_in Sample.pending) Sample.customer
         {[ "intent" := VStr "return" ]}, Sample.world_in Sample.pending)
      (update (Sample.order_in Sample.pending) Sample.customer
         {[ "intent" := VStr "return" ]} (Sample.world_in Sample.pending)).2.
Proof.
  refine (proj2 (unknown_intent_is_never_accepted
    (init (Sample.order_in Sample.pending) Sample.customer
       {[ "intent" := VStr "return" ]})
    (Sample.world_in Sample.pending) _ _)).
  - reflexivity.
  - intros name [= <-]. vm_compute. reflexivity.
Defined.

(** Property X10.  When the status table has no shipped row, assigning a new
    deliverer to an order that is pending or under review raises
    [DoesNotExist]: the in-memory order already has the new deliverer, the
    change-set and the database are untouched, and an update whose change-set
    passes the guard ends with that exception. *)
Theorem deliverer_assignment_without_shipped_row
    (s : OrderUpdater.t) (w : World) (u : User.t)
    (Hdata : data s !! "deliverer" = Some (VUser u))
    (Hnew : py_eq (VUser u) (of_user (Order.deliverer (order s))) = false)
    (Hearly : OrderStatus.slug (Order.status (order s)) ∈ ["pending"; "under-review"])
    (Hmissing : order_statuses w !! "shipped" = None) :
  _handle_deliverer (s, w) =
    (inl (DoesNotExist "shipped"),
     (with_order (Order.with_deliverer (Some u) (order s)) s, w))
  ∧ (dom (data s) ∖ allowed_fields (role s) = ∅ ->
     run (s, w) =
       (inl (DoesNotExist "shipped"),
        (with_order (Order.with_deliverer (Some u) (order s)) s, w))).
Proof.
  assert (_handle_deliverer (s, w) =
            (inl (DoesNotExist "shipped"),
             (with_order (Order.with_deliverer (Some u) (order s)) s, w))) as Hh.
  { unfold _handle_deliverer. exec. rewrite Hdata. simpl. rewrite Hnew. simpl.
    rewrite (proj2 (str_in_true _ _) Hearly). simpl. by rewrite Hmissing. }
  split; [exact Hh|]. intros Hpass.
  unfold run. rewrite (bind_inr _ _ _ _ _ (check_passes s w Hpass)).
  by apply bind_inl.
Qed.

Lemma deliverer_assignment_without_shipped_row_witness :
  run (init (Sample.order_in Sample.pending) Sample.manager
         {[ "deliverer" := VUser Sample.courier ]},
       BuildWorld {[ 7%Z := Sample.order_in Sample.pending ]} [] ∅ (fun _ => 0%Z) 0)
  = (inl (DoesNotExist "shipped"),
     (with_order (Order.with_deliverer (Some Sample.courier)
                    (Sample.order_in Sample.pending))
        (init (Sample.order_in Sample.pending) Sample.manager
           {[ "deliverer" := VUser Sample.courier ]}),
      BuildWorld {[ 7%Z := Sample.order_in Sample.pending ]} [] ∅ (fun _ => 0%Z) 0)).
Proof.
  refine (proj2 (deliverer_assignment_without_shipped_row
    (init (Sample.order_in Sample.pending) Sample.manager
       {[ "deliverer" := VUser Sample.courier ]})
    (BuildWorld {[ 7%Z := Sample.order_in Sample.pending ]} [] ∅ (fun _ => 0%Z) 0)
    Sample.courier _ _ _ _) _).
  - reflexivity.
  - reflexivity.
  - vm_compute. apply list_elem_of_here.
  - reflexivity.
  - vm_compute. reflexivity.
Defined.

(** ** The note of a plain status edit *)

(** Property X11.  When the request holds no intent, an accepted update that
    changes the status logs it under the note ["Status transitioned to
    <title>"], with the title of the new status. *)
Theorem plain_status_edit_is_logged_with_the_title
    (instance : Order.t) (actor : User.t) (change_set : gmap string Value)
    (w : World) (o : Order.t) (st' : OrderUpdater.t * World)
    (Hnointent : change_set !! "intent" = None)
    (Hrun : update instance actor change_set w = (inr o, st'))
    (Hchanged : Order.status o ≠ Order.status instance) :
  exists h,
    order_histories st'.2 = (order_histories w ++ [h])%list
    ∧ OrderHistory.status h = Order.status o
    ∧ OrderHistory.action h
      = "Status transitioned to " +:+ OrderStatus.title (Order.status o).
Proof.
  unfold update in Hrun.
  destruct (run_accepted _ _ _ Hrun) as (s1 & w1 & Hh & [H|H]).
  { by destruct H as (_ & H & _). }
  destruct H as (target & roles & _ & _ & _ & _ & -> & Hhist).
  simpl in Hhist |- *.
  assert (action_description s1 = "") as Hnote.
  { destruct (reaches_intent_handler (init instance actor change_set, w))
      as [(e & st1 & He)|(st3 & Hi & Ha & He)]; [by rewrite He in Hh|].
    rewrite Hh in He. destruct st3 as [s3 w3]. simpl in Hi, Ha.
    rewrite Hnointent in Hi. simpl in Hi.
    rewrite intent_absent in He by (by rewrite Hi).
    injection He as -> ->. exact Ha. }
  rewrite Hnote in Hhist. simpl in Hhist. eexists. split; [exact Hhist|]. done.
Qed.

Lemma plain_status_edit_is_logged_with_the_title_witness :
  let r := update (Sample.order_in Sample.shipped) Sample.courier
             {[ "status" := VStatus Sample.delivered ]}
             (Sample.world_in Sample.shipped) in
  exists h,
    order_histories r.2.2 = ([] ++ [h])%list
    ∧ OrderHistory.status h = Order.status (order r.2.1)
    ∧ OrderHistory.action h
      = "Status transitioned to " +:+ OrderStatus.title (Order.status (order r.2.1)).
Proof.
  intros r.
  refine (plain_status_edit_is_logged_with_the_title
    (Sample.order_in Sample.shipped) Sample.courier
    {[ "status" := VStatus Sample.delivered ]} (Sample.world_in Sample.shipped)
    (order r.2.1) r.2 _ _ _).
  - reflexivity.
  - vm_compute. reflexivity.
  - vm_compute. discriminate.
Defined.

(** ** Roles *)

Lemma is_role_admin (u : User.t) : is_role u "admin" = User.is_superuser u.
Proof. reflexivity. Qed.

Lemma is_role_group (u : User.t) (g : string) :
  g = "manager" ∨ g = "delivery" ->
  is_role u g = true <-> exists name, name ∈ User.groups u ∧ lower name = g.
Proof.
  intros Hg.
  assert (is_role u g
          = existsb (fun name => String.eqb (lower name) g) (User.groups u)) as ->
    by (destruct Hg as [-> | ->]; reflexivity).
  rewrite existsb_exists. split.
  - intros (name & Hin & He). exists name.
    split; [by apply list_elem_of_In | by apply String.eqb_eq].
  - intros (name & Hin & He). exists name.
    split; [by apply list_elem_of_In | by apply String.eqb_eq].
Qed.

(** Property X12.  [get_role] returns the first role that applies, in the
    order admin, manager, delivery: admin exactly for superusers (a group
    named admin gives nothing), manager exactly for the other members of a
    group whose name is manager up to letter case, delivery exactly for the
    remaining members of a delivery group, and customer or anonymous for the
    rest, depending on authentication alone. *)
Theorem get_role_by_priority (u : User.t) :
  let in_group g := exists name, name ∈ User.groups u ∧ lower name = g in
  (get_role u = "admin" <-> User.is_superuser u = true)
  ∧ (get_role u = "manager" <->
       User.is_superuser u = false ∧ in_group "manager")
  ∧ (get_role u = "delivery" <->
       User.is_superuser u = false ∧ ¬ in_group "manager" ∧ in_group "delivery")
  ∧ (get_role u = "customer" <->
       User.is_superuser u = false ∧ ¬ in_group "manager" ∧ ¬ in_group "delivery"
       ∧ User.is_authenticated u = true)
  ∧ (get_role u = "anonymous" <->
       User.is_superuser u = false ∧ ¬ in_group "manager" ∧ ¬ in_group "delivery"
       ∧ User.is_authenticated u = false).
Proof.
  intros in_group. subst in_group. simpl.
  pose proof (is_role_group u "manager" (or_introl eq_refl)) as Hm.
  pose proof (is_role_group u "delivery" (or_intror eq_refl)) as Hd.
  unfold get_role, first_role. rewrite is_role_admin.
  destruct (User.is_superuser u); [by repeat split; intros; try done; naive_solver|].
  destruct (is_role u "manager") eqn:Em.
  { apply proj1 in Hm. specialize (Hm eq_refl).
    repeat split; try done; naive_solver. }
  assert (¬ exists name, name ∈ User.groups u ∧ lower name = "manager") as Hnm
    by (intros H; apply Hm in H; discriminate).
  destruct (is_role u "delivery") eqn:Ed.
  { apply proj1 in Hd. specialize (Hd eq_refl).
    repeat split; try done; naive_solver. }
  assert (¬ exists name, name ∈ User.groups u ∧ lower name = "delivery") as Hnd
    by (intros H; apply Hd in H; discriminate).
  destruct (User.is_authenticated u); repeat split; try done; naive_solver.
Qed.

Lemma get_role_staff (u : User.t) :
  get_role u ∈ ["admin"; "manager"]
  <-> is_role u "admin" || is_role u "manager" = true.
Proof.
  unfold get_role, first_role.
  destruct (is_role u "admin"); [split; [done|set_solver]|].
  destruct (is_role u "manager"); [split; [done|set_solver]|].
  simpl. split; [|done].
  destruct (is_role u "delivery"); [set_solver|].
  destruct (User.is_authenticated u); set_solver.
Qed.

Lemma get_role_admin (u : User.t) : get_role u = "admin" <-> is_role u "admin" = true.
Proof.
  unfold get_role, first_role.
  destruct (is_role u "admin"); [done|].
  destruct (is_role u "manager"); [done|].
  destruct (is_role u "delivery"); [done|].
  by destruct (User.is_authenticated u).
Qed.

Lemma get_role_manager (u : User.t) :
  get_role u = "manager" -> is_role u "admin" = false ∧ is_role u "manager" = true.
Proof.
  unfold get_role, first_role.
  destruct (is_role u "admin"); [done|].
  destruct (is_role u "manager"); [done|].
  destruct (is_role u "delivery"); [done|].
  by destruct (User.is_authenticated u).
Qed.

Lemma get_role_other (u : User.t) :
  get_role u ∉ ["admin"; "manager"] ->
  is_role u "admin" = false ∧ is_role u "manager" = false.
Proof.
  intros H.
  destruct (is_role u "admin" || is_role u "manager") eqn:E.
  - by apply get_role_staff in E.
  - by apply orb_false_iff in E.
Qed.

(** Property X13.  Every user gets exactly one throttle.  It is the
    anonymous one exactly for unauthenticated users, whatever their role
    would be; for authenticated users it is the manager throttle for admin
    and manager, the delivery throttle for delivery, and the customer
    throttle otherwise. *)
Theorem throttle_follows_authentication_then_role (u : User.t) :
  exists t,
    get_role_throttle u = [t]
    ∧ (t = AnonRateThrottle <-> User.is_authenticated u = false)
    ∧ (t = ManagerThrottle <->
         User.is_authenticated u = true ∧ get_role u ∈ ["admin"; "manager"])
    ∧ (t = DeliveryThrottle <->
         User.is_authenticated u = true ∧ get_role u = "delivery")
    ∧ (t = CustomerThrottle <->
         User.is_authenticated u = true
         ∧ get_role u ∉ ["admin"; "manager"; "delivery"]).
Proof.
  unfold get_role_throttle.
  destruct (User.is_authenticated u); simpl.
  2: { exists AnonRateThrottle. split; [done|].
       split; [done|]. repeat split; try done; naive_solver. }
  destruct (str_in _ _) eqn:Es.
  { apply str_in_true in Es. exists ManagerThrottle. split; [done|].
    split; [done|]. split; [done|]. split.
    - split; [done|]. intros [_ E]. rewrite E in Es. set_solver.
    - split; [done|]. intros [_ Hn]. exfalso. apply Hn. set_solver. }
  apply str_in_false in Es.
  destruct (String.eqb _ _) eqn:Ed.
  { apply String.eqb_eq in Ed. exists DeliveryThrottle. split; [done|].
    split; [done|]. split; [split; [done|by intros [_ ?]]|]. split; [done|].
    split; [done|]. intros [_ Hn]. exfalso. apply Hn. rewrite Ed. set_solver. }
  apply String.eqb_neq in Ed. exists CustomerThrottle. split; [done|].
  split; [done|]. split; [split; [done|by intros [_ ?]]|].
  split; [split; [done|by intros [_ ?]]|].
  split; [|done]. intros _. split; [done|]. set_solver.
Qed.

(** ** Permissions *)

(** Property X14.  [ReadOnlyOrIsAdminOrManager] lets every request with a
    safe method through, authenticated or not, and any other request exactly
    when it comes from an authenticated user whose role is admin or
    manager. *)
Theorem writes_need_admin_or_manager (request : Request.t) :
  ReadOnlyOrIsAdminOrManager.has_permission request = true
  <-> Request.method request ∈ SAFE_METHODS
      ∨ (User.is_authenticated (Request.user request) = true
         ∧ get_role (Request.user request) ∈ ["admin"; "manager"]).
Proof.
  unfold ReadOnlyOrIsAdminOrManager.has_permission, IsAdminOrManager.has_permission,
    IsAuthenticated_has_permission.
  destruct (str_in _ _) eqn:Es.
  { apply str_in_true in Es. split; [by left|done]. }
  apply str_in_false in Es.
  destruct (User.is_authenticated _); simpl.
  - rewrite <- get_role_staff. naive_solver.
  - naive_solver.
Qed.

(** Property X15.  A cart entry is open to a request (view-level and
    object-level checks together) exactly when the requester is
    authenticated and is the owner, or an admin, or a manager using a safe
    method.  So a manager who is not the owner can read but never modify a
    cart entry, and delivery users and customers reach only their own. *)
Theorem cart_access (request : Request.t) (owner : User.t)
    (Hsaved : User.is_authenticated owner = true) :
  let user := Request.user request in
  let access := CartPermission.has_permission request
                && CartPermission.has_object_permission request owner in
  (access = true <->
     User.is_authenticated user = true
     ∧ (User.id user = User.id owner
        ∨ get_role user = "admin"
        ∨ (get_role user = "manager" ∧ Request.method request ∈ SAFE_METHODS)))
  ∧ (get_role user = "manager" -> User.id user ≠ User.id owner ->
     Request.method request ∉ SAFE_METHODS -> access = false)
  ∧ (get_role user ∉ ["admin"; "manager"] -> User.id user ≠ User.id owner ->
     access = false).
Proof.
  intros user access. subst user access.
  unfold CartPermission.has_permission, CartPermission.has_object_permission,
    IsAuthenticated_has_permission, user_eq.
  rewrite Hsaved.
  destruct (User.is_authenticated (Request.user request)); simpl;
    [|split; [naive_solver|done]].
  split; [|split].
  - destruct (is_role (Request.user request) "admin") eqn:Ea; simpl.
    { apply get_role_admin in Ea. naive_solver. }
    destruct (Z.eqb_spec (User.id (Request.user request)) (User.id owner)) as [E|E];
      simpl; [naive_solver|].
    destruct (is_role (Request.user request) "manager") eqn:Em; simpl.
    + assert (get_role (Request.user request) = "manager") as Hr.
      { unfold get_role, first_role. by rewrite Ea, Em. }
      destruct (str_in _ _) eqn:Es.
      * apply str_in_true in Es. naive_solver.
      * apply str_in_false in Es. split; [done|].
        intros [_ [?|[Hx|[_ ?]]]]; try done. by rewrite Hr in Hx.
    + split; [done|]. intros [_ [?|[Hx|[Hx _]]]]; try done.
      * apply get_role_admin in Hx. by rewrite Ea in Hx.
      * apply get_role_manager in Hx. destruct Hx as [_ Hx]. by rewrite Em in Hx.
  - intros Hr Hne Hm. apply get_role_manager in Hr. destruct Hr as [-> ->]. simpl.
    rewrite (proj2 (Z.eqb_neq _ _) Hne). simpl.
    by rewrite (proj2 (str_in_false _ _) Hm).
  - intros Hr Hne. apply get_role_other in Hr. destruct Hr as [-> ->]. simpl.
    by rewrite (proj2 (Z.eqb_neq _ _) Hne).
Qed.

(** Property X16.  An address is open to a request exactly when the
    requester is authenticated and is its owner or an admin, whatever the
    method: a manager has no access to the addresses of others, not even to
    read them. *)
Theorem address_access (request : Request.t) (owner : User.t)
    (Hsaved : User.is_authenticated owner = true) :
  let user := Request.user request in
  AddressPermission.has_permission request
  && AddressPermission.has_object_permission request owner = true
  <-> User.is_authenticated user = true
      ∧ (User.id user = User.id owner ∨ get_role user = "admin").
Proof.
  intros user. subst user.
  unfold AddressPermission.has_permission, AddressPermission.has_object_permission,
    IsAuthenticated_has_permission, user_eq.
  rewrite Hsaved.
  destruct (User.is_authenticated (Request.user request)); simpl; [|naive_solver].
  rewrite get_role_admin.
  destruct (is_role (Request.user request) "admin"); simpl; [naive_solver|].
  destruct (Z.eqb_spec (User.id (Request.user request)) (User.id owner));
    simpl; naive_solver.
Qed.

(** Property X17.  Managing the members of a group is allowed only to
    authenticated users: of the manager group only to an admin, of the
    delivery group to an admin or a manager, and of any other group, or when
    the URL gives no group name, to nobody, not even an admin.  The
    permission raises only for an authenticated request without URL keyword
    arguments. *)
Theorem group_management_permission (request : Request.t)
    (kwargs : option (gmap string string)) :
  let user := Request.user request in
  let r := HandleEmployeeGroupPermission.has_permission request kwargs in
  (r = inr true <->
     User.is_authenticated user = true
     ∧ exists k, kwargs = Some k
         ∧ ((k !! "group_name" = Some "manager" ∧ get_role user = "admin")
            ∨ (k !! "group_name" = Some "delivery"
               ∧ get_role user ∈ ["admin"; "manager"])))
  ∧ ((exists msg, r = inl msg) <->
       User.is_authenticated user = true ∧ kwargs = None).
Proof.
  intros user r. subst user r.
  unfold HandleEmployeeGroupPermission.has_permission, IsAuthenticated_has_permission.
  destruct (User.is_authenticated (Request.user request)); simpl;
    [|split; split; naive_solver].
  destruct kwargs as [k|]; [|split; split; naive_solver].
  split.
  2: { split; [|by intros [_ ?]].
       intros [msg H]. by repeat case_bool_decide. }
  split.
  - intros H. split; [done|]. exists k. split; [done|].
    case_bool_decide as Hm.
    { left. split; [done|]. injection H as H. by apply get_role_admin. }
    case_bool_decide as Hd; [|done].
    right. split; [done|]. injection H as H. by apply get_role_staff.
  - intros [_ (k' & [= <-] & [[Hg Hr]|[Hg Hr]])].
    + rewrite bool_decide_eq_true_2 by done. f_equal. by apply get_role_admin.
    + rewrite bool_decide_eq_false_2 by (by rewrite Hg).
      rewrite bool_decide_eq_true_2 by done. f_equal. by apply get_role_staff.
Qed.

(** Property X18.  A review is open to every request with a safe method and
    to every request of its author; a requester who is not the author can
    only delete it, and only as a superuser, so nobody but the author can
    ever edit a review. *)
Theorem review_access (request : Request.t) (author : User.t)
    (Hsaved : User.is_authenticated author = true) :
  let user := Request.user request in
  let is_author := User.is_authenticated user = true ∧ User.id user = User.id author in
  (ReviewPermission.has_object_permission request author = true <->
     Request.method request ∈ SAFE_METHODS
     ∨ is_author
     ∨ (Request.method request = "DELETE" ∧ User.is_superuser user = true))
  ∧ (¬ is_author -> Request.method request ∈ ["PUT"; "PATCH"] ->
     ReviewPermission.has_object_permission request author = false).
Proof.
  intros user is_author. subst user is_author.
  unfold ReviewPermission.has_object_permission, user_eq. rewrite Hsaved.
  split.
  - destruct (str_in _ _) eqn:Es.
    { apply str_in_true in Es. naive_solver. }
    apply str_in_false in Es.
    assert ((if String.eqb (Request.method request) "DELETE"
             then false || User.is_superuser (Request.user request) else false) = true
            <-> Request.method request = "DELETE"
                ∧ User.is_superuser (Request.user request) = true) as Hdel.
    { destruct (String.eqb_spec (Request.method request) "DELETE") as [E|E]; simpl.
      - split; [done | by intros [_ ?]].
      - split; [done | by intros [? _]]. }
    destruct (User.is_authenticated (Request.user request)); simpl.
    + destruct (Z.eqb_spec (User.id (Request.user request)) (User.id author)) as [E|E];
        simpl; [split; [intros _; right; by left | done]|].
      rewrite Hdel. split; [intros H; right; by right|].
      intros [H|[[_ H]|H]]; done.
    + rewrite Hdel. split; [intros H; right; by right|].
      intros [H|[[H _]|H]]; done.
  - intros Hna Hm.
    assert (str_in (Request.method request) SAFE_METHODS = false
            ∧ String.eqb (Request.method request) "DELETE" = false) as [-> Hd].
    { apply list_elem_of_In in Hm. simpl in Hm.
      destruct Hm as [Hm|[Hm|[]]]; rewrite <- Hm; by split. }
    destruct (User.is_authenticated (Request.user request)); simpl.
    + destruct (Z.eqb_spec (User.id (Request.user request)) (User.id author));
        simpl; [naive_solver|]. by rewrite Hd.
    + by rewrite Hd.
Qed.

Lemma cart_access_witness :
  CartPermission.has_permission (Request.Build "PATCH" Sample.manager)
  && CartPermission.has_object_permission (Request.Build "PATCH" Sample.manager)
       Sample.customer = false.
Proof.
  refine (proj1 (proj2 (cart_access (Request.Build "PATCH" Sample.manager)
                          Sample.customer _)) _ _ _).
  - reflexivity.
  - reflexivity.
  - simpl. lia.
  - vm_compute. intros H. apply list_elem_of_In in H. simpl in H.
    destruct H as [H|[H|[H|[]]]]; discriminate H.
Defined.

Lemma address_access_witness :
  AddressPermission.has_permission (Request.Build "GET" Sample.admin)
  && AddressPermission.has_object_permission (Request.Build "GET" Sample.admin)
       Sample.customer = true.
Proof.
  refine (proj2 (address_access (Request.Build "GET" Sample.admin)
                   Sample.customer _) _).
  - reflexivity.
  - split; [reflexivity|]. right. reflexivity.
Defined.

Lemma review_access_witness :
  ReviewPermission.has_object_permission (Request.Build "PUT" Sample.admin)
    Sample.customer = false.
Proof.
  refine (proj2 (review_access (Request.Build "PUT" Sample.admin)
                   Sample.customer _) _ _).
  - reflexivity.
  - simpl. intros [_ H]. lia.
  - vm_compute. apply list_elem_of_here.
Defined.



(** ** Who sees which order *)

Lemma get_role_delivery (u : User.t) :
  get_role u = "delivery" -> get_role u ∉ ["admin"; "manager"].
Proof. intros ->. set_solver. Qed.

Lemma can_see_iff (w : World) (viewer : User.t) (k : Z) :
  User.is_authenticated viewer = true ->
  can_see w viewer k <->
  exists o, orders w !! k = Some o
    ∧ (get_role viewer ∈ ["admin"; "manager"]
       ∨ (get_role viewer = "delivery" ∧ delivered_by viewer o = true)
       ∨ ((get_role viewer ∉ ["admin"; "manager"; "delivery"])
          ∧ placed_by viewer o = true)).
Proof.
  intros Hauth. unfold can_see, get_orders. rewrite Hauth. simpl.
  destruct (str_in _ _) eqn:Es.
  { apply str_in_true in Es. split.
    - intros (qs & [= <-] & [o Ho]). exists o. split; [done | by left].
    - intros (o & Ho & _). eexists. split; [done|]. by exists o. }
  apply str_in_false in Es.
  destruct (String.eqb_spec (get_role viewer) "delivery") as [Ed|Ed].
  - split.
    + intros (qs & [= <-] & [o Ho]).
      apply map_lookup_filter_Some in Ho. destruct Ho as [Ho Hp]. simpl in Hp.
      exists o. split; [done|]. right. by left.
    + intros (o & Ho & [H|[[_ H]|[H _]]]); [done| |].
      * eexists. split; [done|]. exists o. by apply map_lookup_filter_Some.
      * exfalso. apply H. rewrite Ed. set_solver.
  - split.
    + intros (qs & [= <-] & [o Ho]).
      apply map_lookup_filter_Some in Ho. destruct Ho as [Ho Hp]. simpl in Hp.
      exists o. split; [done|]. right. right. split; [|done]. set_solver.
    + intros (o & Ho & [H|[[H _]|[_ H]]]); [done|done|].
      eexists. split; [done|]. exists o. by apply map_lookup_filter_Some.
Qed.

(** Property X19.  An authenticated user sees an order exactly when the order
    exists and the user is an admin or a manager, or has role delivery and is
    its deliverer, or has another role and placed it.  In particular a
    delivery user does not see an order of their own that is not assigned to
    them. *)
Theorem orders_visible_by_role (w : World) (viewer : User.t) (k : Z)
    (Hauth : User.is_authenticated viewer = true) :
  (can_see w viewer k <->
   exists o, orders w !! k = Some o
     ∧ (get_role viewer ∈ ["admin"; "manager"]
        ∨ (get_role viewer = "delivery"
           ∧ exists d, Order.deliverer o = Some d ∧ User.id d = User.id viewer)
        ∨ ((get_role viewer ∉ ["admin"; "manager"; "delivery"])
           ∧ User.id (Order.user o) = User.id viewer)))
  ∧ (forall o, orders w !! k = Some o -> get_role viewer = "delivery" ->
       Order.deliverer o = None -> ¬ can_see w viewer k).
Proof.
  split.
  - rewrite (can_see_iff w viewer k Hauth). unfold delivered_by, placed_by.
    split; intros (o & Ho & H); exists o; (split; [done|]).
    + destruct H as [H|[[Hr H]|[Hr H]]]; [by left| |].
      * right. left. split; [done|].
        destruct (Order.deliverer o) as [d|]; [|done].
        exists d. split; [done | by apply Z.eqb_eq].
      * right. right. split; [done | by apply Z.eqb_eq].
    + destruct H as [H|[[Hr (d & -> & H)]|[Hr H]]]; [by left| |].
      * right. left. split; [done | by apply Z.eqb_eq].
      * right. right. split; [done | by apply Z.eqb_eq].
  - intros o Ho Hr Hnone Hsee.
    apply (can_see_iff w viewer k Hauth) in Hsee.
    destruct Hsee as (o' & Ho' & H). rewrite Ho in Ho'. injection Ho' as <-.
    destruct H as [H|[[_ H]|[H _]]].
    + by apply get_role_delivery in Hr.
    + unfold delivered_by in H. by rewrite Hnone in H.
    + apply H. rewrite Hr. set_solver.
Qed.

Lemma orders_visible_by_role_witness :
  ¬ can_see (Sample.world_in Sample.pending)
      (User.Build 10 false true ["delivery"]) 7.
Proof.
  refine (proj2 (orders_visible_by_role (Sample.world_in Sample.pending)
                   (User.Build 10 false true ["delivery"]) 7 _)
            (Sample.order_in Sample.pending) _ _ _).
  - reflexivity.
  - reflexivity.
  - reflexivity.
  - reflexivity.
Defined.

(** Property X20.  An update does not change who sees the order, deliverers
    apart: for an order instance loaded from its row, and whatever the
    outcome of the update, an authenticated user whose role is not delivery
    sees after the update exactly the orders seen before it. *)
Theorem update_keeps_visibility
    (st : OrderUpdater.t * World) (viewer : User.t)
    (Hloaded : orders st.2 !! Order.id (order st.1) = Some (order st.1))
    (Hauth : User.is_authenticated viewer = true)
    (Hrole : get_role viewer ≠ "delivery") :
  forall k, can_see (run st).2.2 viewer k <-> can_see st.2 viewer k.
Proof.
  intros k. rewrite !can_see_iff by done.
  pose proof (run_frame st) as [Hid Hout]. simpl in Hout.
  destruct (run st).1 as [e|o'].
  { destruct Hout as (-> & _). done. }
  destruct Hout as (-> & Ho & _). rewrite Ho.
  destruct (decide (k = Order.id (order st.1))) as [->|Hk].
  2: { by rewrite lookup_insert_ne. }
  rewrite lookup_insert_eq, Hloaded.
  assert (placed_by viewer (order (run st).2.1) = placed_by viewer (order st.1)) as Hp.
  { unfold placed_by. by destruct Hid as (_ & -> & _). }
  split; intros (o & [= <-] & H); eexists; (split; [done|]);
    (destruct H as [H|[[H _]|[H1 H2]]]; [by left | done |]);
    right; right; (split; [done|]); by rewrite Hp in *.
Qed.

Lemma update_keeps_visibility_witness :
  can_see (update (Sample.order_in Sample.pending) Sample.manager
             {[ "deliverer" := VUser Sample.courier ]}
             (Sample.world_in Sample.pending)).2.2 Sample.customer 7
  <-> can_see (Sample.world_in Sample.pending) Sample.customer 7.
Proof.
  refine (update_keeps_visibility
    (init (Sample.order_in Sample.pending) Sample.manager
       {[ "deliverer" := VUser Sample.courier ]},
     Sample.world_in Sample.pending) Sample.customer _ _ _ 7%Z).
  - reflexivity.
  - reflexivity.
  - vm_compute. discriminate.
Defined.

(** ** Assigning a deliverer through the serializer *)

Lemma exact_delivery_group (u : User.t) :
  existsb (String.eqb "delivery") (User.groups u) = true
  <-> "delivery" ∈ User.groups u.
Proof.
  rewrite existsb_exists. split.
  - intros (name & Hin & He). apply String.eqb_eq in He. subst name.
    by apply list_elem_of_In.
  - intros Hin. exists "delivery". split; [by apply list_elem_of_In | done].
Qed.

Lemma delivery_member_role (u : User.t) :
  "delivery" ∈ User.groups u -> get_role u ∈ ["admin"; "manager"; "delivery"].
Proof.
  intros Hin.
  assert (is_role u "delivery" = true) as Hd.
  { apply is_role_group; [by right|]. by exists "delivery". }
  unfold get_role, first_role.
  destruct (is_role u "admin"); [set_solver|].
  destruct (is_role u "manager"); [set_solver|].
  rewrite Hd. set_solver.
Qed.

(** Property X21.  [OrderSerializer.validate] accepts a change-set that
    proposes a user as deliverer exactly when that user belongs to a group
    named delivery, letter for letter, and returns the change-set unchanged;
    otherwise it raises a [ValidationError] on the deliverer field.  The
    match is stricter than the one of the roles: a member of a group spelled
    differently has the role delivery and is still refused. *)
Theorem deliverer_must_be_delivery_crew
    (attrs : gmap string Value) (u : User.t)
    (Hdata : attrs !! "deliverer" = Some (VUser u)) :
  (OrderSerializer_validate attrs = inr attrs <-> "delivery" ∈ User.groups u)
  ∧ (("delivery" ∉ User.groups u) ->
     OrderSerializer_validate attrs =
       inl (ValidationError (Dict "deliverer"
              "You can assign this order only to a Delivery Crew member")))
  ∧ ("delivery" ∈ User.groups u -> is_role u "delivery" = true)
  ∧ ((exists name, name ∈ User.groups u ∧ lower name = "delivery")
     -> is_role u "delivery" = true).
Proof.
  assert (OrderSerializer_validate attrs =
            if existsb (String.eqb "delivery") (User.groups u) then inr attrs
            else inl (ValidationError (Dict "deliverer"
                        "You can assign this order only to a Delivery Crew member")))
    as ->.
  { unfold OrderSerializer_validate. rewrite Hdata.
    change (default VNone (Some (VUser u))) with (VUser u). cbn [truthy].
    by destruct (existsb (String.eqb "delivery") (User.groups u)). }
  destruct (existsb (String.eqb "delivery") (User.groups u)) eqn:E.
  - apply exact_delivery_group in E. split; [done|]. split; [done|].
    split; intros H; apply is_role_group; try (by right); [by exists "delivery"|done].
  - assert ("delivery" ∉ User.groups u) as Hn.
    { intros H. apply exact_delivery_group in H. by rewrite H in E. }
    split; [done|]. split; [done|].
    split; intros H; apply is_role_group; try (by right); [by exists "delivery"|done].
Qed.

Lemma deliverer_must_be_delivery_crew_witness :
  OrderSerializer_validate
    {[ "deliverer" := VUser (User.Build 4 false true ["Delivery"]) ]} =
    inl (ValidationError (Dict "deliverer"
           "You can assign this order only to a Delivery Crew member"))
  ∧ is_role (User.Build 4 false true ["Delivery"]) "delivery" = true.
Proof.
  pose proof (deliverer_must_be_delivery_crew
    {[ "deliverer" := VUser (User.Build 4 false true ["Delivery"]) ]}
    (User.Build 4 false true ["Delivery"]) eq_refl) as (_ & Hrej & _ & Hrole).
  split.
  - apply Hrej. simpl. intros H. apply list_elem_of_In in H. simpl in H.
    destruct H as [H|[]]. discriminate H.
  - apply Hrole. exists "Delivery". split; [apply list_elem_of_here | reflexivity].
Defined.

(** The deliverer of the order once the deliverer handler has passed, when
    the change-set proposes the user [u]. *)
Lemma deliverer_after_handler (s : OrderUpdater.t) (w : World) (u : User.t) :
  data s !! "deliverer" = Some (VUser u) ->
  delivered_by u (order (_handle_deliverer (s, w)).2.1) = true.
Proof.
  intros Hd. unfold _handle_deliverer, delivered_by. exec. rewrite Hd. simpl.
  destruct (Order.deliverer (order s)) as [d|] eqn:Ed; simpl.
  - destruct (Z.eqb_spec (User.id u) (User.id d)) as [E|E]; simpl.
    + rewrite Ed. apply Z.eqb_eq. by rewrite E.
    + destruct (str_in _ _); simpl.
      * destruct (order_statuses w !! "shipped"); simpl; apply Z.eqb_refl.
      * apply Z.eqb_refl.
  - destruct (str_in _ _); simpl.
    + destruct (order_statuses w !! "shipped"); simpl; apply Z.eqb_refl.
    + apply Z.eqb_refl.
Qed.

Lemma delivered_by_kept (u : User.t) (st st' : OrderUpdater.t * World) :
  data st.1 !! "deliverer" = Some (VUser u) ->
  delivered_by u (order st.1) = true ->
  fields_from_change_set st st' ->
  delivered_by u (order st'.1) = true.
Proof.
  intros Hd Hb ([E|(u' & Hl & E)] & _); unfold delivered_by in *; rewrite E; [done|].
  rewrite Hd in Hl. injection Hl as <-. apply Z.eqb_refl.
Qed.

(** Property X22.  Whoever is assigned through the serializer can see the
    order: when [validate] accepts a change-set proposing the user [u] as
    deliverer and the update is accepted, the saved order is delivered by [u]
    and it is in the queryset of orders of [u]. *)
Theorem assigned_deliverer_sees_the_order
    (instance : Order.t) (actor u : User.t) (attrs : gmap string Value)
    (w : World) (o : Order.t) (st' : OrderUpdater.t * World)
    (Hdata : attrs !! "deliverer" = Some (VUser u))
    (Hvalid : OrderSerializer_validate attrs = inr attrs)
    (Hsaved : User.is_authenticated u = true)
    (Hrun : update instance actor attrs w = (inr o, st')) :
  delivered_by u o = true
  ∧ orders st'.2 !! Order.id instance = Some o
  ∧ can_see st'.2 u (Order.id instance).
Proof.
  assert ("delivery" ∈ User.groups u) as Hgroup
    by (by apply (deliverer_must_be_delivery_crew attrs u Hdata)).
  pose proof (delivery_member_role u Hgroup) as Hrole.
  unfold update in Hrun.
  set (s0 := init instance actor attrs) in *.
  assert (data s0 !! "deliverer" = Some (VUser u)) as Hd0
    by (unfold s0; simpl; by rewrite lookup_delete_ne).
  pose proof (run_frame (s0, w)) as [_ Hout]. simpl in Hout.
  rewrite Hrun in Hout. simpl in Hout. destruct Hout as (Ho & Hrow & _).
  assert (delivered_by u o = true) as Hby.
  { rewrite Ho. clear Ho Hrow. revert Hrun.
    unfold run, mbind, M_bind.
    destruct (_check_allowed_fields (s0, w)) as [[e|[]] st1] eqn:E1; [done|].
    pose proof (check_frame (s0, w)) as Hc. rewrite E1 in Hc. simpl in Hc. subst st1.
    pose proof (deliverer_after_handler s0 w u Hd0) as H2.
    pose proof (deliverer_fields (s0, w)) as F2.
    destruct (_handle_deliverer (s0, w)) as [[e|[]] st2]; [done|]. simpl in H2, F2.
    assert (data st2.1 !! "deliverer" = Some (VUser u)) as Hd2
      by (destruct F2 as (_ & _ & ->); done).
    pose proof (address_fields st2) as F3.
    destruct (_handle_delivery_address st2) as [[e|[]] st3]; [done|]. simpl in F3.
    pose proof (delivered_by_kept u st2 st3 Hd2 H2 F3) as H3.
    assert (data st3.1 !! "deliverer" = Some (VUser u)) as Hd3
      by (destruct F3 as (_ & _ & ->); done).
    pose proof (intent_fields st3) as F4.
    destruct (_handle_intent st3) as [[e|[]] st4]; [done|]. simpl in F4.
    pose proof (delivered_by_kept u st3 st4 Hd3 H3 F4) as H4.
    assert (data st4.1 !! "deliverer" = Some (VUser u)) as Hd4
      by (destruct F4 as (_ & _ & ->); done).
    pose proof (transition_fields st4) as F5.
    destruct (_handle_status_transition st4) as [[e|[]] st5]; [done|]. simpl in F5.
    pose proof (delivered_by_kept u st4 st5 Hd4 H4 F5) as H5.
    destruct st5 as [s5 w5]. simpl. intros [= _ <-]. simpl.
    exact H5. }
  split; [exact Hby|]. simpl in Hrow.
  assert (orders st'.2 !! Order.id instance = Some o) as Hl
    by (rewrite Hrow; apply lookup_insert_eq).
  split; [exact Hl|].
  apply can_see_iff; [done|]. exists o. split; [done|].
  destruct (decide (get_role u ∈ ["admin"; "manager"])) as [|Hn]; [by left|].
  right. left. split; [set_solver | done].
Qed.

Lemma assigned_deliverer_sees_the_order_witness :
  let r := update (Sample.order_in Sample.pending) Sample.manager
             {[ "deliverer" := VUser Sample.courier ]}
             (Sample.world_in Sample.pending) in
  delivered_by Sample.courier (order r.2.1) = true
  ∧ orders r.2.2 !! 7%Z = Some (order r.2.1)
  ∧ can_see r.2.2 Sample.courier 7.
Proof.
  intros r.
  refine (assigned_deliverer_sees_the_order
    (Sample.order_in Sample.pending) Sample.manager Sample.courier
    {[ "deliverer" := VUser Sample.courier ]} (Sample.world_in Sample.pending)
    (order r.2.1) r.2 _ _ _ _).
  - reflexivity.
  - reflexivity.
  - reflexivity.
  - vm_compute. reflexivity.
Defined.

(** ** The history and the items of an order *)

Lemma can_see_lookup (w : World) (user : User.t) (k : Z) (qs : gmap Z Order.t) :
  get_orders w user = Some qs ->
  (can_see w user k -> exists o, qs !! k = Some o ∧ orders w !! k = Some o)
  ∧ (¬ can_see w user k -> qs !! k = None).
Proof.
  intros Hq. split.
  - intros (qs' & Hq' & [o Ho]). rewrite Hq in Hq'. injection Hq' as <-.
    exists o. split; [done|].
    revert Hq Ho. unfold get_orders.
    destruct (str_in _ _); [by intros [= <-]|].
    destruct (negb _); [done|].
    destruct (String.eqb _ _); intros [= <-] Ho;
      apply map_lookup_filter_Some in Ho; by destruct Ho.
  - intros Hn. destruct (qs !! k) as [o|] eqn:Ho; [|done].
    exfalso. apply Hn. exists qs. split; [done | by exists o].
Qed.

(** Property X23.  For an authenticated user and an order number other than
    zero, the history view returns the history entries of the order when the
    user can see the order, and otherwise raises the same [NotFound]
    whether the order exists or not.  Without an order number, which is also
    how the number zero is read, admin and manager get the whole history
    table and every other user gets nothing. *)
Theorem history_follows_order_visibility
    (w : World) (user : User.t) (k : Z)
    (Hauth : User.is_authenticated user = true)
    (Hk : k ≠ 0%Z) :
  (can_see w user k ->
   exists o, orders w !! k = Some o
     ∧ OrderHistoryViewSet.get_queryset w user (Some k)
       = inr (filter (fun h => OrderHistory.order h = Order.id o)
                (order_histories w)))
  ∧ (¬ can_see w user k ->
     OrderHistoryViewSet.get_queryset w user (Some k)
     = inl (NotFound "Order not found or not accessible"))
  ∧ OrderHistoryViewSet.get_queryset w user (Some 0%Z)
    = OrderHistoryViewSet.get_queryset w user None
  ∧ OrderHistoryViewSet.get_queryset w user None
    = inr (if bool_decide (get_role user ∈ ["admin"; "manager"])
           then order_histories w else []).
Proof.
  unfold OrderHistoryViewSet.get_queryset. simpl.
  rewrite (proj2 (Z.eqb_neq k 0) Hk).
  assert (exists qs, get_orders w user = Some qs) as [qs Hq].
  { unfold get_orders. rewrite Hauth. simpl.
    destruct (str_in _ _); [by eexists|]. destruct (String.eqb _ _); by eexists. }
  rewrite Hq. destruct (can_see_lookup w user k qs Hq) as [Hyes Hno].
  split; [|split; [|split]].
  - intros Hsee. destruct (Hyes Hsee) as (o & -> & Ho). by exists o.
  - intros Hsee. by rewrite (Hno Hsee).
  - done.
  - unfold str_in. by case_bool_decide.
Qed.

Lemma history_follows_order_visibility_witness :
  OrderHistoryViewSet.get_queryset (Sample.world_in Sample.pending)
    Sample.courier (Some 7%Z)
  = inl (NotFound "Order not found or not accessible").
Proof.
  refine (proj1 (proj2 (history_follows_order_visibility
    (Sample.world_in Sample.pending) Sample.courier 7 _ _)) _).
  - reflexivity.
  - lia.
  - intros (qs & Hq & Hs). vm_compute in Hq. injection Hq as <-.
    vm_compute in Hs. by destruct Hs.
Defined.

(** Property X24.  The items view refuses every user of role delivery with
    [PermissionDenied], before looking at the order number, also for the
    orders assigned to that user, whose history the user may read.  For an
    authenticated user of another role and an order number other than zero
    it returns the items of the order when the user can see the order, and
    raises [NotFound] otherwise. *)
Theorem items_are_closed_to_delivery
    (w : World) (order_items : list OrderItem.t) (user : User.t) (k : Z)
    (Hauth : User.is_authenticated user = true)
    (Hk : k ≠ 0%Z) :
  (get_role user = "delivery" ->
   forall order_id,
     OrderItemViewSet.get_queryset w order_items user order_id
     = inl (Forbidden "You don't have access to the content of this order"))
  ∧ (get_role user ≠ "delivery" -> can_see w user k ->
     exists o, orders w !! k = Some o
       ∧ OrderItemViewSet.get_queryset w order_items user (Some k)
         = inr (filter (fun i => OrderItem.order i = Order.id o) order_items))
  ∧ (get_role user ≠ "delivery" -> ¬ can_see w user k ->
     OrderItemViewSet.get_queryset w order_items user (Some k)
     = inl (NotFound "Order not found or not accessible")).
Proof.
  unfold OrderItemViewSet.get_queryset. simpl.
  rewrite (proj2 (Z.eqb_neq k 0) Hk).
  assert (exists qs, get_orders w user = Some qs) as [qs Hq].
  { unfold get_orders. rewrite Hauth. simpl.
    destruct (str_in _ _); [by eexists|]. destruct (String.eqb _ _); by eexists. }
  rewrite Hq. destruct (can_see_lookup w user k qs Hq) as [Hyes Hno].
  split; [|split].
  - by intros ->.
  - intros Hr Hsee. rewrite (proj2 (String.eqb_neq _ _) Hr).
    destruct (Hyes Hsee) as (o & -> & Ho). by exists o.
  - intros Hr Hsee. rewrite (proj2 (String.eqb_neq _ _) Hr). by rewrite (Hno Hsee).
Qed.

Lemma items_are_closed_to_delivery_witness :
  OrderItemViewSet.get_queryset
    (BuildWorld {[ 7%Z := Order.with_deliverer (Some Sample.courier)
                            (Sample.order_in Sample.shipped) ]} []
       Sample.statuses (fun _ => 0%Z) 0)
    [OrderItem.Build 7 1 2 1000 2000] Sample.courier (Some 7%Z)
  = inl (Forbidden "You don't have access to the content of this order").
Proof.
  refine (proj1 (items_are_closed_to_delivery
    (BuildWorld {[ 7%Z := Order.with_deliverer (Some Sample.courier)
                            (Sample.order_in Sample.shipped) ]} []
       Sample.statuses (fun _ => 0%Z) 0)
    [OrderItem.Build 7 1 2 1000 2000] Sample.courier 7 _ _) _ (Some 7%Z)).
  - reflexivity.
  - lia.
  - reflexivity.
Defined.

(** ** Cart prices *)

Lemma round_half_even_error (n : Z) :
  (-50 <= 100 * round_half_even n 100 - n <= 50)%Z.
Proof.
  unfold round_half_even.
  pose proof (Z.div_mod n 100 ltac:(lia)) as Hdm.
  pose proof (Z.mod_pos_bound n 100 ltac:(lia)) as Hr.
  destruct (Z.ltb_spec (2 * (n mod 100)) 100); [lia|].
  destruct (Z.ltb_spec 100 (2 * (n mod 100))); [lia|].
  destruct (Z.even (n / 100)); lia.
Qed.

Lemma round_half_even_exact (q : Z) : round_half_even (100 * q) 100 = q.
Proof.
  unfold round_half_even.
  replace (100 * q)%Z with (q * 100)%Z by lia.
  rewrite Z.div_mul, Z.mod_mul by lia. reflexivity.
Qed.

Lemma round_half_even_monotone (n m : Z) :
  (n <= m)%Z -> (round_half_even n 100 <= round_half_even m 100)%Z.
Proof.
  intros Hle.
  pose proof (Z.div_mod n 100 ltac:(lia)) as Hn.
  pose proof (Z.div_mod m 100 ltac:(lia)) as Hm.
  pose proof (Z.mod_pos_bound n 100 ltac:(lia)) as Rn.
  pose proof (Z.mod_pos_bound m 100 ltac:(lia)) as Rm.
  destruct (decide (n / 100 = m / 100)%Z) as [Eq|Ne].
  - unfold round_half_even. rewrite <- Eq. rewrite <- Eq in Hm.
    destruct (Z.ltb_spec (2 * (n mod 100)) 100);
      destruct (Z.ltb_spec (2 * (m mod 100)) 100); try lia;
      destruct (Z.ltb_spec 100 (2 * (n mod 100)));
      destruct (Z.ltb_spec 100 (2 * (m mod 100))); try lia;
      destruct (Z.even (n / 100)); lia.
  - assert (n / 100 < m / 100)%Z as Hlt.
    { pose proof (Z.div_le_mono n m 100 ltac:(lia) Hle). lia. }
    unfold round_half_even.
    destruct (Z.ltb_spec (2 * (n mod 100)) 100);
      destruct (Z.ltb_spec (2 * (m mod 100)) 100);
      destruct (Z.ltb_spec 100 (2 * (n mod 100)));
      destruct (Z.ltb_spec 100 (2 * (m mod 100)));
      destruct (Z.even (n / 100)); destruct (Z.even (m / 100)); lia.
Qed.

Lemma get_price_bounds (book : Book.t) :
  (0 <= Book.baseprice book)%Z -> (0 <= Book.discount book <= 100)%Z ->
  (0 <= BookSerializer_get_price book <= Book.baseprice book)%Z.
Proof.
  intros Hp Hd. unfold BookSerializer_get_price.
  pose proof (round_half_even_error
                (Book.baseprice book * (100 - Book.discount book))) as Herr.
  nia.
Qed.

(** Property X25.  The selling price of a book, which a new cart entry takes
    as its unit price, is the base price less the discount rounded to the
    hundredth: for a base price that is not negative and a discount between
    0 and 100 it lies between 0 and the base price, is within half a
    hundredth of the exact discounted price, is the base price at discount 0
    and 0 at discount 100, and a larger discount on the same base price
    never gives a larger selling price. *)
Theorem selling_price_is_the_discounted_price (book : Book.t)
    (Hprice : (0 <= Book.baseprice book)%Z)
    (Hdiscount : (0 <= Book.discount book <= 100)%Z) :
  let price := BookSerializer_get_price book in
  (0 <= price <= Book.baseprice book)%Z
  ∧ (-50 <= 100 * price
            - Book.baseprice book * (100 - Book.discount book) <= 50)%Z
  ∧ (Book.discount book = 0%Z -> price = Book.baseprice book)
  ∧ (Book.discount book = 100%Z -> price = 0%Z)
  ∧ (forall other : Book.t,
       Book.baseprice other = Book.baseprice book ->
       (Book.discount book <= Book.discount other)%Z ->
       (BookSerializer_get_price other <= price)%Z).
Proof.
  intros price. subst price.
  split; [by apply get_price_bounds|]. unfold BookSerializer_get_price.
  split; [apply round_half_even_error|]. split; [|split].
  - intros ->. replace (Book.baseprice book * (100 - 0))%Z
      with (100 * Book.baseprice book)%Z by lia.
    apply round_half_even_exact.
  - intros ->. replace (Book.baseprice book * (100 - 100))%Z with (100 * 0)%Z by lia.
    apply round_half_even_exact.
  - intros other -> Hle. apply round_half_even_monotone. nia.
Qed.

Lemma selling_price_is_the_discounted_price_witness :
  BookSerializer_get_price
    (Book.Build 1 (Stock.Build 1 "In stock" "in-stock") 1999 15) = 1699%Z
  ∧ (-50 <= 100 * 1699 - 1999 * 85 <= 50)%Z.
Proof.
  pose proof (selling_price_is_the_discounted_price
    (Book.Build 1 (Stock.Build 1 "In stock" "in-stock") 1999 15)
    ltac:(simpl; lia) ltac:(simpl; lia)) as (_ & H & _).
  split; [reflexivity|exact H].
Defined.





(** Property X28.  [CartSerializer.validate] accepts exactly the data whose
    quantity is at least 1 and whose book, if any, has a stock that is
    neither out-of-stock nor discontinued, and returns them unchanged.  The
    quantity is checked first, so a quantity below 1 is reported whatever
    the stock of the book; data without a quantity raise [TypeError]. *)
Theorem cart_validate_accepts (attrs : CartData.t) :
  (forall out, CartSerializer.validate attrs = inr out -> out = attrs)
  ∧ (CartSerializer.validate attrs = inr attrs <->
     exists q, CartData.quantity attrs = Some q ∧ (1 <= q)%Z
       ∧ forall book, CartData.book attrs = Some book ->
           Stock.slug (Book.stock book) ∉ ["out-of-stock"; "discontinued"])
  ∧ (forall q, CartData.quantity attrs = Some q -> (q < 1)%Z ->
       CartSerializer.validate attrs
       = inl (CartValidationError (Dict "quantity" "Quantity cannot be less than 1")))
  ∧ (CartData.quantity attrs = None ->
     CartSerializer.validate attrs = inl CartTypeError).
Proof.
  unfold CartSerializer.validate.
  destruct (CartData.quantity attrs) as [q|].
  2: { split; [done|]. split; [|done]. split; [done|]. by intros (q & ? & _). }
  destruct (Z.ltb_spec q 1) as [Hlt|Hge].
  { split; [done|]. split; [|split; [done|done]].
    split; [done|]. intros (q' & [= <-] & ? & _). lia. }
  destruct (CartData.book attrs) as [book|].
  2: { split; [by intros out [= <-]|]. split; [|split; [intros q' [= <-]; lia|done]].
       split; [|done]. intros _. exists q. by repeat split. }
  destruct (String.eqb_spec (Stock.slug (Book.stock book)) "out-of-stock") as [E1|E1].
  { split; [done|]. split; [|split; [intros q' [= <-]; lia|done]].
    split; [done|]. intros (q' & _ & _ & H). exfalso.
    apply (H book eq_refl). rewrite E1. apply list_elem_of_here. }
  destruct (String.eqb_spec (Stock.slug (Book.stock book)) "discontinued") as [E2|E2].
  { split; [done|]. split; [|split; [intros q' [= <-]; lia|done]].
    split; [done|]. intros (q' & _ & _ & H). exfalso.
    apply (H book eq_refl). rewrite E2. apply list_elem_of_further, list_elem_of_here. }
  split; [by intros out [= <-]|]. split; [|split; [intros q' [= <-]; lia|done]].
  split; [|done]. intros _. exists q. split; [done|]. split; [done|].
  intros book' [= <-]. set_solver.
Qed.

(** ** Flushing the cart *)

Lemma filter_split_length {A} (P : A -> Prop) `{!forall x, Decision (P x)}
    (l : list A) :
  length l = (length (filter (fun x => ¬ P x) l) + length (filter P l))%nat.
Proof.
  induction l as [|x l IH]; [done|].
  rewrite !filter_cons. destruct (decide (P x)).
  - rewrite decide_False by tauto. simpl. lia.
  - rewrite decide_True by done. simpl. lia.
Qed.

Lemma filter_all {A} (P : A -> Prop) `{!forall x, Decision (P x)} (l : list A) :
  (forall x, x ∈ l -> P x) -> filter P l = l.
Proof.
  induction l as [|x l IH]; [done|]. intros Hall.
  rewrite filter_cons, decide_True by (apply Hall, list_elem_of_here).
  f_equal. apply IH. intros y Hy. by apply Hall, list_elem_of_further.
Qed.

Lemma filter_none {A} (P : A -> Prop) `{!forall x, Decision (P x)} (l : list A) :
  (forall x, x ∈ l -> ¬ P x) -> filter P l = [].
Proof.
  induction l as [|x l IH]; [done|]. intros Hall.
  rewrite filter_cons, decide_False by (apply Hall, list_elem_of_here).
  apply IH. intros y Hy. by apply Hall, list_elem_of_further.
Qed.

(** Property X29.  [flush_cart], called by an authenticated user, removes
    from the cart table exactly the entries of that user and leaves those of
    every other user in place and in order.  With at least one entry removed
    the response has status 204 and reports their number; with none the
    table is unchanged and the response has status 400. *)
Theorem flush_cart_removes_own_entries
    (carts : list Cart.t) (request_user : User.t)
    (Hauth : User.is_authenticated request_user = true) :
  exists carts' body status,
    CartViewSet.flush_cart carts request_user = Some (carts', body, status)
    ∧ carts' = filter (fun c => User.id (Cart.user c) ≠ User.id request_user) carts
    ∧ (forall c, c ∈ carts' <->
         c ∈ carts ∧ User.id (Cart.user c) ≠ User.id request_user)
    ∧ ((forall c, c ∈ carts -> User.id (Cart.user c) ≠ User.id request_user) ->
       carts' = carts ∧ body = Mesasge_empty ∧ status = 400%Z)
    ∧ ((exists c, c ∈ carts ∧ User.id (Cart.user c) = User.id request_user) ->
       exists count, body = Message_flushed count ∧ status = 204%Z
         ∧ (0 < count)%nat ∧ length carts = (length carts' + count)%nat).
Proof.
  unfold CartViewSet.flush_cart. rewrite Hauth. simpl.
  do 3 eexists. split; [reflexivity|]. split; [reflexivity|].
  set (mine := fun c : Cart.t => User.id (Cart.user c) = User.id request_user).
  split.
  { intros c. rewrite list_elem_of_filter. tauto. }
  split.
  - intros Hnone.
    assert (filter mine carts = []) as Hempty.
    { apply filter_none. intros c Hc. by apply Hnone. }
    rewrite Hempty. simpl. split; [|done].
    apply filter_all. intros c Hc. by apply Hnone.
  - intros (c & Hc & Hmine).
    assert (0 < length (filter mine carts))%nat as Hpos.
    { assert (c ∈ filter mine carts) as Hin by (by apply list_elem_of_filter).
      destruct (filter mine carts); [inversion Hin|simpl; lia]. }
    exists (length (filter mine carts)).
    destruct (Nat.eqb_spec (length (filter mine carts)) 0) as [E|E]; [lia|].
    simpl. split; [done|]. split; [done|]. split; [done|].
    apply (filter_split_length mine).
Qed.

Lemma flush_cart_removes_own_entries_witness :
  CartViewSet.flush_cart
    [Cart.Build 5 Sample.customer
       (Book.Build 1 (Stock.Build 1 "In stock" "in-stock") 1999 15) 3 1699 5097;
     Cart.Build 6 Sample.courier
       (Book.Build 1 (Stock.Build 1 "In stock" "in-stock") 1999 15) 1 1699 1699]
    Sample.customer
  = Some ([Cart.Build 6 Sample.courier
             (Book.Build 1 (Stock.Build 1 "In stock" "in-stock") 1999 15) 1 1699 1699],
          Message_flushed 1, 204%Z).
Proof.
  destruct (flush_cart_removes_own_entries
    [Cart.Build 5 Sample.customer
       (Book.Build 1 (Stock.Build 1 "In stock" "in-stock") 1999 15) 3 1699 5097;
     Cart.Build 6 Sample.courier
       (Book.Build 1 (Stock.Build 1 "In stock" "in-stock") 1999 15) 1 1699 1699]
    Sample.customer eq_refl) as (carts' & body & status & _).
  reflexivity.
Defined.

(** ** The checkout *)

Lemma OrderStatus_by_pk_found (w : World) (pk : Z) :
  (exists slug st, order_statuses w !! slug = Some st ∧ OrderStatus.id st = pk) ->
  exists st, OrderStatus_by_pk w pk = Some st ∧ OrderStatus.id st = pk.
Proof.
  intros (slug & st & Hst & Hid). unfold OrderStatus_by_pk.
  destruct (List.find _ _) as [[k s]|] eqn:E.
  - apply List.find_some in E as [_ E]. simpl in E.
    exists s. split; [done|]. lia.
  - exfalso. pose proof (List.find_none _ _ E (slug, st)) as H.
    simpl in H. rewrite <- list_elem_of_In, elem_of_map_to_list in H.
    specialize (H Hst). lia.
Qed.

Lemma match_nonempty {A B} (l : list A) (a b : B) :
  l ≠ [] -> match l with [] => a | _ :: _ => b end = b.
Proof. by destruct l. Qed.

Lemma filter_twice_none {A} (P : A -> Prop) `{!forall x, Decision (P x)}
    (l : list A) :
  filter P (filter (fun x => ¬ P x) l) = [].
Proof.
  apply filter_none. intros x Hx. apply list_elem_of_filter in Hx. tauto.
Qed.

(** Property X30.  Take an authenticated user with a cart that is not
    empty, on tables that respect their constraints: a status with key 1
    exists, the key of the new order is unused and no item refers to it, the
    user has one cart entry per book, and the amounts of the cart entries fit
    their columns.  When the sum of the prices of the user's cart entries
    has more than six digits, the checkout is refused with the error of the
    total column, as for two entries of 6000.00.  When the sum fits, the
    checkout places one order: it has the user as owner, no deliverer, the
    validated address, the status with key 1, and that sum as total.  Each
    of the user's cart entries becomes one item of the order with the same
    book, quantity and amounts, so the prices of the items of the order add
    up to its total.  One history entry records the creation by the user,
    the user's cart is emptied and every other cart entry, order, item and
    history entry is kept.  The owner then sees the order among the orders
    unless the owner has role delivery, and a second checkout answers 400
    and changes nothing. *)
Theorem checkout_turns_the_cart_into_an_order
    (shop : Shop.t) (user : User.t) (delivery_address : Address.t) (pk : Z)
    (Hauth : User.is_authenticated user = true)
    (Hcart : exists c, c ∈ Shop.carts shop
                       ∧ User.id (Cart.user c) = User.id user)
    (Hstatus : exists slug st,
        order_statuses (Shop.world shop) !! slug = Some st
        ∧ OrderStatus.id st = 1%Z)
    (Hfresh : orders (Shop.world shop) !! pk = None)
    (Hitems : Forall (fun i => OrderItem.order i ≠ pk) (Shop.order_items shop))
    (Hbooks : NoDup ((fun c => Book.id (Cart.book c)) <$>
                       filter (fun c => User.id (Cart.user c) = User.id user)
                              (Shop.carts shop)))
    (Hfits : Forall (fun c => fits_column (Cart.unit_price c) = true
                              ∧ fits_column (Cart.price c) = true)
                    (Shop.carts shop)) :
  let mine := filter (fun c => User.id (Cart.user c) = User.id user)
                     (Shop.carts shop) in
  (fits_column (sum (Cart.price <$> mine)) = false ->
   OrderViewSet.create shop user (inr delivery_address) pk
   = inl CheckoutColumnOverflow)
  ∧
  (fits_column (sum (Cart.price <$> mine)) = true ->
  exists shop' order items history,
    OrderViewSet.create shop user (inr delivery_address) pk
    = inr (shop', Order_placed pk, 201%Z)
    (* the order *)
    ∧ orders (Shop.world shop') = <[pk := order]> (orders (Shop.world shop))
    ∧ Order.id order = pk ∧ Order.user order = user
    ∧ Order.deliverer order = None
    ∧ Order.delivery_address order = delivery_address
    ∧ OrderStatus.id (Order.status order) = 1%Z
    ∧ Order.total order = sum (Cart.price <$> mine)
    (* its items *)
    ∧ Shop.order_items shop' = (Shop.order_items shop ++ items)%list
    ∧ filter (fun i => OrderItem.order i = pk) (Shop.order_items shop') = items
    ∧ Forall2 (fun c i => OrderItem.book i = Book.id (Cart.book c)
                          ∧ OrderItem.quantity i = Cart.quantity c
                          ∧ OrderItem.unit_price i = Cart.unit_price c
                          ∧ OrderItem.price i = Cart.price c) mine items
    ∧ sum (OrderItem.price <$> items) = Order.total order
    (* its history *)
    ∧ order_histories (Shop.world shop')
      = (order_histories (Shop.world shop) ++ [history])%list
    ∧ OrderHistory.order history = pk
    ∧ OrderHistory.performed_by history = Some user
    ∧ OrderHistory.action history = "Order created"
    ∧ OrderHistory.status history = Order.status order
    (* the carts *)
    ∧ Shop.carts shop'
      = filter (fun c => User.id (Cart.user c) ≠ User.id user) (Shop.carts shop)
    (* afterwards *)
    ∧ (can_see (Shop.world shop') user pk <-> get_role user ≠ "delivery")
    ∧ (forall validated' pk',
         OrderViewSet.create shop' user (inr validated') pk'
         = inr (shop', No_item_found, 400%Z))).
Proof.
  intros mine.
  destruct (OrderStatus_by_pk_found (Shop.world shop) 1 Hstatus) as (st & Hst & Hid).
  assert (mine ≠ []) as Hne.
  { destruct Hcart as (c0 & Hc0 & Hmine0).
    assert (c0 ∈ mine) as Hin by (by apply list_elem_of_filter).
    intros E. rewrite E in Hin. inversion Hin. }
  split; intros Htotal; unfold OrderViewSet.create; rewrite Hauth; cbv zeta;
    rewrite !andb_false_r; cbn [negb];
    fold mine; rewrite (match_nonempty mine) by done;
    rewrite Htotal; [done|].
  rewrite Hst, Hfresh. cbn [negb].
  set (mk := fun item : Cart.t =>
               OrderItem.Build pk (Book.id (Cart.book item)) (Cart.quantity item)
                 (Cart.unit_price item) (Cart.price item)).
  assert (forallb (fun i => fits_column (OrderItem.unit_price i)
                            && fits_column (OrderItem.price i)) (mk <$> mine) = true)
    as ->.
  { apply forallb_forall. intros i Hi. apply list_elem_of_In in Hi.
    apply list_elem_of_fmap in Hi as (c & -> & Hc). simpl.
    apply list_elem_of_filter in Hc as [_ Hc].
    rewrite Forall_forall in Hfits. destruct (Hfits c Hc) as [-> ->]. done. }
  assert (OrderItem.book <$> (mk <$> mine)
          = (fun c => Book.id (Cart.book c)) <$> mine) as Ebooks.
  { rewrite <- list_fmap_compose. done. }
  rewrite Ebooks, (bool_decide_eq_true_2 _ Hbooks).
  assert (existsb (fun i => existsb (same_item i) (Shop.order_items shop))
                  (mk <$> mine) = false) as ->.
  { apply not_true_is_false. intros H.
    apply existsb_exists in H as (i & Hi & H).
    apply existsb_exists in H as (j & Hj & H).
    apply list_elem_of_In, list_elem_of_fmap in Hi as (c & -> & _).
    apply list_elem_of_In in Hj. rewrite Forall_forall in Hitems.
    specialize (Hitems j Hj). unfold same_item in H. simpl in H.
    apply andb_true_iff in H as [H _]. lia. }
  cbn [negb orb].
  do 4 eexists. split; [reflexivity|]. cbn [Shop.world Shop.carts Shop.order_items
    orders order_histories Order.id Order.user Order.deliverer Order.delivery_address
    Order.status Order.total OrderHistory.order OrderHistory.performed_by
    OrderHistory.action OrderHistory.status].
  repeat (split; [done|]).
  split.
  { rewrite filter_app.
    rewrite (filter_none (fun i => OrderItem.order i = pk) (Shop.order_items shop)).
    2: { intros i Hi. rewrite Forall_forall in Hitems. by apply Hitems. }
    simpl. apply filter_all. intros i Hi.
    apply list_elem_of_fmap in Hi as (c & -> & _). done. }
  split.
  { clear. induction mine as [|c l IH]; simpl; constructor; done. }
  split.
  { f_equal. rewrite <- list_fmap_compose. done. }
  repeat (split; [done|]).
  split.
  - rewrite can_see_iff by done.
    cbn [orders]. split.
    + intros (o & Ho & Hrole) Hd. rewrite lookup_insert_eq in Ho.
      injection Ho as <-.
      destruct Hrole as [Hr|[[_ Hr]|[Hr _]]].
      * rewrite Hd in Hr. set_solver.
      * done.
      * rewrite Hd in Hr. set_solver.
    + intros Hd. eexists. split; [apply lookup_insert_eq|].
      destruct (decide (get_role user ∈ ["admin"; "manager"])) as [Ha|Ha];
        [by left|].
      right. right. split.
      * intros H. apply elem_of_app with (l1 := ["admin"; "manager"])
                                        (l2 := ["delivery"]) in H.
        destruct H as [H|H]; [done|]. set_solver.
      * unfold placed_by. simpl. lia.
  - intros validated' pk'.
    rewrite (filter_twice_none
               (fun c : Cart.t => User.id (Cart.user c) = User.id user)).
    done.
Qed.

Lemma checkout_turns_the_cart_into_an_order_witness :
  (exists shop',
     OrderViewSet.create SampleShop.shop Sample.customer (inr Sample.home) 8
     = inr (shop', Order_placed 8, 201%Z)
     ∧ Shop.carts shop'
       = [Cart.Build 6 Sample.courier SampleShop.novel 1 1699 1699]
     ∧ (Order.total <$> orders (Shop.world shop') !! 8%Z) = Some 9597%Z
     ∧ can_see (Shop.world shop') Sample.customer 8)
  ∧ OrderViewSet.create SampleShop.dear_shop Sample.customer (inr Sample.home) 8
    = inl CheckoutColumnOverflow.
Proof.
  split.
  - destruct (proj2 (checkout_turns_the_cart_into_an_order
                SampleShop.shop Sample.customer Sample.home 8 eq_refl
                ltac:(eexists; split; [apply list_elem_of_here | reflexivity])
                ltac:(exists "pending", Sample.pending; split; reflexivity)
                eq_refl
                ltac:(repeat constructor; discriminate)
                ltac:(vm_compute; repeat constructor; set_solver)
                ltac:(repeat constructor)) eq_refl)
      as (shop' & order & items & history & Hcreate & Horders & _ & _ & _ & _ & _
          & Htotal & _ & _ & _ & _ & _ & _ & _ & _ & _ & Hcarts & Hsee & _).
    exists shop'. split; [exact Hcreate|]. split; [rewrite Hcarts; reflexivity|].
    split.
    + rewrite Horders, lookup_insert_eq. simpl. rewrite Htotal. reflexivity.
    + apply Hsee. discriminate.
  - exact (proj1 (checkout_turns_the_cart_into_an_order
                SampleShop.dear_shop Sample.customer Sample.home 8 eq_refl
                ltac:(eexists; split; [apply list_elem_of_here | reflexivity])
                ltac:(exists "pending", Sample.pending; split; reflexivity)
                eq_refl
                ltac:(repeat constructor; discriminate)
                ltac:(vm_compute; repeat constructor; set_solver)
                ltac:(repeat constructor)) eq_refl).
Defined.
